(** * SampleDB: versioned object store, reference tracking, mail task, object shares

    A shallow embedding of
    - [sampledb/logic/objects.py] (the versioned object store, the schema
      walker [_get_object_properties] and the reference tracker
      [_update_object_references]),
    - [sampledb/logic/background_tasks/send_mail.py] ([handle_send_mail_task]),
    - [sampledb/models/shares.py] ([ObjectShare.__init__]),
    together with the properties stated about them.

    Python values that travel through these functions are JSON documents
    (the [data] and [schema] columns are JSONB).  They are modelled by the
    inductive type [json]; dictionaries keep their insertion order, which is
    the order in which Python iterates over them.  Python exceptions are
    modelled by the type [exn] and a result type [res]. *)

From Stdlib Require Import ZArith String Ascii Bool List Lia.
From stdpp Require Import base option list gmap.
Import ListNotations.

Local Open Scope string_scope.
Local Open Scope list_scope.
Local Open Scope Z_scope.

(** ** JSON documents *)

#[warnings="-register-all"]
Inductive json : Type :=
| JNull
| JBool (b : bool)
| JNum (n : Z)
| JStr (s : string)
| JArr (items : list json)
| JObj (fields : list (string * json)).

(** JSON numbers are restricted to integers: floating point values are not
    modelled.  Strings are the byte strings of the Standard Library. *)

(** ** Exceptions and results *)

Inductive exn : Type :=
| KeyError
| IndexError
| TypeError
| AttributeError
| ActionDoesNotExistError
| UserDoesNotExistError
| ObjectDoesNotExistError
| ObjectVersionDoesNotExistError
| SMTPRecipientsRefused
| SMTPSenderRefused
| SMTPDataError
| SMTPServerDisconnected
| SMTPConnectError
| SMTPAuthenticationError
| OSError.

(** The result of running a piece of Python code: a value, a raised
    exception, or [OutOfFuel] for the fuel-bounded walker below. *)
Inductive res (A : Type) : Type :=
| Ok (a : A)
| Raise (e : exn)
| OutOfFuel.
Arguments Ok {A} a.
Arguments Raise {A} e.
Arguments OutOfFuel {A}.

Definition res_bind {A B : Type} (r : res A) (k : A -> res B) : res B :=
  match r with
  | Ok a => k a
  | Raise e => Raise e
  | OutOfFuel => OutOfFuel
  end.

Notation "x <- e ;; k" := (res_bind e (fun x => k))
  (at level 100, e at next level, k at level 200, right associativity).

(** ** Python operations on JSON values *)

Module Py.

(** [d[k]] on a dictionary, as an option. *)
Fixpoint dict_get (k : string) (fields : list (string * json)) : option json :=
match fields with
| [] => None
| (k', v) :: rest => if String.eqb k k' then Some v else dict_get k rest
end.

Definition dict_keys (fields : list (string * json)) : list string :=
map fst fields.

Definition dict_has (k : string) (fields : list (string * json)) : bool :=
match dict_get k fields with Some _ => true | None => false end.

(** Python's [==] on JSON values.  [True == 1] and [False == 0] hold in
  Python since [bool] is a subclass of [int]; dictionaries compare as
  unordered maps. *)
Fixpoint eq (a b : json) {struct a} : bool :=
match a, b with
| JNull, JNull => true
| JBool x, JBool y => Bool.eqb x y
| JBool x, JNum n => Z.eqb (Z.b2z x) n
| JNum n, JBool y => Z.eqb n (Z.b2z y)
| JNum n, JNum m => Z.eqb n m
| JStr s, JStr t => String.eqb s t
| JArr xs, JArr ys =>
    (fix all2 (xs ys : list json) {struct xs} : bool :=
       match xs, ys with
       | [], [] => true
       | x :: xs', y :: ys' => eq x y && all2 xs' ys'
       | _, _ => false
       end) xs ys
| JObj fs, JObj gs =>
    Nat.eqb (length fs) (length gs) &&
    (fix all_in (fs : list (string * json)) : bool :=
       match fs with
       | [] => true
       | (k, v) :: fs' =>
           match dict_get k gs with
           | Some w => eq v w
           | None => false
           end && all_in fs'
       end) fs
| _, _ => false
end.

(** [a != b]. *)
Definition ne (a b : json) : bool := negb (eq a b).

(** [x is None] / [x is not None]. *)
Definition is_none (v : json) : bool :=
match v with JNull => true | _ => false end.

(** Sequence indexing with Python's negative indices. *)
Definition seq_index {A : Type} (l : list A) (i : Z) : res A :=
let len := Z.of_nat (length l) in
let j := if i <? 0 then i + len else i in
if (j <? 0) || (len <=? j) then Raise IndexError
else match nth_error l (Z.to_nat j) with
     | Some x => Ok x
     | None => Raise IndexError
     end.

Fixpoint chars (s : string) : list json :=
match s with
| EmptyString => []
| String c rest => JStr (String c EmptyString) :: chars rest
end.

Fixpoint substring_of (t s : string) : bool :=
String.prefix t s ||
match s with
| EmptyString => false
| String _ rest => substring_of t rest
end.

(** [container[key]]. *)
Definition getitem (container key : json) : res json :=
match container with
| JObj fields =>
    match key with
    | JStr k =>
        match dict_get k fields with
        | Some v => Ok v
        | None => Raise KeyError
        end
    | JNull | JBool _ | JNum _ => Raise KeyError
    | JArr _ | JObj _ => Raise TypeError
    end
| JArr items =>
    match key with
    | JNum i => seq_index items i
    | JBool b => seq_index items (Z.b2z b)
    | _ => Raise TypeError
    end
| JStr s =>
    match key with
    | JNum i => seq_index (chars s) i
    | JBool b => seq_index (chars s) (Z.b2z b)
    | _ => Raise TypeError
    end
| JNull | JBool _ | JNum _ => Raise TypeError
end.

(** [x in container]. *)
Definition contains (x container : json) : res bool :=
match container with
| JObj fields =>
    match x with
    | JStr k => Ok (dict_has k fields)
    | JNull | JBool _ | JNum _ => Ok false
    | JArr _ | JObj _ => Raise TypeError
    end
| JArr items => Ok (existsb (eq x) items)
| JStr s =>
    match x with
    | JStr t => Ok (substring_of t s)
    | _ => Raise TypeError
    end
| JNull | JBool _ | JNum _ => Raise TypeError
end.

(** The elements produced by [for x in v]. *)
Definition iter (v : json) : res (list json) :=
match v with
| JObj fields => Ok (map JStr (dict_keys fields))
| JArr items => Ok items
| JStr s => Ok (chars s)
| JNull | JBool _ | JNum _ => Raise TypeError
end.

(** [enumerate(l)]. *)
Fixpoint enumerate_from {A : Type} (i : Z) (l : list A) : list (Z * A) :=
match l with
| [] => []
| x :: rest => (i, x) :: enumerate_from (i + 1) rest
end.

Definition enumerate {A : Type} (l : list A) : list (Z * A) :=
enumerate_from 0 l.

End Py.

(** A loop whose body yields a list of items, materialised by [list(...)]:
    the first exception aborts the whole enumeration. *)
Fixpoint flat_mapM {A B : Type} (f : A -> res (list B)) (l : list A)
  : res (list B) :=
  match l with
  | [] => Ok []
  | x :: rest =>
      ys <- f x ;;
      zs <- flat_mapM f rest ;;
      Ok (ys ++ zs)
  end.

(** ** The schema walker: [_get_object_properties] *)

(** A yielded property: path, schema and data of a leaf. *)
Definition property : Type := (list json * json * json)%type.

Fixpoint json_depth (v : json) : nat :=
  match v with
  | JArr items =>
      S ((fix go (l : list json) : nat :=
            match l with
            | [] => O
            | x :: rest => Nat.max (json_depth x) (go rest)
            end) items)
  | JObj fields =>
      S ((fix go (l : list (string * json)) : nat :=
            match l with
            | [] => O
            | (_, x) :: rest => Nat.max (json_depth x) (go rest)
            end) fields)
  | _ => O
  end.

(** The inner generator [iter_object_properties], with the recursion depth
    bounded by [fuel]. *)
Fixpoint iter_object_properties (fuel : nat) (previous_path : list json)
    (schema data : json) {struct fuel} : res (list property) :=
  match fuel with
  | O => OutOfFuel
  | S fuel' =>
      ty <- Py.getitem schema (JStr "type") ;;
      if Py.eq ty (JStr "object") then
        props <- Py.getitem schema (JStr "properties") ;;
        names <- Py.iter props ;;
        flat_mapM (fun property_name =>
          present <- Py.contains property_name data ;;
          if (present : bool) then
            sub_schema <- Py.getitem props property_name ;;
            sub_data <- Py.getitem data property_name ;;
            iter_object_properties fuel' (previous_path ++ [property_name])
              sub_schema sub_data
          else Ok []) names
      else if Py.eq ty (JStr "array") then
        items <- Py.iter data ;;
        flat_mapM (fun entry =>
          item_schema <- Py.getitem schema (JStr "items") ;;
          iter_object_properties fuel' (previous_path ++ [JNum (fst entry)])
            item_schema (snd entry)) (Py.enumerate items)
      else Ok [(previous_path, schema, data)]
  end.

(** The fuel [S (json_depth schema)] is enough for every schema: see
    [iter_object_properties_fuel] and [walk_total] below. *)
Definition walker_fuel (schema : json) : nat := S (json_depth schema).

(** ** Objects, actions and the store *)

(** The attributes of an [Object] (a version of an object) that
    [objects.py] reads. *)
Module Object.
Record t : Type := make {
  object_id : Z;
  version_id : Z;
  action_id : Z;
  data : json;
  schema : json;
  user_id : Z
}.
End Object.
Abbreviation Object := Object.t.

(** The generator started below [previous_path]. *)
Definition walk (previous_path : list json) (schema data : json)
  : res (list property) :=
  iter_object_properties (walker_fuel schema) previous_path schema data.

(** [_get_object_properties(object)]:
    [list(iter_object_properties([], object.schema, object.data))]. *)
Definition _get_object_properties (object : Object) : res (list property) :=
  walk [] (Object.schema object) (Object.data object).

(** Modelled from the spec: the action categories ([ActionType] is declared
    in [sampledb/models], which is not part of the sources at hand); the
    spec names the category [MEASUREMENT] and the sample category. *)
Inductive ActionType : Type :=
| SAMPLE_CREATION
| MEASUREMENT
| SIMULATION.

Definition ActionType_eqb (a b : ActionType) : bool :=
  match a, b with
  | SAMPLE_CREATION, SAMPLE_CREATION => true
  | MEASUREMENT, MEASUREMENT => true
  | SIMULATION, SIMULATION => true
  | _, _ => false
  end.

Module Action.
Record t : Type := make {
  type : ActionType;
  schema : json
}.
End Action.
Abbreviation Action := Action.t.

(** Entries of the object log and of the user log.  The referenced object
    of [USE_OBJECT_IN_MEASUREMENT] is whatever value was read from
    [data['object_id']]. *)
Inductive ObjectLogEntry : Type :=
| OL_CREATE_OBJECT (object_id user_id : Z)
| OL_EDIT_OBJECT (object_id user_id version_id : Z)
| OL_RESTORE_OBJECT_VERSION (object_id user_id restored_version_id version_id : Z)
| OL_USE_OBJECT_IN_MEASUREMENT (object_id : json) (user_id measurement_id : Z).

Inductive UserLogEntry : Type :=
| UL_CREATE_OBJECT (user_id object_id : Z)
| UL_EDIT_OBJECT (user_id object_id version_id : Z)
| UL_RESTORE_OBJECT_VERSION (user_id object_id restored_version_id version_id : Z).

(** The state all operations run against: the rows of the versioned object
    table, the id counter, the actions and users known to the resolvers, the
    two audit logs and the objects whose initial permissions were set. *)
Record State : Type := mkState {
  objects_table : list Object;
  next_object_id : Z;
  action_table : gmap Z Action;
  user_table : gset Z;
  object_log_entries : list ObjectLogEntry;
  user_log_entries : list UserLogEntry;
  initial_permissions : list Z
}.

Definition set_objects (rows : list Object) (next : Z) (s : State) : State :=
  mkState rows next (action_table s) (user_table s)
    (object_log_entries s) (user_log_entries s) (initial_permissions s).

Definition add_object_log (e : ObjectLogEntry) (s : State) : State :=
  mkState (objects_table s) (next_object_id s) (action_table s) (user_table s)
    (object_log_entries s ++ [e]) (user_log_entries s) (initial_permissions s).

Definition add_user_log (e : UserLogEntry) (s : State) : State :=
  mkState (objects_table s) (next_object_id s) (action_table s) (user_table s)
    (object_log_entries s) (user_log_entries s ++ [e]) (initial_permissions s).

Definition add_initial_permissions (object_id : Z) (s : State) : State :=
  mkState (objects_table s) (next_object_id s) (action_table s) (user_table s)
    (object_log_entries s) (user_log_entries s)
    (initial_permissions s ++ [object_id]).

(** ** The monad of store operations: state passing with exceptions.
    A raised exception keeps the state reached so far. *)

Definition M (A : Type) : Type := State -> res A * State.

Definition ret {A : Type} (a : A) : M A := fun s => (Ok a, s).

Definition raise {A : Type} (e : exn) : M A := fun s => (Raise e, s).

Definition lift {A : Type} (r : res A) : M A := fun s => (r, s).

Definition bind {A B : Type} (m : M A) (k : A -> M B) : M B :=
  fun s =>
    match m s with
    | (Ok a, s') => k a s'
    | (Raise e, s') => (Raise e, s')
    | (OutOfFuel, s') => (OutOfFuel, s')
    end.

Definition gets {A : Type} (f : State -> A) : M A := fun s => (Ok (f s), s).

Definition modify (f : State -> State) : M unit := fun s => (Ok tt, f s).

Notation "x <-- e ;; k" := (bind e (fun x => k))
  (at level 100, e at next level, k at level 200, right associativity).

Fixpoint for_each {A : Type} (l : list A) (body : A -> M unit) : M unit :=
  match l with
  | [] => ret tt
  | x :: rest => _ <-- body x ;; for_each rest body
  end.

(** ** Collaborators *)

(** The modules [actions], [users], [object_log], [user_log] and
    [permissions] of [sampledb/logic] are not part of the sources at hand;
    each operation that [objects.py] calls is modelled from the contract the
    spec gives for it. *)

Module actions.
(** Modelled from the spec: the action resolver
    [get_action(action_id) -> Action | fails ActionDoesNotExistError] of
    [sampledb/logic/actions.py]. *)
Definition get_action (action_id : Z) : M Action :=
  fun s =>
    match action_table s !! action_id with
    | Some a => (Ok a, s)
    | None => (Raise ActionDoesNotExistError, s)
    end.
End actions.

Module users.
(** Modelled from the spec: the user resolver
    [get_user(user_id) -> User | fails UserDoesNotExistError] of
    [sampledb/logic/users.py]; only the existence of the user matters
    here. *)
Definition get_user (user_id : Z) : M unit :=
  fun s =>
    if decide (user_id ∈ user_table s) then (Ok tt, s)
    else (Raise UserDoesNotExistError, s).
End users.

Module object_log.
(** Modelled from the spec: [create_object] of the object log
    ([sampledb/logic/object_log.py]), an append-only event sink. *)
Definition create_object (object_id user_id : Z) : M unit :=
  modify (add_object_log (OL_CREATE_OBJECT object_id user_id)).

(** Modelled from the spec: [edit_object] of the object log. *)
Definition edit_object (object_id user_id version_id : Z) : M unit :=
  modify (add_object_log (OL_EDIT_OBJECT object_id user_id version_id)).

(** Modelled from the spec: [restore_object_version] of the object log. *)
Definition restore_object_version
    (object_id user_id restored_version_id version_id : Z) : M unit :=
  modify (add_object_log
    (OL_RESTORE_OBJECT_VERSION object_id user_id restored_version_id version_id)).

(** Modelled from the spec: [use_object_in_measurement] of the object log;
    the entry goes on the log of the referenced object. *)
Definition use_object_in_measurement
    (object_id : json) (user_id measurement_id : Z) : M unit :=
  modify (add_object_log
    (OL_USE_OBJECT_IN_MEASUREMENT object_id user_id measurement_id)).
End object_log.

Module user_log.
(** Modelled from the spec: [create_object] of the user log
    ([sampledb/logic/user_log.py]), the second append-only event sink. *)
Definition create_object (user_id object_id : Z) : M unit :=
  modify (add_user_log (UL_CREATE_OBJECT user_id object_id)).

(** Modelled from the spec: [edit_object] of the user log. *)
Definition edit_object (user_id object_id version_id : Z) : M unit :=
  modify (add_user_log (UL_EDIT_OBJECT user_id object_id version_id)).

(** Modelled from the spec: [restore_object_version] of the user log. *)
Definition restore_object_version
    (user_id object_id restored_version_id version_id : Z) : M unit :=
  modify (add_user_log
    (UL_RESTORE_OBJECT_VERSION user_id object_id restored_version_id version_id)).
End user_log.

Module permissions.
(** Modelled from the spec: the permissions service
    [set_initial_permissions(object) -> None] of
    [sampledb/logic/permissions.py], called once at creation. *)
Definition set_initial_permissions (object : Object) : M unit :=
  modify (add_initial_permissions (Object.object_id object)).
End permissions.

(** ** The persistence layer *)

(** The [Objects] table abstraction ([sampledb/models/objects.py] and the
    versioned table behind it) is not part of the sources at hand.  It is
    modelled from the spec: the table holds one row per version; the
    current object is the row with the maximum [version_id] of its
    [object_id].  Validation of [data] against the schema is left to the
    external validator and integrity violations of concurrent writers are
    left to the database engine, as the spec does. *)

Module Objects.

Definition has_object_id (object_id : Z) (o : Object) : bool :=
  Object.object_id o =? object_id.

(** The rows of one object, in the order of the table. *)
Definition rows_of (object_id : Z) (table : list Object) : list Object :=
  List.filter (has_object_id object_id) table.

(** The row with the maximum [version_id]. *)
Fixpoint newest (rows : list Object) : option Object :=
  match rows with
  | [] => None
  | o :: rest =>
      match newest rest with
      | Some o' =>
          if Object.version_id o <? Object.version_id o' then Some o'
          else Some o
      | None => Some o
      end
  end.

(** [ORDER BY version_id ASC], by insertion. *)
Fixpoint insert_by_version (o : Object) (sorted : list Object) : list Object :=
  match sorted with
  | [] => [o]
  | o' :: rest =>
      if Object.version_id o <=? Object.version_id o' then o :: sorted
      else o' :: insert_by_version o rest
  end.

Fixpoint order_by_version (rows : list Object) : list Object :=
  match rows with
  | [] => []
  | o :: rest => insert_by_version o (order_by_version rest)
  end.

(** Modelled from the spec: the schema of a write to [Objects], missing
    from the sources: the schema passed by the caller or, when [None] is
    passed, the schema resolved from the action. *)
Definition resolve_schema (schema : option json) (action_id : Z) : M json :=
  match schema with
  | Some given => ret given
  | None => action <-- actions.get_action action_id ;; ret (Action.schema action)
  end.

(** Modelled from the spec: [Objects.get_current_object], missing from the
    sources: the version with the maximum [version_id] of the object, or
    [None]. *)
Definition get_current_object (object_id : Z) : M (option Object) :=
  gets (fun s => newest (rows_of object_id (objects_table s))).

(** Modelled from the spec: [Objects.get_object_version], missing from the
    sources: the version of the object with that [version_id], or
    [None]. *)
Definition get_object_version (object_id version_id : Z) : M (option Object) :=
  gets (fun s =>
    List.find (fun o => Object.version_id o =? version_id)
      (rows_of object_id (objects_table s))).

(** Modelled from the spec: [Objects.get_object_versions], missing from the
    sources: the versions of the object, oldest to newest. *)
Definition get_object_versions (object_id : Z) : M (list Object) :=
  gets (fun s => order_by_version (rows_of object_id (objects_table s))).

(** Modelled from the spec: [Objects.create_object], missing from the
    sources: persists version 0 of a new object under a fresh
    [object_id]. *)
Definition create_object (data : json) (schema : option json)
    (user_id action_id : Z) : M Object :=
  schema' <-- resolve_schema schema action_id ;;
  object_id <-- gets next_object_id ;;
  let object := Object.make object_id 0 action_id data schema' user_id in
  _ <-- modify (fun s => set_objects (objects_table s ++ [object]) (object_id + 1) s) ;;
  ret object.

(** Modelled from the spec: [Objects.update_object], missing from the
    sources: persists version [max_version + 1] of the object with the new
    data, and returns [None] when the object does not exist. *)
Definition update_object (object_id : Z) (data : json) (schema : option json)
    (user_id : Z) : M (option Object) :=
  current <-- get_current_object object_id ;;
  match current with
  | None => ret None
  | Some current =>
      schema' <-- resolve_schema schema (Object.action_id current) ;;
      let object :=
        Object.make object_id (Object.version_id current + 1)
          (Object.action_id current) data schema' user_id in
      _ <-- modify (fun s => set_objects (objects_table s ++ [object]) (next_object_id s) s) ;;
      ret (Some object)
  end.

End Objects.

(** ** [sampledb/logic/objects.py] *)

(** [get_object(object_id, version_id=None)]. *)
Definition get_object (object_id : Z) (version_id : option Z) : M Object :=
  match version_id with
  | None =>
      object <-- Objects.get_current_object object_id ;;
      match object with
      | None => raise ObjectDoesNotExistError
      | Some object => ret object
      end
  | Some version_id =>
      object <-- Objects.get_object_version object_id version_id ;;
      match object with
      | None =>
          current <-- Objects.get_current_object object_id ;;
          match current with
          | None => raise ObjectDoesNotExistError
          | Some _ => raise ObjectVersionDoesNotExistError
          end
      | Some object => ret object
      end
  end.

(** [get_object_versions(object_id)]. *)
Definition get_object_versions (object_id : Z) : M (list Object) :=
  object_versions <-- Objects.get_object_versions object_id ;;
  match object_versions with
  | [] => raise ObjectDoesNotExistError
  | _ :: _ => ret object_versions
  end.

(** The loop [for path_element in path: previous_data = previous_data[path_element]]. *)
Fixpoint walk_path (previous_data : json) (path : list json) : res json :=
  match path with
  | [] => Ok previous_data
  | path_element :: rest =>
      next <- Py.getitem previous_data path_element ;;
      walk_path next rest
  end.

(** The [try: ... except (KeyError, IndexError): pass else: ...] block that
    computes [previous_referenced_object_id] from the data of the previous
    version; [JNull] stands for [None]. *)
Definition previous_reference_in (previous_data : json) (path : list json)
  : res json :=
  match walk_path previous_data path with
  | Raise KeyError | Raise IndexError => Ok JNull
  | Raise e => Raise e
  | OutOfFuel => OutOfFuel
  | Ok previous_data =>
      if negb (Py.is_none previous_data) then
        previous_id <- Py.getitem previous_data (JStr "object_id") ;;
        if negb (Py.is_none previous_id) then
          Py.getitem previous_data (JStr "object_id")
        else Ok JNull
      else Ok JNull
  end.

(** The guard
    [schema['type'] == 'sample' and data is not None and data['object_id'] is not None]
    with Python's left-to-right short-circuit evaluation. *)
Definition is_sample_reference (schema data : json) : res bool :=
  ty <- Py.getitem schema (JStr "type") ;;
  if Py.eq ty (JStr "sample") then
    if negb (Py.is_none data) then
      current_id <- Py.getitem data (JStr "object_id") ;;
      Ok (negb (Py.is_none current_id))
    else Ok false
  else Ok false.

(** The body of the loop of [_update_object_references] for one property. *)
Definition update_reference (object : Object) (user_id : Z)
    (action_type : ActionType) (p : property) : M unit :=
  let '(path, schema, data) := p in
  guard <-- lift (is_sample_reference schema data) ;;
  if (guard : bool) then
    referenced_object_id <-- lift (Py.getitem data (JStr "object_id")) ;;
    previous_referenced_object_id <--
      (if Object.version_id object >? 0 then
         previous_object_version <--
           get_object (Object.object_id object) (Some (Object.version_id object - 1)) ;;
         lift (previous_reference_in (Object.data previous_object_version) path)
       else ret JNull) ;;
    if Py.ne referenced_object_id previous_referenced_object_id then
      if ActionType_eqb action_type MEASUREMENT then
        object_log.use_object_in_measurement referenced_object_id user_id
          (Object.object_id object)
      else ret tt
    else ret tt
  else ret tt.

(** [_update_object_references(object, user_id)]. *)
Definition _update_object_references (object : Object) (user_id : Z) : M unit :=
  action <-- actions.get_action (Object.action_id object) ;;
  let action_type := Action.type action in
  properties <-- lift (_get_object_properties object) ;;
  for_each properties (update_reference object user_id action_type).

(** [create_object(action_id, data, user_id)].  The [try/except] around
    [Objects.create_object] re-raises unchanged. *)
Definition create_object (action_id : Z) (data : json) (user_id : Z) : M Object :=
  _ <-- actions.get_action action_id ;;
  _ <-- users.get_user user_id ;;
  object <-- Objects.create_object data None user_id action_id ;;
  _ <-- object_log.create_object (Object.object_id object) user_id ;;
  _ <-- user_log.create_object user_id (Object.object_id object) ;;
  _ <-- _update_object_references object user_id ;;
  _ <-- permissions.set_initial_permissions object ;;
  ret object.

(** [update_object(object_id, data, user_id)]. *)
Definition update_object (object_id : Z) (data : json) (user_id : Z) : M unit :=
  object <-- Objects.update_object object_id data None user_id ;;
  match object with
  | None => raise ObjectDoesNotExistError
  | Some object =>
      _ <-- user_log.edit_object user_id (Object.object_id object)
              (Object.version_id object) ;;
      _ <-- object_log.edit_object (Object.object_id object) user_id
              (Object.version_id object) ;;
      _update_object_references object user_id
  end.

(** [restore_object_version(object_id, version_id, user_id)].  Reading
    [object.version_id] from the [None] that [Objects.update_object] returns
    for a missing object raises [AttributeError]. *)
Definition restore_object_version (object_id version_id user_id : Z) : M unit :=
  object <-- get_object object_id (Some version_id) ;;
  object <-- Objects.update_object object_id (Object.data object)
               (Some (Object.schema object)) user_id ;;
  match object with
  | None => raise AttributeError
  | Some object =>
      _ <-- user_log.restore_object_version user_id object_id version_id
              (Object.version_id object) ;;
      object_log.restore_object_version object_id user_id version_id
        (Object.version_id object)
  end.

(** ** [sampledb/logic/background_tasks/send_mail.py] *)

Module send_mail.

(** The arguments of [flask_mail.Message(...)]. *)
Record Message : Type := mkMessage {
  subject : json;
  sender : json;
  recipients : json;
  body : json;
  html : json
}.

Section handler.

(** The mail transport [mail.send] and the application configuration
    [flask.current_app.config] are the environment of the handler.  The
    transport either sends the message or raises. *)
Variable mail_send : Message -> res unit.
Variable config : json.

(** The arguments of [flask_mail.Message(...)], evaluated left to
    right. *)
Definition message_of (data : json) : res Message :=
  subject <- Py.getitem data (JStr "subject") ;;
  sender <- Py.getitem config (JStr "MAIL_SENDER") ;;
  recipients <- Py.getitem data (JStr "recipients") ;;
  body <- Py.getitem data (JStr "text") ;;
  html <- Py.getitem data (JStr "html") ;;
  Ok (mkMessage subject sender recipients body html).

(** The body of the [try] block: the message is built, then sent. *)
Definition send_message (data : json) : res unit :=
  message <- message_of data ;;
  mail_send message.

(** [handle_send_mail_task(data)]. *)
Definition handle_send_mail_task (data : json) : res bool :=
  match send_message data with
  | Ok _ => Ok true
  | Raise SMTPRecipientsRefused => Ok false
  | Raise e => Raise e
  | OutOfFuel => OutOfFuel
  end.

End handler.

End send_mail.

(** [post_send_mail_task] of the same file.  [core.post_background_task],
    which is not part of the sources at hand, is its environment: it gets
    the task type, the task data and the [auto_delete] flag. *)
Section post_send_mail_task.

Context {Posted : Type}.
Variable post_background_task : string -> json -> bool -> Posted.

(** The dictionary that [post_send_mail_task] builds from its arguments. *)
Definition send_mail_task_data (subject : string) (recipients : list string)
    (text html : string) : json :=
  JObj [("subject", JStr subject);
        ("recipients", JArr (map JStr recipients));
        ("text", JStr text);
        ("html", JStr html)].

(** [post_send_mail_task(subject, recipients, text, html, auto_delete)]. *)
Definition post_send_mail_task (subject : string) (recipients : list string)
    (text html : string) (auto_delete : bool) : Posted :=
  post_background_task "send_mail"
    (send_mail_task_data subject recipients text html) auto_delete.

End post_send_mail_task.

(** ** [sampledb/models/shares.py] *)

Module ObjectShare.

(** Points in time, as seconds. *)
Definition datetime : Type := Z.

(** The attributes of an [ObjectShare] instance; [None] is an attribute
    that was never assigned. *)
Record t : Type := mk {
  object_id : option Z;
  component_id : option Z;
  policy : option json;
  utc_datetime : option datetime
}.

Definition unassigned : t := mk None None None None.

Definition set_object_id (v : Z) (self : t) : t :=
  mk (Some v) (component_id self) (policy self) (utc_datetime self).
Definition set_component_id (v : Z) (self : t) : t :=
  mk (object_id self) (Some v) (policy self) (utc_datetime self).
Definition set_policy (v : json) (self : t) : t :=
  mk (object_id self) (component_id self) (Some v) (utc_datetime self).
Definition set_utc_datetime (v : datetime) (self : t) : t :=
  mk (object_id self) (component_id self) (policy self) (Some v).

(** [ObjectShare.__init__]; [utcnow] is the value that
    [datetime.datetime.utcnow()] returns when it is called. *)
Definition __init__ (utcnow : datetime) (object_id component_id : Z)
    (policy : json) (utc_datetime : option datetime) : t :=
  let self := unassigned in
  let self := set_object_id object_id self in
  let self := set_component_id component_id self in
  let self := set_policy policy self in
  match utc_datetime with
  | None => set_utc_datetime utcnow self
  | Some _ => self
  end.

End ObjectShare.

(** ** [sampledb/models/migrations/drop_default_public_permissions.py] *)

Module drop_default_public_permissions.

(** The part of the database that the statements of the migration read and
    write: the rows [(creator_id, is_public)] of the table
    [default_public_permissions], or [None] when that table does not exist,
    and the rows [(creator_id, permissions)] of the table
    [all_user_default_permissions]. *)
Record database : Type := mkDatabase {
  default_public_permissions : option (list (Z * bool));
  all_user_default_permissions : list (Z * string)
}.

(** [SELECT table_name FROM information_schema.tables
     WHERE table_name = 'default_public_permissions'] *)
Definition select_table_name (db : database) : list string :=
  match default_public_permissions db with
  | Some _ => ["default_public_permissions"]
  | None => []
  end.

(** [SELECT creator_id FROM default_public_permissions WHERE is_public = true] *)
Definition select_public_creators (db : database) : list Z :=
  match default_public_permissions db with
  | Some rows => map fst (List.filter snd rows)
  | None => []
  end.

(** [SELECT creator_id, permissions FROM all_user_default_permissions] *)
Definition select_all_user_default_permissions (db : database)
  : list (Z * string) :=
  all_user_default_permissions db.

(** [INSERT INTO all_user_default_permissions (creator_id, permissions)
     VALUES (:creator_id, 'READ')] *)
Definition insert_read (creator_id : Z) (db : database) : database :=
  mkDatabase (default_public_permissions db)
    (all_user_default_permissions db ++ [(creator_id, "READ")]).

(** [DROP TABLE default_public_permissions] *)
Definition drop_table (db : database) : database :=
  mkDatabase None (all_user_default_permissions db).

(** [creator_id in all_user_object_permissions], for the dictionary built
    from the rows [(creator_id, permissions)]. *)
Definition has_creator (creator_id : Z) (rows : list (Z * string)) : bool :=
  existsb (fun row => fst row =? creator_id) rows.

(** [run(db)]: the returned flag and the database after the run. *)
Definition run (db : database) : bool * database :=
  let table_exists := select_table_name db in
  match table_exists with
  | [] => (false, db)
  | _ :: _ =>
      let default_public_permissions := select_public_creators db in
      let all_user_default_permissions :=
        select_all_user_default_permissions db in
      let all_user_object_permissions := all_user_default_permissions in
      let db :=
        fold_left (fun db creator_id =>
          if negb (has_creator creator_id all_user_object_permissions)
          then insert_read creator_id db
          else db) default_public_permissions db in
      let db := drop_table db in
      (true, db)
  end.

End drop_default_public_permissions.

(** * Vocabulary of the properties *)

(** ** The object table *)

Definition object_exists (s : State) (object_id : Z) : Prop :=
  exists o, In o (objects_table s) /\ Object.object_id o = object_id.

Definition version_exists (s : State) (object_id version_id : Z) : Prop :=
  exists o, In o (objects_table s) /\ Object.object_id o = object_id /\
            Object.version_id o = version_id.

(** The current version: a row of the object with the maximum
    [version_id]. *)
Definition is_current (s : State) (o : Object) : Prop :=
  In o (objects_table s) /\
  forall o', In o' (objects_table s) ->
             Object.object_id o' = Object.object_id o ->
             Object.version_id o' <= Object.version_id o.

Definition version_ids (rows : list Object) : list Z :=
  map Object.version_id rows.

(** The version ids of [rows] are [a], [a+1], ... in this order. *)
Definition gapless_from (a : nat) (rows : list Object) : Prop :=
  version_ids rows = map Z.of_nat (seq a (length rows)).

Definition gapless (rows : list Object) : Prop := gapless_from 0 rows.

(** ** The steps of the writing operations *)

(** The schema [Objects.resolve_schema] returns. *)
Definition resolved_schema (schema : option json) (action_id : Z) (s : State)
  : res json :=
  match schema with
  | Some given => Ok given
  | None =>
      match action_table s !! action_id with
      | Some action => Ok (Action.schema action)
      | None => Raise ActionDoesNotExistError
      end
  end.

(** The row [Objects.update_object] writes on top of [current]. *)
Definition next_version (current : Object) (data schema : json) (user_id : Z)
  : Object :=
  Object.make (Object.object_id current) (Object.version_id current + 1)
    (Object.action_id current) data schema user_id.

(** The row [Objects.create_object] writes. *)
Definition new_object (s : State) (action_id : Z) (data schema : json)
    (user_id : Z) : Object :=
  Object.make (next_object_id s) 0 action_id data schema user_id.

(** The state [s] with the row [object] appended to the table. *)
Definition persist (object : Object) (s : State) : State :=
  set_objects (objects_table s ++ [object]) (next_object_id s) s.

(** The state [s] with [entries] appended to the object log. *)
Definition with_object_log (entries : list ObjectLogEntry) (s : State) : State :=
  mkState (objects_table s) (next_object_id s) (action_table s) (user_table s)
    (object_log_entries s ++ entries) (user_log_entries s)
    (initial_permissions s).

Definition is_use_in_measurement (user_id measurement_id : Z)
    (e : ObjectLogEntry) : Prop :=
  exists referenced, e = OL_USE_OBJECT_IN_MEASUREMENT referenced user_id measurement_id.

(** Two states with the same table, id counter and actions. *)
Definition same_store (s s' : State) : Prop :=
  objects_table s' = objects_table s /\
  next_object_id s' = next_object_id s /\
  action_table s' = action_table s.

(** ** Reachable stores and their invariant *)

Definition set_environment (actions : gmap Z Action) (users : gset Z)
    (s : State) : State :=
  mkState (objects_table s) (next_object_id s) actions users
    (object_log_entries s) (user_log_entries s) (initial_permissions s).

(** The states the store can be in: an empty table, then any sequence of
    calls of the three writing operations (whatever their outcome), while
    actions and users may be added or changed in between; actions are never
    deleted. *)
Inductive reachable : State -> Prop :=
| reachable_initial (next : Z) (actions : gmap Z Action) (users : gset Z) :
    reachable (mkState [] next actions users [] [] [])
| reachable_create (s : State) (action_id : Z) (data : json) (user_id : Z) :
    reachable s -> reachable (snd (create_object action_id data user_id s))
| reachable_update (s : State) (object_id : Z) (data : json) (user_id : Z) :
    reachable s -> reachable (snd (update_object object_id data user_id s))
| reachable_restore (s : State) (object_id version_id user_id : Z) :
    reachable s ->
    reachable (snd (restore_object_version object_id version_id user_id s))
| reachable_environment (s : State) (actions : gmap Z Action) (users : gset Z) :
    reachable s ->
    (forall action_id, is_Some (action_table s !! action_id) ->
                       is_Some (actions !! action_id)) ->
    reachable (set_environment actions users s).

(** The invariant of the store: every object's versions are numbered
    [0..N-1] in the order they were written, object ids lie below the
    counter, and the action of every row is known to the action
    resolver. *)
Record store_ok (s : State) : Prop := mk_store_ok {
  ok_gapless : forall object_id,
    gapless (Objects.rows_of object_id (objects_table s));
  ok_fresh : forall o,
    In o (objects_table s) -> Object.object_id o < next_object_id s;
  ok_actions : forall o,
    In o (objects_table s) -> is_Some (action_table s !! Object.action_id o)
}.

(** ** The reference tracker *)

(** The object id a leaf refers to; [JNull] when the leaf is null or holds
    no [object_id]. *)
Definition reference_of (leaf : json) : json :=
  match leaf with
  | JObj fields =>
      match Py.dict_get "object_id" fields with
      | Some referenced => referenced
      | None => JNull
      end
  | _ => JNull
  end.

(** The schema of the leaf declares the type [sample]. *)
Definition declared_sample (schema : json) : bool :=
  match Py.getitem schema (JStr "type") with
  | Ok ty => Py.eq ty (JStr "sample")
  | _ => false
  end.

(** The previous reference of a leaf: null for version 0, otherwise the
    [object_id] found at the same path in the immediately preceding
    version, and null when the path is missing there.  The value is also
    null, by convention, for the traversals on which the tracker raises;
    [previous_lookup_defined] below tells the two apart. *)
Definition previous_reference (s : State) (object : Object) (path : list json)
  : json :=
  if Object.version_id object =? 0 then JNull
  else
    match fst (Objects.get_object_version (Object.object_id object)
                 (Object.version_id object - 1) s) with
    | Ok (Some previous) =>
        match walk_path (Object.data previous) path with
        | Ok leaf => reference_of leaf
        | _ => JNull
        end
    | _ => JNull
    end.

(** A leaf gives rise to a [USE_OBJECT_IN_MEASUREMENT] entry when it is
    sample-typed, its current reference is not null and differs from the
    previous reference, and the action is a measurement. *)
Definition emits_use (action_type : ActionType) (s : State) (object : Object)
    (p : property) : bool :=
  let '(path, schema, data) := p in
  declared_sample schema && negb (Py.is_none (reference_of data)) &&
  Py.ne (reference_of data) (previous_reference s object path) &&
  ActionType_eqb action_type MEASUREMENT.

(** The same without the condition that the current reference is not
    null. *)
Definition emits_use_ignoring_null (action_type : ActionType) (s : State)
    (object : Object) (p : property) : bool :=
  let '(path, schema, data) := p in
  declared_sample schema &&
  Py.ne (reference_of data) (previous_reference s object path) &&
  ActionType_eqb action_type MEASUREMENT.

(** The entry on the log of the referenced object, naming the acting user
    and the referencing object. *)
Definition use_event (user_id : Z) (object : Object) (p : property)
  : ObjectLogEntry :=
  let '(path, schema, data) := p in
  OL_USE_OBJECT_IN_MEASUREMENT (reference_of data) user_id
    (Object.object_id object).

(** The entries for the leaves selected by [emits], in the walker's
    order. *)
Definition reference_events
    (emits : ActionType -> State -> Object -> property -> bool)
    (action_type : ActionType) (s : State) (object : Object) (user_id : Z)
    (properties : list property) : list ObjectLogEntry :=
  map (use_event user_id object)
    (List.filter (emits action_type s object) properties).

(** A leaf in which a reference can be read: null, or a dictionary with the
    key [object_id]. *)
Definition holds_reference (leaf : json) : bool :=
  match leaf with
  | JNull => true
  | JObj fields => Py.dict_has "object_id" fields
  | _ => false
  end.

(** Following [path] in the data of the preceding version stops at a
    missing key or at an index out of range, or it leads to a leaf in which
    a reference can be read.  Subscripting a value that is no container on
    the way, and reaching a leaf without [object_id], are the other
    outcomes. *)
Definition previous_lookup_defined (previous_data : json) (path : list json)
  : bool :=
  match walk_path previous_data path with
  | Ok leaf => holds_reference leaf
  | Raise KeyError | Raise IndexError => true
  | _ => false
  end.

(** The references of a leaf can be read: a sample-typed leaf is null or
    holds [object_id]; and when its reference is not null and the version
    is not 0, the preceding version is in the store and the lookup at the
    same path is defined there. *)
Definition references_readable (s : State) (object : Object) (p : property)
  : bool :=
  let '(path, schema, data) := p in
  if declared_sample schema then
    holds_reference data &&
    (if negb (Py.is_none (reference_of data)) &&
        negb (Object.version_id object =? 0)
     then
       match fst (Objects.get_object_version (Object.object_id object)
                    (Object.version_id object - 1) s) with
       | Ok (Some previous) =>
           previous_lookup_defined (Object.data previous) path
       | _ => false
       end
     else true)
  else true.

(** ** A measurement that references samples *)

Definition sample_schema : json := JObj [("type", JStr "sample")].

(** [{type: object, properties: {a: {type: sample}}}] *)
Definition example_schema : json :=
  JObj [("type", JStr "object"); ("properties", JObj [("a", sample_schema)])].

(** [{type: array, items: {type: sample}}] *)
Definition array_schema : json :=
  JObj [("type", JStr "array"); ("items", sample_schema)].

(** [{a: {object_id: referenced}}] *)
Definition example_data (referenced : json) : json :=
  JObj [("a", JObj [("object_id", referenced)])].

(** The leaf the walker yields for [example_data referenced]. *)
Definition sample_leaf (referenced : json) : property :=
  ([JStr "a"], sample_schema, JObj [("object_id", referenced)]).

Definition measurement_action : Action := Action.make MEASUREMENT example_schema.

(** One measurement action (id 1), one user (id 1), no objects yet. *)
Definition scenario_initial : State :=
  mkState [] 1 ({[ 1 := measurement_action ]} : gmap Z Action)
    ({[ 1 ]} : gset Z) [] [] [].

(** User 1 creates a measurement that references sample 5 ... *)
Definition scenario_created : State :=
  snd (create_object 1 (example_data (JNum 5)) 1 scenario_initial).

(** ... and updates it to reference sample 7. *)
Definition scenario_updated : State :=
  snd (update_object 1 (example_data (JNum 7)) 1 scenario_created).

(** The two versions of the measurement. *)
Definition scenario_version_0 : Object :=
  Object.make 1 0 1 (example_data (JNum 5)) example_schema 1.

Definition scenario_version_1 (referenced : json) : Object :=
  Object.make 1 1 1 (example_data referenced) example_schema 1.

(** The state in which [update_object] runs the tracker on version 1: the
    version and the two edit entries are written. *)
Definition scenario_before_tracker (referenced : json) : State :=
  add_object_log (OL_EDIT_OBJECT 1 1 1)
    (add_user_log (UL_EDIT_OBJECT 1 1 1)
       (persist (scenario_version_1 referenced) scenario_created)).

(** The same measurement created with the empty dictionary as data: the
    walker skips the property [a], and the path [a] is missing in
    version 0. *)
Definition scenario_created_empty : State :=
  snd (create_object 1 (JObj []) 1 scenario_initial).

(** The state in which [update_object] runs the tracker on version 1 after
    that creation. *)
Definition scenario_missing_path (referenced : json) : State :=
  add_object_log (OL_EDIT_OBJECT 1 1 1)
    (add_user_log (UL_EDIT_OBJECT 1 1 1)
       (persist (scenario_version_1 referenced) scenario_created_empty)).

(** ** A mail task *)

Definition mail_task_data : json :=
  JObj [("subject", JStr "Hello"); ("recipients", JArr [JStr "nobody@example.org"]);
        ("text", JStr "text"); ("html", JStr "<p>text</p>")].

Definition mail_config : json :=
  JObj [("MAIL_SENDER", JStr "sampledb@example.org")].

Definition mail_message : send_mail.Message :=
  send_mail.mkMessage (JStr "Hello") (JStr "sampledb@example.org")
    (JArr [JStr "nobody@example.org"]) (JStr "text") (JStr "<p>text</p>").

(** ** Data whose arrays are sequences *)

(** The data fits the schema as far as the walker's paths need it: where the
    schema says [array], the data is not a dictionary (enumerating a
    dictionary yields its keys, which its positions do not index). *)
Inductive arrays_hold_sequences : json -> json -> Prop :=
| sequences_object (schema data : json) :
    Py.getitem schema (JStr "type") = Ok (JStr "object") ->
    (forall props name sub_schema sub_data,
        Py.getitem schema (JStr "properties") = Ok props ->
        Py.getitem props name = Ok sub_schema ->
        Py.getitem data name = Ok sub_data ->
        arrays_hold_sequences sub_schema sub_data) ->
    arrays_hold_sequences schema data
| sequences_array (schema data : json) :
    Py.getitem schema (JStr "type") = Ok (JStr "array") ->
    (forall fields, data <> JObj fields) ->
    (forall item_schema items item,
        Py.getitem schema (JStr "items") = Ok item_schema ->
        Py.iter data = Ok items -> In item items ->
        arrays_hold_sequences item_schema item) ->
    arrays_hold_sequences schema data
| sequences_leaf (schema data ty : json) :
    Py.getitem schema (JStr "type") = Ok ty ->
    ty <> JStr "object" -> ty <> JStr "array" ->
    arrays_hold_sequences schema data.

(** ** A sample that is no measurement *)

Definition sample_creation_action : Action :=
  Action.make SAMPLE_CREATION example_schema.

(** The scenario with a second action (id 2), which creates samples. *)
Definition scenario_with_samples : State :=
  set_environment (<[2 := sample_creation_action]> (action_table scenario_initial))
    (user_table scenario_initial) scenario_initial.

(** ** Values whose dictionaries have distinct keys *)

Fixpoint distinct (keys : list string) : bool :=
  match keys with
  | [] => true
  | k :: rest => negb (existsb (String.eqb k) rest) && distinct rest
  end.

(** A Python dictionary holds each key once; [unique_keys v] says that the
    association lists of [v] do, at every depth. *)
Fixpoint unique_keys (v : json) : bool :=
  match v with
  | JArr items => forallb unique_keys items
  | JObj fields =>
      distinct (map fst fields) &&
      forallb (fun field => unique_keys (snd field)) fields
  | _ => true
  end.

(** The dictionary [fields] is included in [others], up to [==] of the
    values. *)
Definition dict_included (fields others : list (string * json)) : bool :=
  forallb (fun field =>
    match Py.dict_get (fst field) others with
    | Some w => Py.eq (snd field) w
    | None => false
    end) fields.

(** * Properties *)

(** ** Loops *)

Lemma flat_mapM_ext {A B : Type} (f g : A -> res (list B)) (l : list A) :
  (forall x, In x l -> f x = g x) -> flat_mapM f l = flat_mapM g l.
Proof.
  induction l as [|x l IH]; intros Hfg; simpl; [reflexivity|].
  rewrite (Hfg x) by (left; reflexivity).
  rewrite IH; [reflexivity|]. intros y Hy. apply Hfg. right; exact Hy.
Qed.

Lemma flat_mapM_fuel {A B : Type} (f : A -> res (list B)) (l : list A) :
  (forall x, In x l -> f x <> OutOfFuel) -> flat_mapM f l <> OutOfFuel.
Proof.
  induction l as [|x l IH]; intros Hf; simpl; [discriminate|].
  assert (Hx : f x <> OutOfFuel) by (apply Hf; left; reflexivity).
  assert (Hl : flat_mapM f l <> OutOfFuel)
    by (apply IH; intros y Hy; apply Hf; right; exact Hy).
  destruct (f x); simpl; try congruence.
  destruct (flat_mapM f l); simpl; congruence.
Qed.

(** ** Python operations *)

Lemma eq_JStr (v : json) (s : string) :
  Py.eq v (JStr s) = true <-> v = JStr s.
Proof.
  destruct v; simpl; split; intros H; try discriminate.
  - apply String.eqb_eq in H. congruence.
  - injection H as ->. apply String.eqb_refl.
Qed.

Lemma getitem_str_Ok (container : json) (k : string) (v : json) :
  Py.getitem container (JStr k) = Ok v ->
  exists fields, container = JObj fields /\ Py.dict_get k fields = Some v.
Proof.
  destruct container; simpl; try discriminate.
  destruct (Py.dict_get k fields) eqn:E; intros H; [|discriminate].
  injection H as ->. eauto.
Qed.

Lemma dict_get_depth (k : string) (fields : list (string * json)) (v : json) :
  Py.dict_get k fields = Some v ->
  (json_depth v < json_depth (JObj fields))%nat.
Proof.
  induction fields as [|[k' w] rest IH]; simpl; [discriminate|].
  destruct (String.eqb k k').
  - intros H; injection H as ->. lia.
  - intros H. specialize (IH H). simpl in IH. lia.
Qed.

Lemma nth_error_depth (items : list json) (i : nat) (v : json) :
  nth_error items i = Some v ->
  (json_depth v < json_depth (JArr items))%nat.
Proof.
  revert i. induction items as [|x rest IH]; intros [|i]; simpl; try discriminate.
  - intros H; injection H as ->. lia.
  - intros H. specialize (IH _ H). simpl in IH. lia.
Qed.

Lemma seq_index_Ok {A : Type} (l : list A) (i : Z) (x : A) :
  Py.seq_index l i = Ok x -> exists n, nth_error l n = Some x.
Proof.
  unfold Py.seq_index.
  destruct (_ || _); [discriminate|].
  destruct (nth_error l _) eqn:E; intros H; [|discriminate].
  injection H as ->. eauto.
Qed.

Lemma chars_depth (s : string) (n : nat) (v : json) :
  nth_error (Py.chars s) n = Some v -> json_depth v = O.
Proof.
  revert n. induction s as [|c s IH]; intros [|n]; simpl; try discriminate.
  - intros H; injection H as <-. reflexivity.
  - apply IH.
Qed.

Lemma getitem_depth (container key v : json) :
  Py.getitem container key = Ok v ->
  (json_depth v <= json_depth container)%nat.
Proof.
  destruct container; simpl; try discriminate.
  - destruct key; try discriminate; intros H;
      apply seq_index_Ok in H as [pos H]; apply chars_depth in H; lia.
  - destruct key; try discriminate; intros H;
      apply seq_index_Ok in H as [pos H]; apply nth_error_depth in H;
      simpl in H; lia.
  - destruct key; try discriminate.
    destruct (Py.dict_get s fields) eqn:E; intros H; [|discriminate].
    injection H as ->. apply dict_get_depth in E. simpl in E. lia.
Qed.

(** ** The walker: fuel *)

Lemma iter_object_properties_S (fuel : nat) (previous_path : list json)
    (schema data : json) :
  iter_object_properties (S fuel) previous_path schema data =
  (ty <- Py.getitem schema (JStr "type") ;;
   if Py.eq ty (JStr "object") then
     props <- Py.getitem schema (JStr "properties") ;;
     names <- Py.iter props ;;
     flat_mapM (fun property_name =>
       present <- Py.contains property_name data ;;
       if (present : bool) then
         sub_schema <- Py.getitem props property_name ;;
         sub_data <- Py.getitem data property_name ;;
         iter_object_properties fuel (previous_path ++ [property_name])
           sub_schema sub_data
       else Ok []) names
   else if Py.eq ty (JStr "array") then
     items <- Py.iter data ;;
     flat_mapM (fun entry =>
       item_schema <- Py.getitem schema (JStr "items") ;;
       iter_object_properties fuel (previous_path ++ [JNum (fst entry)])
         item_schema (snd entry)) (Py.enumerate items)
   else Ok [(previous_path, schema, data)]).
Proof. reflexivity. Qed.

Lemma getitem_str_depth (container : json) (k : string) (v : json) :
  Py.getitem container (JStr k) = Ok v ->
  (json_depth v < json_depth container)%nat.
Proof.
  intros H. apply getitem_str_Ok in H as [fields [-> H]].
  eapply dict_get_depth; eauto.
Qed.

(** Any two amounts of fuel above the depth of the schema give the same
    result. *)
Lemma iter_object_properties_fuel (n m : nat) :
  forall (previous_path : list json) (schema data : json),
    (json_depth schema < n)%nat -> (json_depth schema < m)%nat ->
    iter_object_properties n previous_path schema data =
    iter_object_properties m previous_path schema data.
Proof.
  revert m. induction n as [|n IH]; intros m path schema data Hn Hm; [lia|].
  destruct m as [|m]; [lia|].
  rewrite !iter_object_properties_S.
  destruct (Py.getitem schema (JStr "type")) as [ty| |] eqn:Ety;
    cbn [res_bind]; try reflexivity.
  destruct (Py.eq ty (JStr "object")).
  - destruct (Py.getitem schema (JStr "properties")) as [props| |] eqn:Ep;
      cbn [res_bind]; try reflexivity.
    apply getitem_str_depth in Ep.
    destruct (Py.iter props) as [names| |]; cbn [res_bind]; try reflexivity.
    apply flat_mapM_ext; intros name _.
    destruct (Py.contains name data) as [[|]| |]; cbn [res_bind]; try reflexivity.
    destruct (Py.getitem props name) as [sub| |] eqn:Es;
      cbn [res_bind]; try reflexivity.
    destruct (Py.getitem data name); cbn [res_bind]; try reflexivity.
    apply getitem_depth in Es. apply IH; lia.
  - destruct (Py.eq ty (JStr "array")); [|reflexivity].
    destruct (Py.iter data) as [items| |]; cbn [res_bind]; try reflexivity.
    apply flat_mapM_ext; intros entry _.
    destruct (Py.getitem schema (JStr "items")) as [item_schema| |] eqn:Ei;
      cbn [res_bind]; try reflexivity.
    apply getitem_str_depth in Ei. apply IH; lia.
Qed.

Lemma seq_index_fuel {A : Type} (l : list A) (i : Z) :
  Py.seq_index l i <> OutOfFuel.
Proof.
  unfold Py.seq_index. destruct (_ || _); [discriminate|].
  destruct (nth_error l _); discriminate.
Qed.

Lemma getitem_fuel (container key : json) :
  Py.getitem container key <> OutOfFuel.
Proof.
  destruct container, key; simpl;
    try discriminate; try apply seq_index_fuel.
  destruct (Py.dict_get _ _); discriminate.
Qed.

Lemma contains_fuel (x container : json) :
  Py.contains x container <> OutOfFuel.
Proof. destruct container, x; simpl; discriminate. Qed.

Lemma iter_fuel (v : json) : Py.iter v <> OutOfFuel.
Proof. destruct v; simpl; discriminate. Qed.

(** With fuel above the depth of the schema the walker never runs out of
    fuel: it returns the properties or raises. *)
Lemma iter_object_properties_total (n : nat) :
  forall (previous_path : list json) (schema data : json),
    (json_depth schema < n)%nat ->
    iter_object_properties n previous_path schema data <> OutOfFuel.
Proof.
  induction n as [|n IH]; intros path schema data Hn; [lia|].
  rewrite iter_object_properties_S.
  pose proof (getitem_fuel schema (JStr "type")) as Fty.
  destruct (Py.getitem schema (JStr "type")) as [ty| |] eqn:Ety;
    cbn [res_bind]; try congruence.
  destruct (Py.eq ty (JStr "object")).
  - pose proof (getitem_fuel schema (JStr "properties")) as Fp.
    destruct (Py.getitem schema (JStr "properties")) as [props| |] eqn:Ep;
      cbn [res_bind]; try congruence.
    apply getitem_str_depth in Ep.
    pose proof (iter_fuel props) as Fn.
    destruct (Py.iter props) as [names| |]; cbn [res_bind]; try congruence.
    apply flat_mapM_fuel; intros name _.
    pose proof (contains_fuel name data) as Fc.
    destruct (Py.contains name data) as [[|]| |]; cbn [res_bind]; try congruence.
    pose proof (getitem_fuel props name) as Fs.
    destruct (Py.getitem props name) as [sub| |] eqn:Es;
      cbn [res_bind]; try congruence.
    pose proof (getitem_fuel data name) as Fd.
    destruct (Py.getitem data name); cbn [res_bind]; try congruence.
    apply getitem_depth in Es. apply IH; lia.
  - destruct (Py.eq ty (JStr "array")); [|discriminate].
    pose proof (iter_fuel data) as Fi.
    destruct (Py.iter data) as [items| |]; cbn [res_bind]; try congruence.
    apply flat_mapM_fuel; intros entry _.
    pose proof (getitem_fuel schema (JStr "items")) as Fs.
    destruct (Py.getitem schema (JStr "items")) as [item_schema| |] eqn:Ei;
      cbn [res_bind]; try congruence.
    apply getitem_str_depth in Ei. apply IH; lia.
Qed.

Lemma walk_fuel (n : nat) (previous_path : list json) (schema data : json) :
  (json_depth schema < n)%nat ->
  iter_object_properties n previous_path schema data =
  walk previous_path schema data.
Proof.
  intros Hn. apply iter_object_properties_fuel; [exact Hn|].
  unfold walker_fuel. lia.
Qed.

(** [_get_object_properties] returns a list or raises. *)
Lemma walk_total (previous_path : list json) (schema data : json) :
  walk previous_path schema data <> OutOfFuel.
Proof.
  apply iter_object_properties_total. unfold walker_fuel. lia.
Qed.

(** ** The walker: the recursion rule *)

Lemma flat_mapM_map {A B C : Type} (g : A -> B) (f : B -> res (list C))
    (l : list A) :
  flat_mapM f (map g l) = flat_mapM (fun x => f (g x)) l.
Proof.
  induction l as [|x l IH]; simpl; [reflexivity|]. rewrite IH. reflexivity.
Qed.

Lemma dict_get_In (k : string) (v : json) (fields : list (string * json)) :
  List.NoDup (Py.dict_keys fields) -> In (k, v) fields ->
  Py.dict_get k fields = Some v.
Proof.
  unfold Py.dict_keys.
  induction fields as [|[k' w] rest IH]; simpl; intros Hnd Hin; [contradiction|].
  apply NoDup_cons_iff in Hnd as [Hk' Hnd].
  destruct Hin as [Heq|Hin].
  - injection Heq as -> ->. rewrite String.eqb_refl. reflexivity.
  - destruct (String.eqb k k') eqn:E.
    + apply String.eqb_eq in E. subst k'. exfalso. apply Hk'.
      apply in_map_iff. exists (k, v). split; [reflexivity|exact Hin].
    + apply IH; assumption.
Qed.

Lemma eq_JStr_false (v : json) (s : string) :
  v <> JStr s -> Py.eq v (JStr s) = false.
Proof.
  intros H. destruct (Py.eq v (JStr s)) eqn:E; [|reflexivity].
  apply eq_JStr in E. contradiction.
Qed.

(** A schema of type [object]: the walker visits the declared properties in
    declaration order and recurses into those present in the data; a
    property missing from the data yields nothing. *)
Lemma walk_object (previous_path : list json) (schema : json)
    (properties data : list (string * json)) :
  Py.getitem schema (JStr "type") = Ok (JStr "object") ->
  Py.getitem schema (JStr "properties") = Ok (JObj properties) ->
  List.NoDup (Py.dict_keys properties) ->
  walk previous_path schema (JObj data) =
  flat_mapM (fun declared =>
    match Py.dict_get (fst declared) data with
    | Some sub_data =>
        walk (previous_path ++ [JStr (fst declared)]) (snd declared) sub_data
    | None => Ok []
    end) properties.
Proof.
  intros Hty Hprops Hnd. unfold walk at 1. unfold walker_fuel.
  rewrite iter_object_properties_S, Hty. cbn [res_bind].
  replace (Py.eq (JStr "object") (JStr "object")) with true by reflexivity.
  rewrite Hprops. cbn [res_bind Py.iter].
  unfold Py.dict_keys at 1. rewrite !flat_mapM_map.
  apply flat_mapM_ext. intros [name sub_schema] Hin. cbn [fst snd].
  cbn [Py.contains res_bind]. unfold Py.dict_has.
  destruct (Py.dict_get name data) as [sub_data|] eqn:Hd; [|reflexivity].
  cbn [Py.getitem]. rewrite (dict_get_In _ _ _ Hnd Hin), Hd. cbn [res_bind].
  apply walk_fuel.
  apply getitem_str_depth in Hprops.
  pose proof (dict_get_depth _ _ _ (dict_get_In _ _ _ Hnd Hin)). lia.
Qed.

(** A schema of type [array]: the walker recurses into every element of the
    data, paired with [schema['items']], under the element's index. *)
Lemma walk_array (previous_path : list json) (schema item_schema : json)
    (items : list json) :
  Py.getitem schema (JStr "type") = Ok (JStr "array") ->
  Py.getitem schema (JStr "items") = Ok item_schema ->
  walk previous_path schema (JArr items) =
  flat_mapM (fun entry =>
    walk (previous_path ++ [JNum (fst entry)]) item_schema (snd entry))
    (Py.enumerate items).
Proof.
  intros Hty Hitems. unfold walk at 1. unfold walker_fuel.
  rewrite iter_object_properties_S, Hty. cbn [res_bind].
  replace (Py.eq (JStr "array") (JStr "object")) with false by reflexivity.
  replace (Py.eq (JStr "array") (JStr "array")) with true by reflexivity.
  cbn [res_bind Py.iter].
  apply flat_mapM_ext. intros entry _. rewrite Hitems. cbn [res_bind].
  apply walk_fuel. apply getitem_str_depth in Hitems. lia.
Qed.

(** A schema of any other type is a leaf. *)
Lemma walk_leaf (previous_path : list json) (schema data ty : json) :
  Py.getitem schema (JStr "type") = Ok ty ->
  ty <> JStr "object" -> ty <> JStr "array" ->
  walk previous_path schema data = Ok [(previous_path, schema, data)].
Proof.
  intros Hty Hobj Harr. unfold walk, walker_fuel.
  rewrite iter_object_properties_S, Hty. cbn [res_bind].
  rewrite (eq_JStr_false _ _ Hobj), (eq_JStr_false _ _ Harr). reflexivity.
Qed.

(** The indices of [enumerate] are the positions [0], [1], ... *)
Lemma enumerate_from_nth {A : Type} (l : list A) (start : Z) (n : nat) :
  nth_error (Py.enumerate_from start l) n =
  option_map (fun x => (start + Z.of_nat n, x)) (nth_error l n).
Proof.
  revert start n. induction l as [|x l IH]; intros start [|n]; simpl;
    try reflexivity.
  - f_equal. f_equal. lia.
  - rewrite IH. destruct (nth_error l n); simpl; [|reflexivity].
    f_equal. f_equal. lia.
Qed.

(** C2. The recursion rule of the schema walker: an [object] schema recurses
    into exactly the declared properties that are present in the data
    (a missing key yields nothing and is no error), an [array] schema
    recurses into each element of the data with [schema['items']] under the
    element's index, and any other type yields the single leaf
    [(path, schema, data)]; the schema
    [{type: object, properties: {a: {type: sample}}}] with the data
    [{a: {object_id: 5}}] yields exactly
    [(['a'], {type: sample}, {object_id: 5})]. *)
Theorem walker_recursion_rule :
  (forall previous_path schema properties data,
      Py.getitem schema (JStr "type") = Ok (JStr "object") ->
      Py.getitem schema (JStr "properties") = Ok (JObj properties) ->
      List.NoDup (Py.dict_keys properties) ->
      walk previous_path schema (JObj data) =
      flat_mapM (fun declared =>
        match Py.dict_get (fst declared) data with
        | Some sub_data =>
            walk (previous_path ++ [JStr (fst declared)]) (snd declared) sub_data
        | None => Ok []
        end) properties) /\
  (forall previous_path schema item_schema items,
      Py.getitem schema (JStr "type") = Ok (JStr "array") ->
      Py.getitem schema (JStr "items") = Ok item_schema ->
      walk previous_path schema (JArr items) =
      flat_mapM (fun entry =>
        walk (previous_path ++ [JNum (fst entry)]) item_schema (snd entry))
        (Py.enumerate items) /\
      forall n, nth_error (Py.enumerate items) n =
                option_map (fun item => (Z.of_nat n, item)) (nth_error items n)) /\
  (forall previous_path schema data ty,
      Py.getitem schema (JStr "type") = Ok ty ->
      ty <> JStr "object" -> ty <> JStr "array" ->
      walk previous_path schema data = Ok [(previous_path, schema, data)]) /\
  (forall object_id version_id action_id user_id,
      _get_object_properties
        (Object.make object_id version_id action_id
           (example_data (JNum 5)) example_schema user_id) =
      Ok [([JStr "a"], JObj [("type", JStr "sample")],
           JObj [("object_id", JNum 5)])]).
Proof.
  split; [|split; [|split]].
  - exact walk_object.
  - intros path schema item_schema items Hty Hitems. split.
    + apply walk_array; assumption.
    + intros n. unfold Py.enumerate. rewrite enumerate_from_nth.
      destruct (nth_error items n); reflexivity.
  - exact walk_leaf.
  - intros. reflexivity.
Qed.

(** ** The walker: what it yields *)

Lemma flat_mapM_In {A B : Type} (f : A -> res (list B)) (l : list A)
    (r : list B) (y : B) :
  flat_mapM f l = Ok r -> In y r ->
  exists x ys, In x l /\ f x = Ok ys /\ In y ys.
Proof.
  revert r. induction l as [|x l IH]; intros r; simpl.
  - intros H; injection H as <-. contradiction.
  - destruct (f x) as [ys| |] eqn:Hx; cbn [res_bind]; try discriminate.
    destruct (flat_mapM f l) as [zs| |]; cbn [res_bind]; try discriminate.
    intros H Hy; injection H as <-. apply in_app_or in Hy as [Hy|Hy].
    + exists x, ys. auto.
    + destruct (IH zs eq_refl Hy) as [x' [ys' [Hin [Hf Hy']]]].
      exists x', ys'. auto.
Qed.

Lemma iter_object_properties_leaves (n : nat) :
  forall previous_path schema data properties p,
    iter_object_properties n previous_path schema data = Ok properties ->
    In p properties ->
    exists suffix ty,
      fst (fst p) = previous_path ++ suffix /\
      Py.getitem (snd (fst p)) (JStr "type") = Ok ty /\
      ty <> JStr "object" /\ ty <> JStr "array".
Proof.
  induction n as [|n IH]; intros path schema data properties p; [discriminate|].
  rewrite iter_object_properties_S.
  destruct (Py.getitem schema (JStr "type")) as [ty| |] eqn:Hty;
    cbn [res_bind]; try discriminate.
  destruct (Py.eq ty (JStr "object")) eqn:Hobject.
  - destruct (Py.getitem schema (JStr "properties")) as [props| |];
      cbn [res_bind]; try discriminate.
    destruct (Py.iter props) as [names| |]; cbn [res_bind]; try discriminate.
    intros Hrun Hp.
    destruct (flat_mapM_In _ _ _ _ Hrun Hp) as [name [ys [_ [Hname Hy]]]].
    destruct (Py.contains name data) as [[|]| |]; cbn [res_bind] in Hname;
      try discriminate.
    + destruct (Py.getitem props name) as [sub_schema| |];
        cbn [res_bind] in Hname; try discriminate.
      destruct (Py.getitem data name) as [sub_data| |];
        cbn [res_bind] in Hname; try discriminate.
      destruct (IH _ _ _ _ _ Hname Hy) as [suffix [ty' [Hpath Hleaf]]].
      exists (name :: suffix), ty'. split; [|exact Hleaf].
      rewrite Hpath, <- app_assoc. reflexivity.
    + injection Hname as <-. contradiction.
  - destruct (Py.eq ty (JStr "array")) eqn:Harray.
    + destruct (Py.iter data) as [items| |]; cbn [res_bind]; try discriminate.
      intros Hrun Hp.
      destruct (flat_mapM_In _ _ _ _ Hrun Hp) as [entry [ys [_ [Hentry Hy]]]].
      destruct (Py.getitem schema (JStr "items")) as [item_schema| |];
        cbn [res_bind] in Hentry; try discriminate.
      destruct (IH _ _ _ _ _ Hentry Hy) as [suffix [ty' [Hpath Hleaf]]].
      exists (JNum (fst entry) :: suffix), ty'. split; [|exact Hleaf].
      rewrite Hpath, <- app_assoc. reflexivity.
    + intros H. injection H as <-. intros [<-|[]]. exists [], ty. cbn [fst snd].
      rewrite app_nil_r. repeat split; try exact Hty.
      * intros ->. rewrite (proj2 (eq_JStr _ _) eq_refl) in Hobject.
        discriminate.
      * intros ->. rewrite (proj2 (eq_JStr _ _) eq_refl) in Harray.
        discriminate.
Qed.

(** ** The object table *)

Lemma rows_of_In (object_id : Z) (table : list Object) (o : Object) :
  In o (Objects.rows_of object_id table) <->
  In o table /\ Object.object_id o = object_id.
Proof.
  unfold Objects.rows_of, Objects.has_object_id.
  rewrite List.filter_In, Z.eqb_eq. reflexivity.
Qed.

Lemma rows_of_app (object_id : Z) (table more : list Object) :
  Objects.rows_of object_id (table ++ more) =
  Objects.rows_of object_id table ++ Objects.rows_of object_id more.
Proof. apply List.filter_app. Qed.

Lemma rows_of_nil (object_id : Z) (table : list Object) :
  Objects.rows_of object_id table = [] <->
  forall o, In o table -> Object.object_id o <> object_id.
Proof.
  split.
  - intros Hnil o Hin Heq.
    assert (Ho : In o (Objects.rows_of object_id table))
      by (apply rows_of_In; split; assumption).
    rewrite Hnil in Ho. exact Ho.
  - intros Hall. destruct (Objects.rows_of object_id table) as [|o rest] eqn:E;
      [reflexivity|].
    assert (Ho : In o (Objects.rows_of object_id table))
      by (rewrite E; left; reflexivity).
    apply rows_of_In in Ho as [Hin Heq]. exfalso. exact (Hall o Hin Heq).
Qed.

Lemma newest_None (rows : list Object) :
  Objects.newest rows = None <-> rows = [].
Proof.
  split; [|intros ->; reflexivity].
  destruct rows as [|o rest]; [reflexivity|]. simpl.
  destruct (Objects.newest rest) as [o'|]; [|discriminate].
  destruct (_ <? _); discriminate.
Qed.

Lemma newest_Some (rows : list Object) (o : Object) :
  Objects.newest rows = Some o ->
  In o rows /\
  forall o', In o' rows -> Object.version_id o' <= Object.version_id o.
Proof.
  revert o. induction rows as [|r rest IH]; intros o; simpl; [discriminate|].
  destruct (Objects.newest rest) as [m|] eqn:E.
  - destruct (IH m eq_refl) as [Hin Hmax].
    destruct (Object.version_id r <? Object.version_id m) eqn:Hlt;
      intros H; injection H as <-.
    + apply Z.ltb_lt in Hlt. split; [right; exact Hin|].
      intros o' [<-|Ho']; [lia|apply Hmax; exact Ho'].
    + apply Z.ltb_ge in Hlt. split; [left; reflexivity|].
      intros o' [<-|Ho']; [lia|]. specialize (Hmax _ Ho'). lia.
  - apply newest_None in E. subst rest.
    intros H; injection H as <-. split; [left; reflexivity|].
    intros o' [<-|[]]. lia.
Qed.

Lemma newest_exists (s : State) (object_id : Z) :
  object_exists s object_id ->
  exists o, Objects.newest (Objects.rows_of object_id (objects_table s)) = Some o.
Proof.
  intros [o [Hin Heq]].
  destruct (Objects.newest _) as [m|] eqn:E; [eauto|].
  apply newest_None in E.
  assert (Ho : In o (Objects.rows_of object_id (objects_table s)))
    by (apply rows_of_In; split; assumption).
  rewrite E in Ho. contradiction.
Qed.

Lemma newest_is_current (s : State) (object_id : Z) (o : Object) :
  Objects.newest (Objects.rows_of object_id (objects_table s)) = Some o ->
  is_current s o /\ Object.object_id o = object_id.
Proof.
  intros H. apply newest_Some in H as [Hin Hmax].
  apply rows_of_In in Hin as [Hin Heq]. split; [split|]; [exact Hin| |exact Heq].
  intros o' Ho' Hid. apply Hmax. apply rows_of_In. split; [exact Ho'|lia].
Qed.

(** ** [get_object] *)

Lemma get_object_found (s : State) (object_id version_id : Z) :
  version_exists s object_id version_id ->
  exists o, get_object object_id (Some version_id) s = (Ok o, s) /\
            In o (objects_table s) /\
            Object.object_id o = object_id /\
            Object.version_id o = version_id.
Proof.
  intros [o [Hin [Hid Hv]]]. unfold get_object, bind,
    Objects.get_object_version, gets, ret.
  destruct (List.find _ _) as [o'|] eqn:Ef.
  - exists o'. apply List.find_some in Ef as [Hin' Hv'].
    apply rows_of_In in Hin' as [Hin' Hid']. apply Z.eqb_eq in Hv'. auto.
  - exfalso.
    assert (Ho : In o (Objects.rows_of object_id (objects_table s)))
      by (apply rows_of_In; auto).
    pose proof (List.find_none _ _ Ef o Ho) as Hf. simpl in Hf.
    apply Z.eqb_neq in Hf. contradiction.
Qed.

(** C3. [get_object(object_id, version_id)] with a version given raises
    [ObjectDoesNotExistError] when no object with that id exists, raises
    [ObjectVersionDoesNotExistError] when the object exists without that
    version, and returns that version otherwise; with the version omitted
    it returns the current version or raises [ObjectDoesNotExistError]. *)
Theorem get_object_outcomes (s : State) (object_id : Z) :
  (forall version_id,
      (~ object_exists s object_id ->
       get_object object_id (Some version_id) s =
       (Raise ObjectDoesNotExistError, s)) /\
      (object_exists s object_id ->
       ~ version_exists s object_id version_id ->
       get_object object_id (Some version_id) s =
       (Raise ObjectVersionDoesNotExistError, s)) /\
      (version_exists s object_id version_id ->
       exists o, get_object object_id (Some version_id) s = (Ok o, s) /\
                 In o (objects_table s) /\
                 Object.object_id o = object_id /\
                 Object.version_id o = version_id)) /\
  (~ object_exists s object_id ->
   get_object object_id None s = (Raise ObjectDoesNotExistError, s)) /\
  (object_exists s object_id ->
   exists o, get_object object_id None s = (Ok o, s) /\
             is_current s o /\ Object.object_id o = object_id).
Proof.
  assert (Hmissing : ~ object_exists s object_id ->
                     Objects.rows_of object_id (objects_table s) = []).
  { intros Hno. apply rows_of_nil. intros o Hin Heq. apply Hno.
    exists o. split; assumption. }
  split; [intros version_id; split; [|split]|split].
  - intros Hno. unfold get_object, bind, Objects.get_object_version,
      Objects.get_current_object, gets, raise.
    rewrite (Hmissing Hno). cbn. rewrite (Hmissing Hno). reflexivity.
  - intros Hex Hnov. unfold get_object, bind, Objects.get_object_version,
      Objects.get_current_object, gets, raise.
    destruct (List.find _ _) as [o|] eqn:Ef.
    + exfalso. apply Hnov. apply List.find_some in Ef as [Hin Hv].
      apply rows_of_In in Hin as [Hin Hid]. apply Z.eqb_eq in Hv.
      exists o. auto.
    + destruct (newest_exists s object_id Hex) as [m ->]. reflexivity.
  - apply get_object_found.
  - intros Hno. unfold get_object, bind, Objects.get_current_object, gets, raise.
    rewrite (Hmissing Hno). reflexivity.
  - intros Hex. destruct (newest_exists s object_id Hex) as [m Hm].
    exists m. unfold get_object, bind, Objects.get_current_object, gets, ret.
    rewrite Hm. split; [reflexivity|]. apply newest_is_current. exact Hm.
Qed.

(** ** Frames: what the operations leave alone *)

Arguments get_object : simpl never.
Arguments previous_reference_in : simpl never.
Arguments is_sample_reference : simpl never.
Arguments _get_object_properties : simpl never.
Arguments _update_object_references : simpl never.
Arguments update_reference : simpl never.
Arguments Py.getitem : simpl never.
Arguments Py.eq : simpl never.
Arguments Py.ne : simpl never.

Lemma with_object_log_nil (s : State) : with_object_log [] s = s.
Proof. destruct s. unfold with_object_log. simpl. rewrite app_nil_r. reflexivity. Qed.

Lemma with_object_log_app (es1 es2 : list ObjectLogEntry) (s : State) :
  with_object_log es2 (with_object_log es1 s) = with_object_log (es1 ++ es2) s.
Proof. unfold with_object_log. simpl. rewrite app_assoc. reflexivity. Qed.

(** [get_object] only reads the object table. *)
Lemma get_object_reads (object_id : Z) (version_id : option Z) (s : State) :
  snd (get_object object_id version_id s) = s.
Proof.
  unfold get_object, bind, Objects.get_current_object,
    Objects.get_object_version, gets, raise, ret.
  destruct version_id as [v|]; simpl.
  - destruct (List.find _ _); [reflexivity|]. simpl.
    destruct (Objects.newest _); reflexivity.
  - destruct (Objects.newest _); reflexivity.
Qed.

(** One round of the tracker's loop appends at most one
    [USE_OBJECT_IN_MEASUREMENT] entry to the object log and changes nothing
    else, whether it returns or raises. *)
Lemma update_reference_frame (object : Object) (user_id : Z)
    (action_type : ActionType) (p : property) (s : State) :
  exists entries,
    snd (update_reference object user_id action_type p s) =
      with_object_log entries s /\
    Forall (is_use_in_measurement user_id (Object.object_id object)) entries.
Proof.
  assert (Hnone : exists entries,
             s = with_object_log entries s /\
             Forall (is_use_in_measurement user_id (Object.object_id object)) entries)
    by (exists []; split; [symmetry; apply with_object_log_nil|constructor]).
  destruct p as [[path schema] data].
  unfold update_reference, bind, lift, ret.
  destruct (is_sample_reference schema data) as [[|]| |]; simpl; try exact Hnone.
  destruct (Py.getitem data (JStr "object_id")) as [referenced| |];
    simpl; try exact Hnone.
  assert (Hemit : forall previous,
    exists entries,
      snd ((if Py.ne referenced previous
            then if ActionType_eqb action_type MEASUREMENT
                 then object_log.use_object_in_measurement referenced user_id
                        (Object.object_id object)
                 else fun s0 => (Ok tt, s0)
            else fun s0 => (Ok tt, s0)) s) = with_object_log entries s /\
      Forall (is_use_in_measurement user_id (Object.object_id object)) entries).
  { intros previous. destruct (Py.ne referenced previous); [|exact Hnone].
    destruct (ActionType_eqb action_type MEASUREMENT); [|exact Hnone].
    exists [OL_USE_OBJECT_IN_MEASUREMENT referenced user_id (Object.object_id object)].
    split; [reflexivity|]. constructor; [|constructor]. exists referenced. reflexivity. }
  destruct (Object.version_id object >? 0); [|apply Hemit].
  pose proof (get_object_reads (Object.object_id object)
                (Some (Object.version_id object - 1)) s) as Hreads.
  destruct (get_object _ _ s) as [[previous_version| |] s1];
    simpl in Hreads; subst s1; simpl; try exact Hnone.
  destruct (previous_reference_in _ _) as [previous| |]; simpl; try exact Hnone.
  apply Hemit.
Qed.

Lemma for_each_update_reference_frame (object : Object) (user_id : Z)
    (action_type : ActionType) (properties : list property) (s : State) :
  exists entries,
    snd (for_each properties (update_reference object user_id action_type) s) =
      with_object_log entries s /\
    Forall (is_use_in_measurement user_id (Object.object_id object)) entries.
Proof.
  revert s. induction properties as [|p rest IH]; intros s; simpl.
  - exists []. split; [symmetry; apply with_object_log_nil|constructor].
  - unfold bind.
    destruct (update_reference_frame object user_id action_type p s)
      as [es1 [Hs1 Hes1]].
    destruct (update_reference object user_id action_type p s) as [r s1].
    simpl in Hs1. subst s1.
    destruct r as [[]| |]; try (exists es1; split; [reflexivity|exact Hes1]).
    destruct (IH (with_object_log es1 s)) as [es2 [Hs2 Hes2]].
    exists (es1 ++ es2). rewrite Hs2, with_object_log_app.
    split; [reflexivity|]. apply Forall_app; split; assumption.
Qed.

(** The tracker only appends [USE_OBJECT_IN_MEASUREMENT] entries to the
    object log, whether it returns or raises. *)
Lemma update_object_references_frame (object : Object) (user_id : Z) (s : State) :
  exists entries,
    snd (_update_object_references object user_id s) =
      with_object_log entries s /\
    Forall (is_use_in_measurement user_id (Object.object_id object)) entries.
Proof.
  unfold _update_object_references, bind, actions.get_action, lift.
  destruct (action_table s !! Object.action_id object) as [action|]; simpl.
  - destruct (_get_object_properties object) as [properties| |]; simpl;
      try (exists []; split; [symmetry; apply with_object_log_nil|constructor]).
    apply for_each_update_reference_frame.
  - exists []. split; [symmetry; apply with_object_log_nil|constructor].
Qed.

(** ** The version history of reachable stores *)

Lemma store_ok_same (s s' : State) :
  same_store s s' -> store_ok s -> store_ok s'.
Proof.
  intros [Ht [Hn Ha]] [Hg Hf Hact].
  constructor; rewrite ?Ht, ?Hn, ?Ha; assumption.
Qed.

Lemma gapless_bounds (rows : list Object) (o : Object) :
  gapless rows -> In o rows ->
  0 <= Object.version_id o < Z.of_nat (length rows).
Proof.
  intros Hg Hin.
  assert (Hv : In (Object.version_id o) (version_ids rows))
    by (apply in_map; exact Hin).
  rewrite Hg in Hv. apply in_map_iff in Hv as [i [Hi Hseq]].
  apply in_seq in Hseq. lia.
Qed.

Lemma gapless_last (rows : list Object) :
  gapless rows -> rows <> [] ->
  exists o, In o rows /\ Object.version_id o = Z.of_nat (length rows) - 1.
Proof.
  intros Hg Hne.
  assert (Hlen : (0 < length rows)%nat)
    by (destruct rows; [congruence|simpl; lia]).
  assert (Hv : In (Z.of_nat (length rows - 1)) (version_ids rows)).
  { rewrite Hg. apply in_map. apply in_seq. lia. }
  apply in_map_iff in Hv as [o [Ho Hin]]. exists o. split; [exact Hin|lia].
Qed.

(** In a gapless history the current version is number [N-1]. *)
Lemma gapless_newest (rows : list Object) (current : Object) :
  gapless rows -> Objects.newest rows = Some current ->
  Object.version_id current = Z.of_nat (length rows) - 1.
Proof.
  intros Hg Hnew. apply newest_Some in Hnew as [Hin Hmax].
  pose proof (gapless_bounds rows current Hg Hin) as Hb.
  destruct (gapless_last rows Hg) as [o [Ho Hv]].
  { intros ->. contradiction. }
  specialize (Hmax o Ho). lia.
Qed.

Lemma gapless_snoc (rows : list Object) (o : Object) :
  gapless rows -> Object.version_id o = Z.of_nat (length rows) ->
  gapless (rows ++ [o]).
Proof.
  unfold gapless, gapless_from, version_ids. intros Hg Hv.
  rewrite map_app, length_app, Hg. simpl.
  replace (length rows + 1)%nat with (S (length rows)) by lia.
  rewrite seq_S, map_app, Hv. reflexivity.
Qed.

Lemma rows_of_single (object_id : Z) (o : Object) :
  Objects.rows_of object_id [o] =
  if Object.object_id o =? object_id then [o] else [].
Proof. reflexivity. Qed.

(** Appending the next version of an existing object keeps the invariant. *)
Lemma store_ok_update (s : State) (object_id : Z) (current : Object)
    (data schema : json) (user_id : Z) :
  store_ok s ->
  Objects.newest (Objects.rows_of object_id (objects_table s)) = Some current ->
  store_ok (set_objects
              (objects_table s ++
               [Object.make object_id (Object.version_id current + 1)
                  (Object.action_id current) data schema user_id])
              (next_object_id s) s).
Proof.
  intros [Hg Hf Hact] Hnew.
  pose proof (gapless_newest _ _ (Hg object_id) Hnew) as Hcur.
  apply newest_Some in Hnew as [Hin _]. apply rows_of_In in Hin as [Hin Hid].
  constructor; simpl.
  - intros oid. rewrite rows_of_app, rows_of_single. simpl.
    destruct (object_id =? oid) eqn:E.
    + apply Z.eqb_eq in E. subst oid. apply gapless_snoc; [apply Hg|].
      simpl. lia.
    + rewrite app_nil_r. apply Hg.
  - intros o Ho. apply in_app_or in Ho as [Ho|[<-|[]]]; [apply Hf; exact Ho|].
    simpl. rewrite <- Hid. apply Hf. exact Hin.
  - intros o Ho. apply in_app_or in Ho as [Ho|[<-|[]]]; [apply Hact; exact Ho|].
    simpl. apply Hact. exact Hin.
Qed.

(** Appending version 0 of a new object keeps the invariant. *)
Lemma store_ok_create (s : State) (action_id : Z) (data schema : json)
    (user_id : Z) :
  store_ok s -> is_Some (action_table s !! action_id) ->
  store_ok (set_objects
              (objects_table s ++
               [Object.make (next_object_id s) 0 action_id data schema user_id])
              (next_object_id s + 1) s).
Proof.
  intros [Hg Hf Hact] Haction.
  constructor; simpl.
  - intros oid. rewrite rows_of_app, rows_of_single. simpl.
    destruct (next_object_id s =? oid) eqn:E.
    + apply Z.eqb_eq in E. subst oid.
      assert (Hnone : Objects.rows_of (next_object_id s) (objects_table s) = []).
      { apply rows_of_nil. intros o Ho. specialize (Hf o Ho). lia. }
      rewrite Hnone. reflexivity.
    + rewrite app_nil_r. apply Hg.
  - intros o Ho. apply in_app_or in Ho as [Ho|[<-|[]]].
    + specialize (Hf o Ho). lia.
    + simpl. lia.
  - intros o Ho. apply in_app_or in Ho as [Ho|[<-|[]]]; [apply Hact; exact Ho|].
    exact Haction.
Qed.

(** ** The writing operations, step by step *)

Lemma resolve_schema_eq (schema : option json) (action_id : Z) (s : State) :
  Objects.resolve_schema schema action_id s =
  (resolved_schema schema action_id s, s).
Proof.
  unfold Objects.resolve_schema, resolved_schema, bind, actions.get_action, ret.
  destruct schema; [reflexivity|].
  destruct (action_table s !! action_id); reflexivity.
Qed.

Lemma Objects_update_object_eq (object_id : Z) (data : json)
    (schema : option json) (user_id : Z) (s : State) :
  Objects.update_object object_id data schema user_id s =
  match Objects.newest (Objects.rows_of object_id (objects_table s)) with
  | None => (Ok None, s)
  | Some current =>
      match resolved_schema schema (Object.action_id current) s with
      | Ok schema' =>
          (Ok (Some (next_version current data schema' user_id)),
           persist (next_version current data schema' user_id) s)
      | Raise e => (Raise e, s)
      | OutOfFuel => (OutOfFuel, s)
      end
  end.
Proof.
  unfold Objects.update_object, bind at 1, Objects.get_current_object, gets.
  destruct (Objects.newest _) as [current|] eqn:Hnew; [|reflexivity].
  unfold bind. rewrite resolve_schema_eq.
  destruct (resolved_schema _ _ _); try reflexivity.
  unfold modify, ret, next_version, persist.
  apply newest_Some in Hnew as [Hin _]. apply rows_of_In in Hin as [_ ->].
  reflexivity.
Qed.

Lemma update_object_eq (object_id : Z) (data : json) (user_id : Z) (s : State) :
  update_object object_id data user_id s =
  match Objects.newest (Objects.rows_of object_id (objects_table s)) with
  | None => (Raise ObjectDoesNotExistError, s)
  | Some current =>
      match action_table s !! Object.action_id current with
      | None => (Raise ActionDoesNotExistError, s)
      | Some action =>
          let object := next_version current data (Action.schema action) user_id in
          _update_object_references object user_id
            (add_object_log
               (OL_EDIT_OBJECT object_id user_id (Object.version_id object))
               (add_user_log
                  (UL_EDIT_OBJECT user_id object_id (Object.version_id object))
                  (persist object s)))
      end
  end.
Proof.
  unfold update_object, bind at 1. rewrite Objects_update_object_eq.
  destruct (Objects.newest _) as [current|] eqn:Hnew; [|reflexivity].
  unfold resolved_schema.
  destruct (action_table s !! Object.action_id current); [|reflexivity].
  apply newest_Some in Hnew as [Hin _]. apply rows_of_In in Hin as [_ <-].
  reflexivity.
Qed.

Lemma restore_object_version_eq (object_id version_id user_id : Z) (s : State) :
  restore_object_version object_id version_id user_id s =
  match get_object object_id (Some version_id) s with
  | (Ok source, _) =>
      match Objects.newest (Objects.rows_of object_id (objects_table s)) with
      | None => (Raise AttributeError, s)
      | Some current =>
          let object :=
            next_version current (Object.data source) (Object.schema source)
              user_id in
          (Ok tt,
           add_object_log
             (OL_RESTORE_OBJECT_VERSION object_id user_id version_id
                (Object.version_id object))
             (add_user_log
                (UL_RESTORE_OBJECT_VERSION user_id object_id version_id
                   (Object.version_id object))
                (persist object s)))
      end
  | (Raise e, _) => (Raise e, s)
  | (OutOfFuel, _) => (OutOfFuel, s)
  end.
Proof.
  unfold restore_object_version, bind at 1.
  pose proof (get_object_reads object_id (Some version_id) s) as Hreads.
  destruct (get_object object_id (Some version_id) s) as [[source| |] s1];
    simpl in Hreads; subst s1; try reflexivity.
  unfold bind at 1. rewrite Objects_update_object_eq.
  destruct (Objects.newest _) as [current|]; reflexivity.
Qed.

Lemma create_object_eq (action_id : Z) (data : json) (user_id : Z) (s : State) :
  create_object action_id data user_id s =
  match action_table s !! action_id with
  | None => (Raise ActionDoesNotExistError, s)
  | Some action =>
      if decide (user_id ∈ user_table s) then
        let object := new_object s action_id data (Action.schema action) user_id in
        match
          _update_object_references object user_id
            (add_user_log (UL_CREATE_OBJECT user_id (Object.object_id object))
               (add_object_log
                  (OL_CREATE_OBJECT (Object.object_id object) user_id)
                  (set_objects (objects_table s ++ [object])
                     (next_object_id s + 1) s)))
        with
        | (Ok _, s') => (Ok object, add_initial_permissions (Object.object_id object) s')
        | (Raise e, s') => (Raise e, s')
        | (OutOfFuel, s') => (OutOfFuel, s')
        end
      else (Raise UserDoesNotExistError, s)
  end.
Proof.
  unfold create_object, bind at 1, actions.get_action.
  destruct (action_table s !! action_id) as [action|] eqn:Ha; [|reflexivity].
  unfold bind at 1, users.get_user.
  destruct (decide (user_id ∈ user_table s)); [|reflexivity].
  unfold bind at 1, Objects.create_object, bind at 1.
  rewrite resolve_schema_eq. unfold resolved_schema. rewrite Ha.
  unfold bind, gets, modify, ret, object_log.create_object,
    user_log.create_object, permissions.set_initial_permissions, modify.
  cbn [fst snd]. unfold new_object.
  destruct (_update_object_references _ _ _) as [[[]| |] s']; reflexivity.
Qed.

Lemma same_store_tracker (object : Object) (user_id : Z) (s : State) :
  same_store s (snd (_update_object_references object user_id s)).
Proof.
  destruct (update_object_references_frame object user_id s) as [es [-> _]].
  repeat split.
Qed.

Lemma store_ok_create_object (action_id : Z) (data : json) (user_id : Z)
    (s : State) :
  store_ok s -> store_ok (snd (create_object action_id data user_id s)).
Proof.
  intros Hok. rewrite create_object_eq.
  destruct (action_table s !! action_id) as [action|] eqn:Ha; [|exact Hok].
  destruct (decide (user_id ∈ user_table s)); [|exact Hok].
  cbv zeta.
  match goal with
  | |- context [_update_object_references ?o ?u ?s1] =>
      pose proof (same_store_tracker o u s1) as Hsame;
      destruct (_update_object_references o u s1) as [r s2]
  end.
  assert (Hs2 : store_ok s2).
  { eapply store_ok_same; [exact Hsame|].
    eapply store_ok_same;
      [|apply (store_ok_create s action_id data (Action.schema action) user_id Hok);
        rewrite Ha; eauto].
    repeat split. }
  destruct r as [[]| |]; simpl; try exact Hs2.
  eapply store_ok_same; [|exact Hs2]. repeat split.
Qed.

Lemma store_ok_update_object (object_id : Z) (data : json) (user_id : Z)
    (s : State) :
  store_ok s -> store_ok (snd (update_object object_id data user_id s)).
Proof.
  intros Hok. rewrite update_object_eq.
  destruct (Objects.newest _) as [current|] eqn:Hnew; [|exact Hok].
  destruct (action_table s !! Object.action_id current) as [action|];
    [|exact Hok].
  cbv zeta.
  eapply store_ok_same; [apply same_store_tracker|].
  eapply store_ok_same;
    [|apply (store_ok_update s object_id current data (Action.schema action)
               user_id Hok Hnew)].
  apply newest_Some in Hnew as [Hin _]. apply rows_of_In in Hin as [_ <-].
  repeat split.
Qed.

Lemma store_ok_restore_object_version (object_id version_id user_id : Z)
    (s : State) :
  store_ok s ->
  store_ok (snd (restore_object_version object_id version_id user_id s)).
Proof.
  intros Hok. rewrite restore_object_version_eq.
  destruct (get_object object_id (Some version_id) s) as [[source| |] s1];
    try exact Hok.
  destruct (Objects.newest _) as [current|] eqn:Hnew; [|exact Hok].
  cbv zeta.
  eapply store_ok_same;
    [|apply (store_ok_update s object_id current (Object.data source)
               (Object.schema source) user_id Hok Hnew)].
  apply newest_Some in Hnew as [Hin _]. apply rows_of_In in Hin as [_ <-].
  repeat split.
Qed.

(** Every reachable store satisfies the invariant. *)
Lemma reachable_store_ok (s : State) : reachable s -> store_ok s.
Proof.
  induction 1 as [next acts usrs|s aid data uid _ IH|s oid data uid _ IH
                 |s oid vid uid _ IH|s acts usrs _ IH Hdom].
  - constructor; simpl; [intros; reflexivity|contradiction|contradiction].
  - apply store_ok_create_object. exact IH.
  - apply store_ok_update_object. exact IH.
  - apply store_ok_restore_object_version. exact IH.
  - destruct IH as [Hg Hf Hact]. constructor; simpl; auto.
Qed.

(** ** [get_object_versions] *)

Lemma order_by_version_gapless (rows : list Object) (a : nat) :
  gapless_from a rows -> Objects.order_by_version rows = rows.
Proof.
  revert a. induction rows as [|o rest IH]; intros a Hg; [reflexivity|].
  unfold gapless_from, version_ids in Hg. simpl in Hg.
  injection Hg as Ho Hrest. simpl. rewrite (IH (S a) Hrest).
  destruct rest as [|o' rest']; [reflexivity|].
  simpl in Hrest. injection Hrest as Ho' _. simpl.
  replace (Object.version_id o <=? Object.version_id o') with true
    by (symmetry; apply Z.leb_le; lia).
  reflexivity.
Qed.

(** C5. In every reachable store, [get_object_versions(object_id)] returns
    for an existing object exactly its versions, numbered [0..N-1] from
    oldest to newest without gaps, and it raises [ObjectDoesNotExistError]
    exactly when the persistence layer returns the empty sequence, which
    is when the object has no versions. *)
Theorem get_object_versions_gapless (s : State) (object_id : Z) :
  reachable s ->
  (object_exists s object_id ->
   exists versions,
     get_object_versions object_id s = (Ok versions, s) /\
     versions <> [] /\
     map Object.version_id versions =
       map Z.of_nat (seq 0 (length versions)) /\
     forall o, In o versions <->
               In o (objects_table s) /\ Object.object_id o = object_id) /\
  (get_object_versions object_id s = (Raise ObjectDoesNotExistError, s) <->
   fst (Objects.get_object_versions object_id s) = Ok []) /\
  (fst (Objects.get_object_versions object_id s) = Ok [] <->
   ~ object_exists s object_id).
Proof.
  intros Hreach. apply reachable_store_ok in Hreach as [Hg _ _].
  specialize (Hg object_id).
  assert (Hsorted :
    Objects.order_by_version (Objects.rows_of object_id (objects_table s)) =
    Objects.rows_of object_id (objects_table s))
    by (eapply order_by_version_gapless; exact Hg).
  unfold get_object_versions, bind, Objects.get_object_versions, gets, raise, ret.
  cbn [fst]. rewrite Hsorted.
  split; [|split].
  - intros [o [Hin Hid]].
    assert (Ho : In o (Objects.rows_of object_id (objects_table s)))
      by (apply rows_of_In; auto).
    exists (Objects.rows_of object_id (objects_table s)).
    destruct (Objects.rows_of object_id (objects_table s)) as [|r rest] eqn:E;
      [contradiction|].
    split; [reflexivity|]. split; [discriminate|]. split; [exact Hg|].
    intros o'. rewrite <- E. apply rows_of_In.
  - destruct (Objects.rows_of object_id (objects_table s)); split; intros H;
      congruence.
  - split.
    + intros H [o [Hin Hid]]. injection H as H.
      assert (Ho : In o (Objects.rows_of object_id (objects_table s)))
        by (apply rows_of_In; auto).
      rewrite H in Ho. contradiction.
    + intros Hno. f_equal. apply rows_of_nil. intros o Hin Hid. apply Hno.
      exists o. auto.
Qed.

(** ** [update_object] *)

Lemma is_current_newest (s : State) (current newest : Object) :
  is_current s current ->
  Objects.newest
    (Objects.rows_of (Object.object_id current) (objects_table s)) = Some newest ->
  Object.version_id newest = Object.version_id current /\
  Object.object_id newest = Object.object_id current.
Proof.
  intros [Hin Hmax] Hnew. apply newest_Some in Hnew as [Hin' Hmax'].
  apply rows_of_In in Hin' as [Hin' Hid]. split; [|exact Hid].
  specialize (Hmax newest Hin' Hid).
  assert (Hc : In current
                 (Objects.rows_of (Object.object_id current) (objects_table s)))
    by (apply rows_of_In; auto).
  specialize (Hmax' current Hc). lia.
Qed.

Lemma is_current_persist (s : State) (current : Object) (data schema : json)
    (user_id : Z) (s' : State) :
  Objects.newest
    (Objects.rows_of (Object.object_id current) (objects_table s)) = Some current ->
  objects_table s' =
    objects_table s ++ [next_version current data schema user_id] ->
  is_current s' (next_version current data schema user_id).
Proof.
  intros Hnew Ht. apply newest_Some in Hnew as [_ Hmax]. split.
  - rewrite Ht. apply in_or_app. right. left. reflexivity.
  - intros o Ho Hid. rewrite Ht in Ho. simpl in Hid |- *.
    apply in_app_or in Ho as [Ho|[<-|[]]]; [|simpl; lia].
    assert (Hrow : In o (Objects.rows_of (Object.object_id current)
                           (objects_table s)))
      by (apply rows_of_In; auto).
    specialize (Hmax o Hrow). lia.
Qed.

(** C6. In every reachable store, [update_object(object_id, data, user_id)]
    on an existing object persists a new version that becomes the current
    one and whose [version_id] is the previous current [version_id] plus
    one; when no object with that id exists it raises
    [ObjectDoesNotExistError] and changes nothing. *)
Theorem update_object_increments_version (s : State) (object_id : Z)
    (data : json) (user_id : Z) :
  reachable s ->
  (forall current,
      is_current s current -> Object.object_id current = object_id ->
      exists new,
        objects_table (snd (update_object object_id data user_id s)) =
          objects_table s ++ [new] /\
        is_current (snd (update_object object_id data user_id s)) new /\
        Object.object_id new = object_id /\
        Object.version_id new = Object.version_id current + 1 /\
        Object.data new = data /\
        Object.user_id new = user_id) /\
  (~ object_exists s object_id ->
   update_object object_id data user_id s = (Raise ObjectDoesNotExistError, s)).
Proof.
  intros Hreach. apply reachable_store_ok in Hreach as [_ _ Hact].
  rewrite update_object_eq. split.
  - intros current Hcur Hid. subst object_id.
    destruct (newest_exists s (Object.object_id current)) as [top Htop].
    { exists current. destruct Hcur as [Hin _]. auto. }
    rewrite Htop.
    destruct (is_current_newest s current top Hcur Htop) as [Hv Hoid].
    assert (Hin : In top (objects_table s)).
    { apply newest_Some in Htop as [Hin _]. apply rows_of_In in Hin. tauto. }
    destruct (Hact top Hin) as [action Ha]. rewrite Ha. cbv zeta.
    set (new := next_version top data (Action.schema action) user_id).
    match goal with
    | |- context [_update_object_references new user_id ?s1] =>
        destruct (same_store_tracker new user_id s1) as [Ht _];
        set (s2 := snd (_update_object_references new user_id s1)) in *
    end.
    simpl in Ht. exists new.
    split; [exact Ht|]. split.
    + apply (is_current_persist s top data (Action.schema action) user_id);
        [rewrite Hoid; exact Htop|exact Ht].
    + simpl. repeat split; auto. lia.
  - intros Hno.
    assert (Hnil : Objects.rows_of object_id (objects_table s) = []).
    { apply rows_of_nil. intros o Hin Hid. apply Hno. exists o. auto. }
    rewrite Hnil. reflexivity.
Qed.

(** ** [restore_object_version] *)

(** C4. For an existing version [version_id] of an object,
    [restore_object_version] writes a brand-new version on top of the
    current one, with the data and schema of the restored version; its
    number is above every version the object had, so it differs from
    [version_id]; and a restore entry carrying both the restored version id
    and the new version id is appended to the user log and to the object
    log. *)
Theorem restore_object_version_new_top_version (s : State)
    (object_id version_id user_id : Z) :
  version_exists s object_id version_id ->
  exists source current new,
    get_object object_id (Some version_id) s = (Ok source, s) /\
    Object.version_id source = version_id /\
    is_current s current /\ Object.object_id current = object_id /\
    restore_object_version object_id version_id user_id s =
      (Ok tt,
       add_object_log
         (OL_RESTORE_OBJECT_VERSION object_id user_id version_id
            (Object.version_id new))
         (add_user_log
            (UL_RESTORE_OBJECT_VERSION user_id object_id version_id
               (Object.version_id new))
            (persist new s))) /\
    Object.object_id new = object_id /\
    Object.version_id new = Object.version_id current + 1 /\
    Object.data new = Object.data source /\
    Object.schema new = Object.schema source /\
    (forall o, In o (objects_table s) -> Object.object_id o = object_id ->
               Object.version_id o < Object.version_id new) /\
    Object.version_id new <> version_id.
Proof.
  intros Hv.
  destruct (get_object_found s object_id version_id Hv)
    as [source [Hget [Hin [Hid Hvid]]]].
  destruct (newest_exists s object_id) as [current Hnew].
  { exists source. auto. }
  destruct (newest_is_current s object_id current Hnew) as [Hcur Hcid].
  exists source, current,
    (next_version current (Object.data source) (Object.schema source) user_id).
  rewrite restore_object_version_eq, Hget, Hnew.
  assert (Hbelow : forall o, In o (objects_table s) ->
                     Object.object_id o = object_id ->
                     Object.version_id o < Object.version_id current + 1).
  { intros o Ho Hoid. destruct Hcur as [_ Hmax].
    specialize (Hmax o Ho). rewrite Hoid, Hcid in Hmax.
    specialize (Hmax eq_refl). lia. }
  repeat split; auto.
  - destruct Hcur; assumption.
  - destruct Hcur; assumption.
  - simpl. specialize (Hbelow source Hin Hid). lia.
Qed.

(** ** [create_object] *)

(** C7. [create_object] raises [ActionDoesNotExistError] when the action
    does not exist and [UserDoesNotExistError] when the action exists and
    the user does not; the checks precede every mutation: in both cases the
    state after the call is the state before it (no version, no log entry,
    no reference event, no permission). *)
Theorem create_object_checks_before_mutation (s : State) (action_id : Z)
    (data : json) (user_id : Z) :
  (action_table s !! action_id = None ->
   create_object action_id data user_id s = (Raise ActionDoesNotExistError, s)) /\
  (is_Some (action_table s !! action_id) -> user_id ∉ user_table s ->
   create_object action_id data user_id s = (Raise UserDoesNotExistError, s)) /\
  (action_table s !! action_id = None \/ user_id ∉ user_table s ->
   exists e, create_object action_id data user_id s = (Raise e, s) /\
             (e = ActionDoesNotExistError \/ e = UserDoesNotExistError)).
Proof.
  rewrite create_object_eq. split; [|split].
  - intros ->. reflexivity.
  - intros [action ->] Hno. destruct (decide (user_id ∈ user_table s));
      [contradiction|reflexivity].
  - intros Hmissing.
    destruct (action_table s !! action_id) as [action|]; [|eauto].
    destruct Hmissing as [Ha|Hu]; [discriminate|].
    destruct (decide (user_id ∈ user_table s)); [contradiction|eauto].
Qed.

(** ** [handle_send_mail_task] *)

(** C8. Once the message is built from the task data,
    [handle_send_mail_task] returns [False] without raising when the
    transport refuses the recipients, returns [True] when the transport
    sends the message, and lets every other exception of the transport
    propagate to the caller. *)
Theorem handle_send_mail_task_outcomes
    (mail_send : send_mail.Message -> res unit) (config data : json)
    (message : send_mail.Message) :
  send_mail.message_of config data = Ok message ->
  (mail_send message = Raise SMTPRecipientsRefused ->
   send_mail.handle_send_mail_task mail_send config data = Ok false) /\
  (mail_send message = Ok tt ->
   send_mail.handle_send_mail_task mail_send config data = Ok true) /\
  (forall e, mail_send message = Raise e -> e <> SMTPRecipientsRefused ->
             send_mail.handle_send_mail_task mail_send config data = Raise e).
Proof.
  intros Hmsg.
  unfold send_mail.handle_send_mail_task, send_mail.send_message.
  rewrite Hmsg. cbn [res_bind].
  split; [|split].
  - intros ->. reflexivity.
  - intros ->. reflexivity.
  - intros e -> Hne. destruct e; try reflexivity. contradiction.
Qed.

(** ** [ObjectShare.__init__] *)

(** C10. [ObjectShare.__init__] never assigns [utc_datetime] from a given
    (non-[None]) argument: the attribute is assigned only when the argument
    is [None], then to the current UTC time; a timestamp passed by the
    caller is dropped and the attribute stays unassigned, while the other
    three attributes are assigned from their arguments. *)
Theorem ObjectShare_init_drops_given_utc_datetime
    (utcnow : ObjectShare.datetime) (object_id component_id : Z)
    (policy : json) :
  (forall given,
      ObjectShare.__init__ utcnow object_id component_id policy (Some given) =
      ObjectShare.mk (Some object_id) (Some component_id) (Some policy) None) /\
  ObjectShare.__init__ utcnow object_id component_id policy None =
  ObjectShare.mk (Some object_id) (Some component_id) (Some policy) (Some utcnow).
Proof. split; [intros given|]; reflexivity. Qed.

(** ** The reference tracker *)

Lemma getitem_object_id (data referenced : json) :
  Py.getitem data (JStr "object_id") = Ok referenced ->
  reference_of data = referenced.
Proof.
  intros H. apply getitem_str_Ok in H as [fields [-> H]].
  simpl. rewrite H. reflexivity.
Qed.

Lemma is_none_JNull (v : json) : Py.is_none v = true -> v = JNull.
Proof. destruct v; simpl; congruence. Qed.

Lemma is_sample_reference_Ok (schema data : json) (guard : bool) :
  is_sample_reference schema data = Ok guard ->
  guard = declared_sample schema && negb (Py.is_none (reference_of data)) /\
  (guard = true ->
   Py.getitem data (JStr "object_id") = Ok (reference_of data)).
Proof.
  unfold is_sample_reference, declared_sample.
  destruct (Py.getitem schema (JStr "type")) as [ty| |];
    cbn [res_bind]; try discriminate.
  destruct (Py.eq ty (JStr "sample")); cbn [andb].
  - destruct (Py.is_none data) eqn:Hnone; cbn [negb].
    + apply is_none_JNull in Hnone. subst data.
      intros H; injection H as <-. split; [reflexivity|discriminate].
    + destruct (Py.getitem data (JStr "object_id")) as [current| |] eqn:Hcur;
        cbn [res_bind]; try discriminate.
      apply getitem_object_id in Hcur as Href. rewrite Href.
      intros H; injection H as <-. split; [reflexivity|intros _; reflexivity].
  - intros H; injection H as <-. split; [reflexivity|discriminate].
Qed.

Lemma previous_reference_in_Ok (previous_data : json) (path : list json)
    (previous : json) :
  previous_reference_in previous_data path = Ok previous ->
  previous = match walk_path previous_data path with
             | Ok leaf => reference_of leaf
             | _ => JNull
             end.
Proof.
  unfold previous_reference_in.
  destruct (walk_path previous_data path) as [leaf|e|].
  - destruct (Py.is_none leaf) eqn:Hnone; cbn [negb].
    + apply is_none_JNull in Hnone. subst leaf. intros H; injection H as <-.
      reflexivity.
    + destruct (Py.getitem leaf (JStr "object_id")) as [found| |] eqn:Hfound;
        cbn [res_bind]; try discriminate.
      apply getitem_object_id in Hfound as Href. rewrite Href.
      destruct (Py.is_none found) eqn:Hnull; cbn [negb].
      * apply is_none_JNull in Hnull. intros H; injection H as <-.
        symmetry; exact Hnull.
      * intros H; injection H as <-. reflexivity.
  - destruct e; intros H; try discriminate; injection H as <-; reflexivity.
  - discriminate.
Qed.

(** Which traversal errors count as "no previous reference": a missing key
    and an index out of range do; subscripting a value that is no container
    raises [TypeError], which the [except] clause does not catch. *)
Example previous_reference_in_errors :
  previous_reference_in (JObj []) [JStr "a"; JStr "b"] = Ok JNull /\
  previous_reference_in (JObj [("a", JArr [])]) [JStr "a"; JNum 0] = Ok JNull /\
  previous_reference_in (JObj [("a", JNull)]) [JStr "a"; JStr "b"] =
    Raise TypeError.
Proof. repeat split. Qed.

Lemma get_object_version_Ok (object_id version_id : Z) (s s1 : State)
    (o : Object) :
  get_object object_id (Some version_id) s = (Ok o, s1) ->
  fst (Objects.get_object_version object_id version_id s) = Ok (Some o).
Proof.
  unfold get_object, bind, Objects.get_object_version,
    Objects.get_current_object, gets, raise, ret. cbn [fst].
  destruct (List.find _ _) as [found|].
  - intros H. injection H as -> _. reflexivity.
  - destruct (Objects.newest _); discriminate.
Qed.

(** One round of the loop, when it returns. *)
Lemma update_reference_Ok (object : Object) (user_id : Z)
    (action_type : ActionType) (p : property) (s s' : State) :
  0 <= Object.version_id object ->
  update_reference object user_id action_type p s = (Ok tt, s') ->
  s' = with_object_log
         (if emits_use action_type s object p
          then [use_event user_id object p] else []) s.
Proof.
  intros Hversion. destruct p as [[path schema] data].
  unfold update_reference, bind, lift, ret, emits_use, use_event.
  destruct (is_sample_reference schema data) as [guard| |] eqn:Hguard;
    try discriminate.
  apply is_sample_reference_Ok in Hguard as [Hguard Hcurrent].
  rewrite <- Hguard. destruct guard; cbn [andb].
  2: { intros H; injection H as <-. symmetry. apply with_object_log_nil. }
  rewrite (Hcurrent eq_refl).
  set (referenced := reference_of data).
  assert (Hprevious : forall previous,
    previous = previous_reference s object path ->
    (if Py.ne referenced previous
     then if ActionType_eqb action_type MEASUREMENT
          then object_log.use_object_in_measurement referenced user_id
                 (Object.object_id object)
          else fun s0 => (Ok tt, s0)
     else fun s0 => (Ok tt, s0)) s = (Ok tt, s') ->
    s' = with_object_log
           (if Py.ne referenced (previous_reference s object path) &&
               ActionType_eqb action_type MEASUREMENT
            then [OL_USE_OBJECT_IN_MEASUREMENT referenced user_id
                    (Object.object_id object)]
            else []) s).
  { intros previous <-.
    destruct (Py.ne referenced previous); cbn [andb];
      [destruct (ActionType_eqb action_type MEASUREMENT)|];
      intros H; injection H as <-;
      try (symmetry; apply with_object_log_nil). reflexivity. }
  destruct (Object.version_id object >? 0) eqn:Hpositive.
  - pose proof (get_object_reads (Object.object_id object)
                  (Some (Object.version_id object - 1)) s) as Hreads.
    destruct (get_object _ _ s) as [[previous_version| |] s1] eqn:Hget;
      simpl in Hreads; subst s1; try discriminate.
    apply get_object_version_Ok in Hget.
    destruct (previous_reference_in _ _) as [previous| |] eqn:Hin;
      try discriminate.
    apply previous_reference_in_Ok in Hin.
    apply Hprevious. unfold previous_reference. rewrite Hget.
    replace (Object.version_id object =? 0) with false
      by (symmetry; apply Z.eqb_neq; apply Z.gtb_lt in Hpositive; lia).
    exact Hin.
  - apply Hprevious. unfold previous_reference.
    replace (Object.version_id object =? 0) with true; [reflexivity|].
    symmetry. apply Z.eqb_eq.
    assert (Hle : ~ Object.version_id object > 0).
    { intros Hgt. apply Z.gt_lt, Z.gtb_lt in Hgt. congruence. }
    lia.
Qed.

Lemma for_each_update_reference_Ok (object : Object) (user_id : Z)
    (action_type : ActionType) (properties : list property) (s s' : State) :
  0 <= Object.version_id object ->
  for_each properties (update_reference object user_id action_type) s =
    (Ok tt, s') ->
  s' = with_object_log
         (reference_events emits_use action_type s object user_id properties) s.
Proof.
  intros Hversion. revert s.
  induction properties as [|p rest IH]; intros s; simpl.
  - unfold ret. intros H; injection H as <-. symmetry.
    apply with_object_log_nil.
  - unfold bind.
    destruct (update_reference object user_id action_type p s)
      as [[[]| |] s1] eqn:Hp; try discriminate.
    apply (update_reference_Ok _ _ _ _ _ _ Hversion) in Hp. intros Hrest.
    apply IH in Hrest. subst s1. rewrite Hrest, with_object_log_app.
    f_equal. unfold reference_events. simpl.
    replace (List.filter (emits_use action_type (with_object_log _ s) object) rest)
      with (List.filter (emits_use action_type s object) rest)
      by (apply List.filter_ext; intros [[path schema] data]; reflexivity).
    destruct (emits_use action_type s object p); reflexivity.
Qed.

(** The preceding version as [get_object] reads it. *)
Lemma get_object_previous (object_id version_id : Z) (s : State) :
  match fst (Objects.get_object_version object_id version_id s) with
  | Ok (Some previous) =>
      get_object object_id (Some version_id) s = (Ok previous, s)
  | _ => exists e, get_object object_id (Some version_id) s = (Raise e, s)
  end.
Proof.
  unfold get_object, bind, Objects.get_object_version,
    Objects.get_current_object, gets, raise, ret. cbn [fst].
  destruct (List.find _ _) as [found|]; [reflexivity|].
  destruct (Objects.newest _); eexists; reflexivity.
Qed.

(** The lookup in the data of the preceding version, outcome by outcome. *)
Lemma previous_reference_in_outcome (previous_data : json) (path : list json) :
  if previous_lookup_defined previous_data path
  then previous_reference_in previous_data path =
       Ok match walk_path previous_data path with
          | Ok leaf => reference_of leaf
          | _ => JNull
          end
  else forall previous, previous_reference_in previous_data path <> Ok previous.
Proof.
  unfold previous_lookup_defined, previous_reference_in.
  destruct (walk_path previous_data path) as [leaf|e|].
  - destruct leaf as [|b|n|str|items|fields]; try reflexivity;
      try (intros previous; discriminate).
    unfold holds_reference, Py.dict_has, reference_of, Py.getitem.
    cbn [Py.is_none negb].
    destruct (Py.dict_get "object_id" fields) as [found|]; cbn [res_bind].
    + destruct (Py.is_none found) eqn:Hnone; cbn [negb]; [|reflexivity].
      apply is_none_JNull in Hnone. subst found. reflexivity.
    + intros previous. discriminate.
  - destruct e; try reflexivity; intros previous; discriminate.
  - intros previous. discriminate.
Qed.

(** One round of the loop: it returns exactly when the references of the
    leaf can be read, and then appends the entry of the leaf, if any. *)
Lemma update_reference_outcome (object : Object) (user_id : Z)
    (action_type : ActionType) (p : property) (s : State) (ty : json) :
  0 <= Object.version_id object ->
  Py.getitem (snd (fst p)) (JStr "type") = Ok ty ->
  if references_readable s object p
  then update_reference object user_id action_type p s =
       (Ok tt,
        with_object_log
          (if emits_use action_type s object p
           then [use_event user_id object p] else []) s)
  else forall s', update_reference object user_id action_type p s <> (Ok tt, s').
Proof.
  intros Hversion Hty. destruct p as [[path schema] data]. cbn [fst snd] in Hty.
  unfold references_readable, emits_use, use_event, declared_sample.
  unfold update_reference, bind, lift, ret, is_sample_reference.
  rewrite Hty. cbn [res_bind].
  destruct (Py.eq ty (JStr "sample")); cbn [andb];
    [|rewrite with_object_log_nil; reflexivity].
  assert (Hnull : (Ok tt, s) = (Ok tt, with_object_log [] s))
    by (rewrite with_object_log_nil; reflexivity).
  destruct data as [|b|n|str|items|fields];
    try (intros s'; discriminate); [exact Hnull|].
  unfold holds_reference, Py.dict_has, reference_of, Py.getitem.
  cbn [Py.is_none negb].
  destruct (Py.dict_get "object_id" fields) as [referenced|]; cbn [res_bind andb];
    [|intros s'; discriminate].
  destruct (Py.is_none referenced) eqn:Hnone; cbn [negb andb]; [exact Hnull|].
  assert (Hemit : forall previous,
    (if Py.ne referenced previous
     then if ActionType_eqb action_type MEASUREMENT
          then object_log.use_object_in_measurement referenced user_id
                 (Object.object_id object)
          else fun s0 => (Ok tt, s0)
     else fun s0 => (Ok tt, s0)) s =
    (Ok tt,
     with_object_log
       (if Py.ne referenced previous && ActionType_eqb action_type MEASUREMENT
        then [OL_USE_OBJECT_IN_MEASUREMENT referenced user_id
                (Object.object_id object)]
        else []) s)).
  { intros previous.
    destruct (Py.ne referenced previous); cbn [andb];
      [destruct (ActionType_eqb action_type MEASUREMENT)|];
      try exact Hnull. reflexivity. }
  unfold previous_reference.
  destruct (Object.version_id object =? 0) eqn:Hzero; cbn [negb].
  - apply Z.eqb_eq in Hzero.
    replace (Object.version_id object >? 0) with false
      by (rewrite Hzero; reflexivity).
    apply Hemit.
  - apply Z.eqb_neq in Hzero.
    replace (Object.version_id object >? 0) with true
      by (symmetry; apply Z.gtb_lt; lia).
    pose proof (get_object_previous (Object.object_id object)
                  (Object.version_id object - 1) s) as Hget.
    destruct (fst (Objects.get_object_version _ _ s)) as [[previous|]| |].
    2-4: destruct Hget as [raised Hget]; rewrite Hget; intros s'; discriminate.
    rewrite Hget.
    pose proof (previous_reference_in_outcome (Object.data previous) path)
      as Hlookup.
    destruct (previous_lookup_defined (Object.data previous) path).
    + rewrite Hlookup. apply Hemit.
    + destruct (previous_reference_in _ _) as [found| |];
        [exfalso; exact (Hlookup found eq_refl)| |]; intros s'; discriminate.
Qed.

Lemma for_each_update_reference_outcome (object : Object) (user_id : Z)
    (action_type : ActionType) (properties : list property) (s : State) :
  0 <= Object.version_id object ->
  Forall (fun p => exists ty, Py.getitem (snd (fst p)) (JStr "type") = Ok ty)
    properties ->
  if forallb (references_readable s object) properties
  then for_each properties (update_reference object user_id action_type) s =
       (Ok tt,
        with_object_log
          (reference_events emits_use action_type s object user_id properties) s)
  else forall s',
      for_each properties (update_reference object user_id action_type) s <>
      (Ok tt, s').
Proof.
  intros Hversion Htyped. revert s.
  induction Htyped as [|p rest [ty Hty] _ IH]; intros s.
  - cbn [forallb for_each]. unfold ret, reference_events. cbn [List.filter map].
    rewrite with_object_log_nil. reflexivity.
  - cbn [forallb for_each]. unfold bind.
    pose proof (update_reference_outcome object user_id action_type p s ty
                  Hversion Hty) as Hround.
    destruct (references_readable s object p); cbn [andb].
    + rewrite Hround.
      set (entries := if emits_use action_type s object p
                      then [use_event user_id object p] else []).
      specialize (IH (with_object_log entries s)).
      replace (forallb (references_readable (with_object_log entries s) object)
                 rest)
        with (forallb (references_readable s object) rest) in IH
        by reflexivity.
      destruct (forallb (references_readable s object) rest).
      * rewrite IH, with_object_log_app. f_equal. f_equal.
        unfold reference_events. cbn [List.filter].
        replace (List.filter
                   (emits_use action_type (with_object_log entries s) object) rest)
          with (List.filter (emits_use action_type s object) rest)
          by (apply List.filter_ext; intros [[path schema] data]; reflexivity).
        unfold entries.
        destruct (emits_use action_type s object p); reflexivity.
      * exact IH.
    + intros s'.
      destruct (update_reference object user_id action_type p s)
        as [[[]| |] s1] eqn:Hp; try discriminate.
      exfalso. exact (Hround s1 eq_refl).
Qed.

(** C1 (amended). The Reference Tracker, run on a version of an object as
    [create_object] and [update_object] run it, returns exactly when the
    action exists, the walker returns and the references of every leaf can
    be read; and it has then appended to the object log exactly one
    "used in measurement" entry, on the log of the referenced object and
    naming the acting user and the referencing object, for each
    sample-typed leaf, in the walker's order, such that the action is a
    measurement, the leaf's current [object_id] is not null and it differs
    from the previous reference.  The previous reference is null for
    version 0 and otherwise the [object_id] at the same path in the
    immediately preceding version; when a key is missing or an index is out
    of range on the way, the tracker does not fail: there is no previous
    reference, and the entry is appended.  Nothing else changes. *)
Theorem reference_tracker_events (s s' : State) (object : Object) (user_id : Z) :
  0 <= Object.version_id object ->
  _update_object_references object user_id s = (Ok tt, s') <->
  exists action properties,
    action_table s !! Object.action_id object = Some action /\
    _get_object_properties object = Ok properties /\
    forallb (references_readable s object) properties = true /\
    s' = with_object_log
           (reference_events emits_use (Action.type action) s object user_id
              properties) s.
Proof.
  intros Hversion.
  unfold _update_object_references, bind, actions.get_action, lift.
  destruct (action_table s !! Object.action_id object) as [action|].
  2: { split; [discriminate|]. intros [a [ps [Ha _]]]. discriminate. }
  destruct (_get_object_properties object) as [properties| |] eqn:Hwalk.
  2-3: split; [discriminate|]; intros [a [ps [_ [Hps _]]]]; discriminate.
  assert (Htyped : Forall
    (fun p => exists ty, Py.getitem (snd (fst p)) (JStr "type") = Ok ty)
    properties).
  { apply List.Forall_forall. intros p Hp.
    destruct (iter_object_properties_leaves _ _ _ _ _ _ Hwalk Hp)
      as [suffix [ty [_ [Hty _]]]].
    exists ty. exact Hty. }
  pose proof (for_each_update_reference_outcome object user_id
                (Action.type action) properties s Hversion Htyped) as Hloop.
  split.
  - intros Hrun. exists action, properties.
    split; [reflexivity|]. split; [reflexivity|].
    destruct (forallb (references_readable s object) properties).
    + split; [reflexivity|]. rewrite Hloop in Hrun. injection Hrun as <-.
      reflexivity.
    + exfalso. exact (Hloop s' Hrun).
  - intros [a [ps [Ha [Hps [Hreadable ->]]]]].
    injection Ha as <-. injection Hps as <-.
    rewrite Hreadable in Hloop. exact Hloop.
Qed.

(** [reference_tracker_events] on two updates of the measurement to a
    reference to sample 7.  After a version 0 that referenced sample 5, the
    run returns with one entry, for sample 7.  After a version 0 whose data
    is the empty dictionary, the key [a] is missing in the preceding
    version: the run returns all the same, with the entry for sample 7. *)
Lemma reference_tracker_events_witness :
  0 <= Object.version_id (scenario_version_1 (JNum 7)) /\
  _update_object_references (scenario_version_1 (JNum 7)) 1
    (scenario_before_tracker (JNum 7)) =
    (Ok tt,
     with_object_log [OL_USE_OBJECT_IN_MEASUREMENT (JNum 7) 1 1]
       (scenario_before_tracker (JNum 7))) /\
  (exists action properties,
     action_table (scenario_before_tracker (JNum 7)) !!
       Object.action_id (scenario_version_1 (JNum 7)) = Some action /\
     _get_object_properties (scenario_version_1 (JNum 7)) = Ok properties /\
     forallb (references_readable (scenario_before_tracker (JNum 7))
                (scenario_version_1 (JNum 7))) properties = true /\
     with_object_log [OL_USE_OBJECT_IN_MEASUREMENT (JNum 7) 1 1]
       (scenario_before_tracker (JNum 7)) =
     with_object_log
       (reference_events emits_use (Action.type action)
          (scenario_before_tracker (JNum 7)) (scenario_version_1 (JNum 7)) 1
          properties)
       (scenario_before_tracker (JNum 7))) /\
  Objects.get_object_version 1 0 (scenario_missing_path (JNum 7)) =
    (Ok (Some (Object.make 1 0 1 (JObj []) example_schema 1)),
     scenario_missing_path (JNum 7)) /\
  walk_path (JObj []) [JStr "a"] = Raise KeyError /\
  _update_object_references (scenario_version_1 (JNum 7)) 1
    (scenario_missing_path (JNum 7)) =
    (Ok tt,
     with_object_log [OL_USE_OBJECT_IN_MEASUREMENT (JNum 7) 1 1]
       (scenario_missing_path (JNum 7))).
Proof.
  assert (Hversion : 0 <= Object.version_id (scenario_version_1 (JNum 7)))
    by (simpl; lia).
  assert (Hrun :
    _update_object_references (scenario_version_1 (JNum 7)) 1
      (scenario_before_tracker (JNum 7)) =
    (Ok tt,
     with_object_log [OL_USE_OBJECT_IN_MEASUREMENT (JNum 7) 1 1]
       (scenario_before_tracker (JNum 7))))
    by (vm_compute; reflexivity).
  split; [exact Hversion|]. split; [exact Hrun|].
  split; [exact (proj1 (reference_tracker_events _ _ _ _ Hversion) Hrun)|].
  split; [vm_compute; reflexivity|]. split; [reflexivity|].
  apply (proj2 (reference_tracker_events (scenario_missing_path (JNum 7)) _
                  (scenario_version_1 (JNum 7)) 1 Hversion)).
  exists measurement_action, [sample_leaf (JNum 7)].
  split; [vm_compute; reflexivity|]. split; [vm_compute; reflexivity|].
  split; vm_compute; reflexivity.
Defined.

(** Counterexample to C1 as stated, without the condition that the current
    reference is not null: user 1 updates the measurement of the scenario so that its leaf [a] holds
    [{object_id: null}].  The action is a measurement, the leaf is
    sample-typed, its current [object_id] (null) differs from the previous
    reference (5), and yet the tracker returns without appending any entry:
    the object log only gains the edit entry of [update_object]. *)
Lemma reference_tracker_null_reference_counterexample :
  update_object 1 (example_data JNull) 1 scenario_created =
    (Ok tt, scenario_before_tracker JNull) /\
  _update_object_references (scenario_version_1 JNull) 1
    (scenario_before_tracker JNull) = (Ok tt, scenario_before_tracker JNull) /\
  object_log_entries (scenario_before_tracker JNull) =
    object_log_entries scenario_created ++ [OL_EDIT_OBJECT 1 1 1] /\
  action_table (scenario_before_tracker JNull) !!
    Object.action_id (scenario_version_1 JNull) = Some measurement_action /\
  Action.type measurement_action = MEASUREMENT /\
  _get_object_properties (scenario_version_1 JNull) = Ok [sample_leaf JNull] /\
  declared_sample (snd (fst (sample_leaf JNull))) = true /\
  reference_of (snd (sample_leaf JNull)) = JNull /\
  previous_reference (scenario_before_tracker JNull) (scenario_version_1 JNull)
    [JStr "a"] = JNum 5 /\
  Py.ne JNull (JNum 5) = true /\
  reference_events emits_use_ignoring_null MEASUREMENT
    (scenario_before_tracker JNull) (scenario_version_1 JNull) 1
    [sample_leaf JNull] = [OL_USE_OBJECT_IN_MEASUREMENT JNull 1 1] /\
  scenario_before_tracker JNull <>
    with_object_log
      (reference_events emits_use_ignoring_null MEASUREMENT
         (scenario_before_tracker JNull) (scenario_version_1 JNull) 1
         [sample_leaf JNull])
      (scenario_before_tracker JNull) /\
  ~ (forall (s s' : State) (object : Object) (user_id : Z),
        0 <= Object.version_id object ->
        _update_object_references object user_id s = (Ok tt, s') ->
        exists action properties,
          action_table s !! Object.action_id object = Some action /\
          _get_object_properties object = Ok properties /\
          s' = with_object_log
                 (reference_events emits_use_ignoring_null (Action.type action)
                    s object user_id properties) s).
Proof.
  assert (Hrun :
    _update_object_references (scenario_version_1 JNull) 1
      (scenario_before_tracker JNull) = (Ok tt, scenario_before_tracker JNull))
    by (vm_compute; reflexivity).
  repeat split; try (vm_compute; reflexivity).
  - intros H. apply (f_equal object_log_entries) in H.
    vm_compute in H. discriminate H.
  - intros Hclaim.
    destruct (Hclaim _ _ (scenario_version_1 JNull) 1 ltac:(simpl; lia) Hrun)
      as [action [properties [Haction [Hproperties Hstate]]]].
    vm_compute in Haction. injection Haction as <-.
    vm_compute in Hproperties. injection Hproperties as <-.
    apply (f_equal object_log_entries) in Hstate.
    vm_compute in Hstate. discriminate Hstate.
Qed.

(** The scenario of the spec: creating a measurement that references
    sample 5 emits one entry for sample 5; updating it to reference sample 7
    emits one entry for sample 7 and none for sample 5. *)
Example reference_tracker_scenario :
  object_log_entries scenario_created =
    [OL_CREATE_OBJECT 1 1; OL_USE_OBJECT_IN_MEASUREMENT (JNum 5) 1 1] /\
  object_log_entries scenario_updated =
    object_log_entries scenario_created ++
    [OL_EDIT_OBJECT 1 1 1; OL_USE_OBJECT_IN_MEASUREMENT (JNum 7) 1 1].
Proof. split; vm_compute; reflexivity. Qed.

(** The same update after a creation with the empty dictionary as data:
    the key [a] is missing in version 0, [update_object] returns, and the
    entry for sample 7 follows the edit entry. *)
Example reference_tracker_missing_path_scenario :
  create_object 1 (JObj []) 1 scenario_initial =
    (Ok (Object.make 1 0 1 (JObj []) example_schema 1), scenario_created_empty) /\
  object_log_entries scenario_created_empty = [OL_CREATE_OBJECT 1 1] /\
  update_object 1 (example_data (JNum 7)) 1 scenario_created_empty =
    (Ok tt,
     with_object_log [OL_USE_OBJECT_IN_MEASUREMENT (JNum 7) 1 1]
       (scenario_missing_path (JNum 7))) /\
  object_log_entries
    (snd (update_object 1 (example_data (JNum 7)) 1 scenario_created_empty)) =
    [OL_CREATE_OBJECT 1 1; OL_EDIT_OBJECT 1 1 1;
     OL_USE_OBJECT_IN_MEASUREMENT (JNum 7) 1 1].
Proof. repeat split; vm_compute; reflexivity. Qed.

(** C9. [restore_object_version] never runs the Reference Tracker: whatever
    the store and the arguments, it leaves the object log as it is or
    appends the single restore entry of the restored object, hence no
    "used in measurement" entry and nothing on the log of any other object.
    In the scenario, restoring version 0 brings back the reference to
    sample 5 in place of sample 7 without any entry for sample 5, whereas
    [update_object] with the same data emits one, as [create_object] did
    when the measurement was created. *)
Theorem restore_object_version_skips_reference_tracker :
  (forall (s : State) (object_id version_id user_id : Z),
      object_log_entries
        (snd (restore_object_version object_id version_id user_id s)) =
        object_log_entries s \/
      exists new_version_id,
        object_log_entries
          (snd (restore_object_version object_id version_id user_id s)) =
        object_log_entries s ++
        [OL_RESTORE_OBJECT_VERSION object_id user_id version_id new_version_id]) /\
  (forall (s : State) (object_id version_id user_id : Z)
          (referenced : json) (user measurement : Z),
      In (OL_USE_OBJECT_IN_MEASUREMENT referenced user measurement)
        (object_log_entries
           (snd (restore_object_version object_id version_id user_id s))) ->
      In (OL_USE_OBJECT_IN_MEASUREMENT referenced user measurement)
        (object_log_entries s)) /\
  object_log_entries (snd (restore_object_version 1 0 1 scenario_updated)) =
    object_log_entries scenario_updated ++ [OL_RESTORE_OBJECT_VERSION 1 1 0 2] /\
  object_log_entries
    (snd (update_object 1 (example_data (JNum 5)) 1 scenario_updated)) =
    object_log_entries scenario_updated ++
    [OL_EDIT_OBJECT 1 1 2; OL_USE_OBJECT_IN_MEASUREMENT (JNum 5) 1 1] /\
  object_log_entries scenario_created =
    object_log_entries scenario_initial ++
    [OL_CREATE_OBJECT 1 1; OL_USE_OBJECT_IN_MEASUREMENT (JNum 5) 1 1].
Proof.
  assert (Hlog : forall (s : State) (object_id version_id user_id : Z),
    object_log_entries
      (snd (restore_object_version object_id version_id user_id s)) =
      object_log_entries s \/
    exists new_version_id,
      object_log_entries
        (snd (restore_object_version object_id version_id user_id s)) =
      object_log_entries s ++
      [OL_RESTORE_OBJECT_VERSION object_id user_id version_id new_version_id]).
  { intros s object_id version_id user_id. rewrite restore_object_version_eq.
    destruct (get_object object_id (Some version_id) s) as [[source| |] s1];
      try (left; reflexivity).
    destruct (Objects.newest _) as [current|]; [|left; reflexivity].
    right. eexists. reflexivity. }
  split; [exact Hlog|].
  split; [|split; [|split]; vm_compute; reflexivity].
  intros s object_id version_id user_id referenced user measurement Hin.
  destruct (Hlog s object_id version_id user_id) as [Heq|[n Heq]];
    rewrite Heq in Hin; [exact Hin|].
  apply in_app_or in Hin as [Hin|[Habs|[]]]; [exact Hin|discriminate Habs].
Qed.

(** ** The theorems at work on the scenario *)

(** [walker_recursion_rule] on an object schema whose property is missing
    from the data, on an array of two items and on a leaf. *)
Lemma walker_recursion_rule_witness :
  (Py.getitem example_schema (JStr "type") = Ok (JStr "object") /\
   Py.getitem example_schema (JStr "properties") =
     Ok (JObj [("a", sample_schema)]) /\
   List.NoDup (Py.dict_keys [("a", sample_schema)]) /\
   walk [] example_schema (JObj [("b", JNull)]) = Ok []) /\
  (Py.getitem array_schema (JStr "type") = Ok (JStr "array") /\
   Py.getitem array_schema (JStr "items") = Ok sample_schema /\
   walk [] array_schema (JArr [JNull; JNum 3]) =
     Ok [([JNum 0], sample_schema, JNull); ([JNum 1], sample_schema, JNum 3)]) /\
  (Py.getitem sample_schema (JStr "type") = Ok (JStr "sample") /\
   JStr "sample" <> JStr "object" /\ JStr "sample" <> JStr "array" /\
   walk [JStr "a"] sample_schema (JNum 5) =
     Ok [([JStr "a"], sample_schema, JNum 5)]).
Proof.
  destruct walker_recursion_rule as [Hobject [Harray [Hleaf _]]].
  assert (Hnodup : List.NoDup (Py.dict_keys [("a", sample_schema)]))
    by (constructor; [intros []|constructor]).
  split; [|split].
  - split; [reflexivity|]. split; [reflexivity|]. split; [exact Hnodup|].
    rewrite (Hobject [] example_schema [("a", sample_schema)] [("b", JNull)]
               eq_refl eq_refl Hnodup).
    reflexivity.
  - split; [reflexivity|]. split; [reflexivity|].
    rewrite (proj1 (Harray [] array_schema sample_schema [JNull; JNum 3]
                      eq_refl eq_refl)).
    reflexivity.
  - split; [reflexivity|]. split; [discriminate|]. split; [discriminate|].
    apply (Hleaf [JStr "a"] sample_schema (JNum 5) (JStr "sample") eq_refl);
      discriminate.
Defined.

Lemma scenario_updated_table :
  objects_table scenario_updated =
  [scenario_version_0; scenario_version_1 (JNum 7)].
Proof. vm_compute. reflexivity. Defined.

Lemma scenario_updated_reachable : reachable scenario_updated.
Proof.
  apply reachable_update. apply reachable_create. apply reachable_initial.
Defined.

(** [get_object_outcomes] for a missing object, a missing version and an
    existing version. *)
Lemma get_object_outcomes_witness :
  (~ object_exists scenario_updated 9 /\
   get_object 9 (Some 0) scenario_updated =
     (Raise ObjectDoesNotExistError, scenario_updated)) /\
  (object_exists scenario_updated 1 /\ ~ version_exists scenario_updated 1 5 /\
   get_object 1 (Some 5) scenario_updated =
     (Raise ObjectVersionDoesNotExistError, scenario_updated)) /\
  (version_exists scenario_updated 1 0 /\
   exists o, get_object 1 (Some 0) scenario_updated = (Ok o, scenario_updated) /\
             In o (objects_table scenario_updated) /\
             Object.object_id o = 1 /\ Object.version_id o = 0).
Proof.
  assert (Hno9 : ~ object_exists scenario_updated 9).
  { intros [o [Hin Hid]]. rewrite scenario_updated_table in Hin.
    destruct Hin as [<-|[<-|[]]]; discriminate Hid. }
  assert (Hex1 : object_exists scenario_updated 1).
  { exists scenario_version_0. rewrite scenario_updated_table.
    split; [left; reflexivity|reflexivity]. }
  assert (Hno5 : ~ version_exists scenario_updated 1 5).
  { intros [o [Hin [Hid Hv]]]. rewrite scenario_updated_table in Hin.
    destruct Hin as [<-|[<-|[]]]; discriminate Hv. }
  assert (Hv0 : version_exists scenario_updated 1 0).
  { exists scenario_version_0. rewrite scenario_updated_table.
    split; [left; reflexivity|split; reflexivity]. }
  split; [|split].
  - split; [exact Hno9|].
    exact (proj1 (proj1 (get_object_outcomes scenario_updated 9) 0) Hno9).
  - split; [exact Hex1|]. split; [exact Hno5|].
    exact (proj1 (proj2 (proj1 (get_object_outcomes scenario_updated 1) 5))
             Hex1 Hno5).
  - split; [exact Hv0|].
    exact (proj2 (proj2 (proj1 (get_object_outcomes scenario_updated 1) 0)) Hv0).
Defined.

(** [restore_object_version_new_top_version]: restoring version 0 of the
    measurement. *)
Lemma restore_object_version_new_top_version_witness :
  version_exists scenario_updated 1 0 /\
  exists source current new,
    get_object 1 (Some 0) scenario_updated = (Ok source, scenario_updated) /\
    Object.version_id source = 0 /\
    is_current scenario_updated current /\ Object.object_id current = 1 /\
    restore_object_version 1 0 1 scenario_updated =
      (Ok tt,
       add_object_log (OL_RESTORE_OBJECT_VERSION 1 1 0 (Object.version_id new))
         (add_user_log (UL_RESTORE_OBJECT_VERSION 1 1 0 (Object.version_id new))
            (persist new scenario_updated))) /\
    Object.object_id new = 1 /\
    Object.version_id new = Object.version_id current + 1 /\
    Object.data new = Object.data source /\
    Object.schema new = Object.schema source /\
    (forall o, In o (objects_table scenario_updated) ->
               Object.object_id o = 1 ->
               Object.version_id o < Object.version_id new) /\
    Object.version_id new <> 0.
Proof.
  assert (Hv0 : version_exists scenario_updated 1 0).
  { exists scenario_version_0. rewrite scenario_updated_table.
    split; [left; reflexivity|split; reflexivity]. }
  split; [exact Hv0|].
  exact (restore_object_version_new_top_version scenario_updated 1 0 1 Hv0).
Defined.

(** [get_object_versions_gapless]: the two versions of the measurement. *)
Lemma get_object_versions_gapless_witness :
  reachable scenario_updated /\
  object_exists scenario_updated 1 /\
  exists versions,
    get_object_versions 1 scenario_updated = (Ok versions, scenario_updated) /\
    versions <> [] /\
    map Object.version_id versions = map Z.of_nat (seq 0 (length versions)) /\
    forall o, In o versions <->
              In o (objects_table scenario_updated) /\ Object.object_id o = 1.
Proof.
  assert (Hex1 : object_exists scenario_updated 1).
  { exists scenario_version_0. rewrite scenario_updated_table.
    split; [left; reflexivity|reflexivity]. }
  split; [exact scenario_updated_reachable|]. split; [exact Hex1|].
  exact (proj1 (get_object_versions_gapless scenario_updated 1
                  scenario_updated_reachable) Hex1).
Defined.

(** [update_object_increments_version]: a further update of the
    measurement, and an update of a missing object. *)
Lemma update_object_increments_version_witness :
  reachable scenario_updated /\
  is_current scenario_updated (scenario_version_1 (JNum 7)) /\
  Object.object_id (scenario_version_1 (JNum 7)) = 1 /\
  (exists new,
     objects_table (snd (update_object 1 (example_data JNull) 1 scenario_updated)) =
       objects_table scenario_updated ++ [new] /\
     is_current (snd (update_object 1 (example_data JNull) 1 scenario_updated)) new /\
     Object.object_id new = 1 /\
     Object.version_id new = Object.version_id (scenario_version_1 (JNum 7)) + 1 /\
     Object.data new = example_data JNull /\
     Object.user_id new = 1) /\
  ~ object_exists scenario_updated 9 /\
  update_object 9 (example_data JNull) 1 scenario_updated =
    (Raise ObjectDoesNotExistError, scenario_updated).
Proof.
  assert (Hcur : is_current scenario_updated (scenario_version_1 (JNum 7))).
  { split; rewrite scenario_updated_table.
    - right; left; reflexivity.
    - intros o [<-|[<-|[]]] _; simpl; lia. }
  assert (Hno9 : ~ object_exists scenario_updated 9).
  { intros [o [Hin Hid]]. rewrite scenario_updated_table in Hin.
    destruct Hin as [<-|[<-|[]]]; discriminate Hid. }
  split; [exact scenario_updated_reachable|]. split; [exact Hcur|].
  split; [reflexivity|]. split; [|split; [exact Hno9|]].
  - exact (proj1 (update_object_increments_version scenario_updated 1
                    (example_data JNull) 1 scenario_updated_reachable)
             (scenario_version_1 (JNum 7)) Hcur eq_refl).
  - exact (proj2 (update_object_increments_version scenario_updated 9
                    (example_data JNull) 1 scenario_updated_reachable) Hno9).
Defined.

(** [create_object_checks_before_mutation]: a missing action, then a
    missing user. *)
Lemma create_object_checks_before_mutation_witness :
  (action_table scenario_initial !! 2 = None /\
   create_object 2 (example_data (JNum 5)) 1 scenario_initial =
     (Raise ActionDoesNotExistError, scenario_initial)) /\
  (is_Some (action_table scenario_initial !! 1) /\
   (2 ∉ user_table scenario_initial) /\
   create_object 1 (example_data (JNum 5)) 2 scenario_initial =
     (Raise UserDoesNotExistError, scenario_initial)).
Proof.
  assert (Hno2 : action_table scenario_initial !! 2 = None) by reflexivity.
  assert (Hact1 : is_Some (action_table scenario_initial !! 1))
    by (exists measurement_action; reflexivity).
  assert (Huser2 : 2 ∉ user_table scenario_initial)
    by (simpl; intros H; apply elem_of_singleton in H; discriminate H).
  split.
  - split; [exact Hno2|].
    exact (proj1 (create_object_checks_before_mutation scenario_initial 2
                    (example_data (JNum 5)) 1) Hno2).
  - split; [exact Hact1|]. split; [exact Huser2|].
    exact (proj1 (proj2 (create_object_checks_before_mutation scenario_initial 1
                           (example_data (JNum 5)) 2)) Hact1 Huser2).
Defined.

(** [handle_send_mail_task_outcomes] for a transport that refuses the
    recipients, one that sends and one that loses the connection. *)
Lemma handle_send_mail_task_outcomes_witness :
  send_mail.message_of mail_config mail_task_data = Ok mail_message /\
  send_mail.handle_send_mail_task (fun _ => Raise SMTPRecipientsRefused)
    mail_config mail_task_data = Ok false /\
  send_mail.handle_send_mail_task (fun _ => Ok tt)
    mail_config mail_task_data = Ok true /\
  send_mail.handle_send_mail_task (fun _ => Raise SMTPServerDisconnected)
    mail_config mail_task_data = Raise SMTPServerDisconnected.
Proof.
  assert (Hmsg : send_mail.message_of mail_config mail_task_data = Ok mail_message)
    by reflexivity.
  split; [exact Hmsg|]. split; [|split].
  - exact (proj1 (handle_send_mail_task_outcomes
                    (fun _ => Raise SMTPRecipientsRefused) _ _ _ Hmsg) eq_refl).
  - exact (proj1 (proj2 (handle_send_mail_task_outcomes
                           (fun _ => Ok tt) _ _ _ Hmsg)) eq_refl).
  - apply (proj2 (proj2 (handle_send_mail_task_outcomes
                           (fun _ => Raise SMTPServerDisconnected) _ _ _ Hmsg))
             SMTPServerDisconnected eq_refl).
    discriminate.
Defined.

(** * Further properties of the code *)

(** ** The walker: leaves and paths *)

Lemma enumerate_from_In {A : Type} (l : list A) (start i : Z) (x : A) :
  In (i, x) (Py.enumerate_from start l) ->
  exists n, i = start + Z.of_nat n /\ nth_error l n = Some x.
Proof.
  revert start. induction l as [|a l IH]; intros start; simpl; [contradiction|].
  intros [H|H].
  - injection H as <- <-. exists O. split; [lia|reflexivity].
  - destruct (IH _ H) as [n [Hi Hn]]. exists (S n). split; [lia|exact Hn].
Qed.

Lemma seq_index_nth {A : Type} (l : list A) (n : nat) (x : A) :
  nth_error l n = Some x -> Py.seq_index l (Z.of_nat n) = Ok x.
Proof.
  intros H. unfold Py.seq_index.
  assert (Hlen : (n < length l)%nat) by (apply nth_error_Some; congruence).
  assert (Hneg : (Z.of_nat n <? 0) = false) by (apply Z.ltb_ge; lia).
  assert (Hin : (Z.of_nat (length l) <=? Z.of_nat n) = false)
    by (apply Z.leb_gt; lia).
  cbv zeta. rewrite !Hneg, Hin. cbn [orb]. rewrite Nat2Z.id, H. reflexivity.
Qed.

(** X1. Whatever the schema and the data, each property the walker yields
    lies below the path it was started with, and its schema is a leaf: it
    has a [type], which is neither [object] nor [array]. *)
Theorem walker_yields_leaves (previous_path : list json) (schema data : json)
    (properties : list property) :
  walk previous_path schema data = Ok properties ->
  Forall (fun p =>
    exists suffix ty,
      fst (fst p) = previous_path ++ suffix /\
      Py.getitem (snd (fst p)) (JStr "type") = Ok ty /\
      ty <> JStr "object" /\ ty <> JStr "array") properties.
Proof.
  intros Hwalk. apply List.Forall_forall. intros p Hp.
  exact (iter_object_properties_leaves _ _ _ _ _ _ Hwalk Hp).
Qed.

Lemma walker_yields_leaves_witness :
  walk [] example_schema (example_data (JNum 5)) = Ok [sample_leaf (JNum 5)] /\
  Forall (fun p =>
    exists suffix ty,
      fst (fst p) = [] ++ suffix /\
      Py.getitem (snd (fst p)) (JStr "type") = Ok ty /\
      ty <> JStr "object" /\ ty <> JStr "array") [sample_leaf (JNum 5)].
Proof.
  assert (Hwalk : walk [] example_schema (example_data (JNum 5)) =
                  Ok [sample_leaf (JNum 5)]) by reflexivity.
  split; [exact Hwalk|]. exact (walker_yields_leaves _ _ _ _ Hwalk).
Defined.

Lemma iter_object_properties_resolve (n : nat) :
  forall previous_path schema data properties p,
    arrays_hold_sequences schema data ->
    iter_object_properties n previous_path schema data = Ok properties ->
    In p properties ->
    exists suffix,
      fst (fst p) = previous_path ++ suffix /\
      walk_path data suffix = Ok (snd p).
Proof.
  induction n as [|n IH]; intros path schema data properties p Hfit;
    [discriminate|].
  rewrite iter_object_properties_S.
  destruct (Py.getitem schema (JStr "type")) as [ty| |] eqn:Hty;
    cbn [res_bind]; try discriminate.
  destruct (Py.eq ty (JStr "object")) eqn:Hobject.
  - apply eq_JStr in Hobject. subst ty.
    destruct (Py.getitem schema (JStr "properties")) as [props| |] eqn:Hprops;
      cbn [res_bind]; try discriminate.
    destruct (Py.iter props) as [names| |]; cbn [res_bind]; try discriminate.
    intros Hrun Hp.
    destruct (flat_mapM_In _ _ _ _ Hrun Hp) as [name [ys [_ [Hname Hy]]]].
    destruct (Py.contains name data) as [[|]| |]; cbn [res_bind] in Hname;
      try discriminate.
    + destruct (Py.getitem props name) as [sub_schema| |] eqn:Hsub;
        cbn [res_bind] in Hname; try discriminate.
      destruct (Py.getitem data name) as [sub_data| |] eqn:Hdata;
        cbn [res_bind] in Hname; try discriminate.
      assert (Hfit' : arrays_hold_sequences sub_schema sub_data).
      { inversion Hfit as [? ? _ Hall|? ? Habs|? ? ? Habs Hno]; subst.
        - eapply Hall; eassumption.
        - congruence.
        - rewrite Hty in Habs. injection Habs as <-. contradiction. }
      destruct (IH _ _ _ _ _ Hfit' Hname Hy) as [suffix [Hpath Hleaf]].
      exists (name :: suffix). split.
      * rewrite Hpath, <- app_assoc. reflexivity.
      * cbn [walk_path]. rewrite Hdata. exact Hleaf.
    + injection Hname as <-. contradiction.
  - destruct (Py.eq ty (JStr "array")) eqn:Harray.
    + apply eq_JStr in Harray. subst ty.
      destruct (Py.iter data) as [items| |] eqn:Hiter;
        cbn [res_bind]; try discriminate.
      intros Hrun Hp.
      destruct (flat_mapM_In _ _ _ _ Hrun Hp)
        as [[index item] [ys [Hentry [Hrec Hy]]]].
      cbn [fst snd] in Hrec.
      destruct (Py.getitem schema (JStr "items")) as [item_schema| |] eqn:Hitems;
        cbn [res_bind] in Hrec; try discriminate.
      apply enumerate_from_In in Hentry as [pos [Hindex Hnth]].
      assert (Hin : In item items) by (eapply nth_error_In; exact Hnth).
      assert (Hseq : Py.getitem data (JNum index) = Ok item /\
                     arrays_hold_sequences item_schema item).
      { inversion Hfit as [? ? Habs|? ? _ Hnodict Hall|? ? ? Habs _ Hno]; subst.
        - congruence.
        - split; [|eapply Hall; eauto].
          replace (0 + Z.of_nat pos) with (Z.of_nat pos) by lia.
          destruct data; try discriminate Hiter; unfold Py.getitem.
          + injection Hiter as <-. apply seq_index_nth. exact Hnth.
          + injection Hiter as <-. apply seq_index_nth. exact Hnth.
          + exfalso. eapply Hnodict. reflexivity.
        - rewrite Hty in Habs. injection Habs as <-. contradiction. }
      destruct Hseq as [Hget Hfit'].
      destruct (IH _ _ _ _ _ Hfit' Hrec Hy) as [suffix [Hpath Hleaf]].
      exists (JNum index :: suffix). split.
      * rewrite Hpath, <- app_assoc. reflexivity.
      * cbn [walk_path]. rewrite Hget. exact Hleaf.
    + intros H. injection H as <-. intros [<-|[]]. exists [].
      cbn [fst snd]. rewrite app_nil_r. split; reflexivity.
Qed.

(** X2. When the arrays of the data are sequences, every path that
    [_get_object_properties] yields resolves in the data of the object to
    the value yielded with it: subscripting the data along the path, as the
    reference tracker does with the previous version, returns that value. *)
Theorem walker_paths_resolve (object : Object) (properties : list property) :
  arrays_hold_sequences (Object.schema object) (Object.data object) ->
  _get_object_properties object = Ok properties ->
  Forall (fun p => walk_path (Object.data object) (fst (fst p)) = Ok (snd p))
    properties.
Proof.
  intros Hfit Hwalk. apply List.Forall_forall. intros p Hp.
  destruct (iter_object_properties_resolve _ _ _ _ _ _ Hfit Hwalk Hp)
    as [suffix [Hpath Hleaf]].
  rewrite Hpath. exact Hleaf.
Qed.

Lemma walker_paths_resolve_witness :
  arrays_hold_sequences array_schema (JArr [JObj [("object_id", JNum 5)]]) /\
  _get_object_properties
    (Object.make 1 0 1 (JArr [JObj [("object_id", JNum 5)]]) array_schema 1) =
    Ok [([JNum 0], sample_schema, JObj [("object_id", JNum 5)])] /\
  Forall (fun p =>
    walk_path (JArr [JObj [("object_id", JNum 5)]]) (fst (fst p)) = Ok (snd p))
    [([JNum 0], sample_schema, JObj [("object_id", JNum 5)])].
Proof.
  assert (Hfit : arrays_hold_sequences array_schema
                   (JArr [JObj [("object_id", JNum 5)]])).
  { apply sequences_array; [reflexivity|discriminate|].
    intros item_schema items item Hitems _ _.
    vm_compute in Hitems. injection Hitems as <-.
    apply (sequences_leaf _ _ (JStr "sample")); [reflexivity| |]; discriminate. }
  assert (Hwalk :
    _get_object_properties
      (Object.make 1 0 1 (JArr [JObj [("object_id", JNum 5)]]) array_schema 1) =
    Ok [([JNum 0], sample_schema, JObj [("object_id", JNum 5)])])
    by reflexivity.
  split; [exact Hfit|]. split; [exact Hwalk|].
  exact (walker_paths_resolve
           (Object.make 1 0 1 (JArr [JObj [("object_id", JNum 5)]])
              array_schema 1) _ Hfit Hwalk).
Defined.

(** Without that condition a path may not resolve: under an [array] schema a
    dictionary is enumerated by its keys, and position 0 is no key of it. *)
Example walker_enumerates_dictionary_keys :
  walk [] array_schema (JObj [("k", JNull)]) =
    Ok [([JNum 0], sample_schema, JStr "k")] /\
  walk_path (JObj [("k", JNull)]) [JNum 0] = Raise KeyError.
Proof. split; reflexivity. Qed.

Lemma flat_mapM_nil {A B : Type} (f : A -> res (list B)) (l : list A) :
  (forall x, f x = Ok []) -> flat_mapM f l = Ok [].
Proof.
  intros Hf. induction l as [|x l IH]; [reflexivity|].
  cbn [flat_mapM]. rewrite Hf, IH. reflexivity.
Qed.

Lemma walk_S (previous_path : list json) (schema data : json) :
  walk previous_path schema data =
  iter_object_properties (S (json_depth schema)) previous_path schema data.
Proof. reflexivity. Qed.

(** X3. Errors and edges of the walker.  A schema without a [type] raises
    [KeyError] and a schema that is no dictionary raises [TypeError].  An
    [array] schema yields nothing for the empty list, even when it has no
    [items], and raises [KeyError] for a non-empty list when [items] is
    missing.  An [object] schema raises [TypeError] when the data is null
    and a property is declared, and yields nothing for the empty
    dictionary. *)
Theorem walker_errors_and_edges (previous_path : list json) (schema data : json) :
  (forall fields, schema = JObj fields -> Py.dict_get "type" fields = None ->
     walk previous_path schema data = Raise KeyError) /\
  ((forall fields, schema <> JObj fields) ->
     walk previous_path schema data = Raise TypeError) /\
  (Py.getitem schema (JStr "type") = Ok (JStr "array") ->
     walk previous_path schema (JArr []) = Ok [] /\
     (Py.getitem schema (JStr "items") = Raise KeyError ->
      forall item items,
        walk previous_path schema (JArr (item :: items)) = Raise KeyError)) /\
  (Py.getitem schema (JStr "type") = Ok (JStr "object") ->
     forall name sub_schema declared,
       Py.getitem schema (JStr "properties") =
         Ok (JObj ((name, sub_schema) :: declared)) ->
       walk previous_path schema JNull = Raise TypeError /\
       walk previous_path schema (JObj []) = Ok []).
Proof.
  split; [|split; [|split]].
  - intros fields -> Hno. rewrite walk_S, iter_object_properties_S.
    unfold Py.getitem at 1. rewrite Hno. reflexivity.
  - intros Hnodict. rewrite walk_S, iter_object_properties_S.
    destruct schema; try reflexivity. exfalso. eapply Hnodict. reflexivity.
  - intros Hty. split.
    + rewrite walk_S, iter_object_properties_S, Hty. reflexivity.
    + intros Hitems item items.
      rewrite walk_S, iter_object_properties_S, Hty. cbn [res_bind].
      replace (Py.eq (JStr "array") (JStr "object")) with false by reflexivity.
      replace (Py.eq (JStr "array") (JStr "array")) with true by reflexivity.
      cbn [Py.iter res_bind Py.enumerate Py.enumerate_from flat_mapM].
      rewrite Hitems. reflexivity.
  - intros Hty name sub_schema declared Hprops. split.
    + rewrite walk_S, iter_object_properties_S, Hty. cbn [res_bind].
      replace (Py.eq (JStr "object") (JStr "object")) with true by reflexivity.
      rewrite Hprops. reflexivity.
    + rewrite walk_S, iter_object_properties_S, Hty. cbn [res_bind].
      replace (Py.eq (JStr "object") (JStr "object")) with true by reflexivity.
      rewrite Hprops. cbn [res_bind Py.iter]. unfold Py.dict_keys.
      rewrite flat_mapM_map.
      apply flat_mapM_nil. intros x. reflexivity.
Qed.

Lemma walker_errors_and_edges_witness :
  (Py.dict_get "type" [("properties", JObj [])] = None /\
   walk [] (JObj [("properties", JObj [])]) JNull = Raise KeyError) /\
  ((forall fields, JStr "sample" <> JObj fields) /\
   walk [] (JStr "sample") JNull = Raise TypeError) /\
  (Py.getitem (JObj [("type", JStr "array")]) (JStr "type") = Ok (JStr "array") /\
   Py.getitem (JObj [("type", JStr "array")]) (JStr "items") = Raise KeyError /\
   walk [] (JObj [("type", JStr "array")]) (JArr []) = Ok [] /\
   walk [] (JObj [("type", JStr "array")]) (JArr [JNull]) = Raise KeyError) /\
  (Py.getitem example_schema (JStr "type") = Ok (JStr "object") /\
   Py.getitem example_schema (JStr "properties") =
     Ok (JObj [("a", sample_schema)]) /\
   walk [] example_schema JNull = Raise TypeError /\
   walk [] example_schema (JObj []) = Ok []).
Proof.
  split; [|split; [|split]].
  - split; [reflexivity|].
    exact (proj1 (walker_errors_and_edges [] (JObj [("properties", JObj [])]) JNull)
             _ eq_refl eq_refl).
  - assert (Hno : forall fields, JStr "sample" <> JObj fields) by discriminate.
    split; [exact Hno|].
    exact (proj1 (proj2 (walker_errors_and_edges [] (JStr "sample") JNull)) Hno).
  - destruct (proj1 (proj2 (proj2
      (walker_errors_and_edges [] (JObj [("type", JStr "array")]) JNull))) eq_refl)
      as [Hempty Hitems].
    split; [reflexivity|]. split; [reflexivity|]. split; [exact Hempty|].
    exact (Hitems eq_refl JNull []).
  - destruct (proj2 (proj2 (proj2
      (walker_errors_and_edges [] example_schema JNull))) eq_refl
      "a" sample_schema [] eq_refl) as [Hnull Hempty].
    split; [reflexivity|]. split; [reflexivity|]. split; assumption.
Defined.

(** ** The store: versions are immutable *)

Lemma find_app_found {A : Type} (f : A -> bool) (l more : list A) (x : A) :
  List.find f l = Some x -> List.find f (l ++ more) = Some x.
Proof.
  induction l as [|a l IH]; simpl; [discriminate|].
  destruct (f a); [auto|exact IH].
Qed.

Lemma get_object_version_grows (s s' : State) (more : list Object)
    (object_id version_id : Z) (o : Object) :
  objects_table s' = objects_table s ++ more ->
  get_object object_id (Some version_id) s = (Ok o, s) ->
  get_object object_id (Some version_id) s' = (Ok o, s').
Proof.
  intros Htable. unfold get_object, bind, Objects.get_object_version,
    Objects.get_current_object, gets, raise, ret.
  rewrite Htable, rows_of_app.
  destruct (List.find _ (Objects.rows_of object_id (objects_table s)))
    as [found|] eqn:Hfind.
  - intros H. injection H as ->.
    rewrite (find_app_found _ _ _ _ Hfind). reflexivity.
  - destruct (Objects.newest _); discriminate.
Qed.

Lemma create_object_table (action_id : Z) (data : json) (user_id : Z)
    (s : State) :
  exists more,
    objects_table (snd (create_object action_id data user_id s)) =
    objects_table s ++ more.
Proof.
  rewrite create_object_eq.
  destruct (action_table s !! action_id) as [action|];
    [|exists []; symmetry; apply app_nil_r].
  destruct (decide (user_id ∈ user_table s));
    [|exists []; symmetry; apply app_nil_r].
  cbv zeta.
  match goal with
  | |- context [_update_object_references ?o ?u ?s1] =>
      destruct (same_store_tracker o u s1) as [Ht _];
      destruct (_update_object_references o u s1) as [r s2]
  end.
  simpl in Ht. eexists. destruct r as [[]| |]; simpl; exact Ht.
Qed.

Lemma update_object_table (object_id : Z) (data : json) (user_id : Z)
    (s : State) :
  exists more,
    objects_table (snd (update_object object_id data user_id s)) =
    objects_table s ++ more.
Proof.
  rewrite update_object_eq.
  destruct (Objects.newest _) as [current|];
    [|exists []; symmetry; apply app_nil_r].
  destruct (action_table s !! Object.action_id current) as [action|];
    [|exists []; symmetry; apply app_nil_r].
  cbv zeta.
  match goal with
  | |- context [_update_object_references ?o ?u ?s1] =>
      destruct (same_store_tracker o u s1) as [Ht _]
  end.
  simpl in Ht. eexists. exact Ht.
Qed.

Lemma restore_object_version_table (object_id version_id user_id : Z)
    (s : State) :
  exists more,
    objects_table (snd (restore_object_version object_id version_id user_id s)) =
    objects_table s ++ more.
Proof.
  rewrite restore_object_version_eq.
  destruct (get_object object_id (Some version_id) s) as [[source| |] s1];
    try (exists []; symmetry; apply app_nil_r).
  destruct (Objects.newest _) as [current|];
    [|exists []; symmetry; apply app_nil_r].
  eexists. reflexivity.
Qed.

(** X4. Versions are immutable: a version that [get_object] returns is
    returned unchanged after any call of [create_object], [update_object]
    or [restore_object_version], for any object and with any outcome of the
    call. *)
Theorem versions_are_immutable (s : State) (object_id version_id : Z)
    (o : Object) :
  get_object object_id (Some version_id) s = (Ok o, s) ->
  (forall action_id data user_id,
      fst (get_object object_id (Some version_id)
             (snd (create_object action_id data user_id s))) = Ok o) /\
  (forall updated data user_id,
      fst (get_object object_id (Some version_id)
             (snd (update_object updated data user_id s))) = Ok o) /\
  (forall restored restored_version user_id,
      fst (get_object object_id (Some version_id)
             (snd (restore_object_version restored restored_version user_id s))) =
      Ok o).
Proof.
  intros Hget. split; [|split].
  - intros action_id data user_id.
    destruct (create_object_table action_id data user_id s) as [more Ht].
    rewrite (get_object_version_grows _ _ _ _ _ _ Ht Hget). reflexivity.
  - intros updated data user_id.
    destruct (update_object_table updated data user_id s) as [more Ht].
    rewrite (get_object_version_grows _ _ _ _ _ _ Ht Hget). reflexivity.
  - intros restored restored_version user_id.
    destruct (restore_object_version_table restored restored_version user_id s)
      as [more Ht].
    rewrite (get_object_version_grows _ _ _ _ _ _ Ht Hget). reflexivity.
Qed.

Lemma versions_are_immutable_witness :
  get_object 1 (Some 0) scenario_created = (Ok scenario_version_0, scenario_created) /\
  fst (get_object 1 (Some 0)
         (snd (update_object 1 (example_data (JNum 7)) 1 scenario_created))) =
  Ok scenario_version_0.
Proof.
  assert (Hget : get_object 1 (Some 0) scenario_created =
                 (Ok scenario_version_0, scenario_created))
    by (vm_compute; reflexivity).
  split; [exact Hget|].
  exact (proj1 (proj2 (versions_are_immutable _ _ _ _ Hget))
           1 (example_data (JNum 7)) 1).
Defined.

(** ** [restore_object_version]: errors *)

Lemma get_object_missing_object (s : State) (object_id : Z)
    (version_id : option Z) :
  ~ object_exists s object_id ->
  get_object object_id version_id s = (Raise ObjectDoesNotExistError, s).
Proof.
  intros Hno.
  assert (Hnil : Objects.rows_of object_id (objects_table s) = []).
  { apply rows_of_nil. intros o Hin Hid. apply Hno. exists o. auto. }
  unfold get_object, bind, Objects.get_object_version,
    Objects.get_current_object, gets, raise.
  destruct version_id; rewrite Hnil; cbn; rewrite ?Hnil; reflexivity.
Qed.

Lemma get_object_missing_version (s : State) (object_id version_id : Z) :
  object_exists s object_id -> ~ version_exists s object_id version_id ->
  get_object object_id (Some version_id) s =
  (Raise ObjectVersionDoesNotExistError, s).
Proof.
  intros Hex Hnov. unfold get_object, bind, Objects.get_object_version,
    Objects.get_current_object, gets, raise.
  destruct (List.find _ _) as [o|] eqn:Ef.
  - exfalso. apply Hnov. apply List.find_some in Ef as [Hin Hv].
    apply rows_of_In in Hin as [Hin Hid]. apply Z.eqb_eq in Hv.
    exists o. auto.
  - destruct (newest_exists s object_id Hex) as [m ->]. reflexivity.
Qed.

(** X5. [restore_object_version] raises [ObjectDoesNotExistError] when no
    object with the id exists and [ObjectVersionDoesNotExistError] when the
    object exists without that version; in both cases nothing is written
    and nothing is logged: the state is left as it was. *)
Theorem restore_object_version_errors (s : State)
    (object_id version_id user_id : Z) :
  (~ object_exists s object_id ->
   restore_object_version object_id version_id user_id s =
   (Raise ObjectDoesNotExistError, s)) /\
  (object_exists s object_id -> ~ version_exists s object_id version_id ->
   restore_object_version object_id version_id user_id s =
   (Raise ObjectVersionDoesNotExistError, s)).
Proof.
  split.
  - intros Hno. rewrite restore_object_version_eq.
    rewrite (get_object_missing_object _ _ _ Hno). reflexivity.
  - intros Hex Hnov. rewrite restore_object_version_eq.
    rewrite (get_object_missing_version _ _ _ Hex Hnov). reflexivity.
Qed.

Lemma scenario_updated_no_object_9 : ~ object_exists scenario_updated 9.
Proof.
  intros [o [Hin Hid]]. rewrite scenario_updated_table in Hin.
  destruct Hin as [<-|[<-|[]]]; discriminate Hid.
Defined.

Lemma scenario_updated_object_1 : object_exists scenario_updated 1.
Proof.
  exists scenario_version_0. rewrite scenario_updated_table.
  split; [left; reflexivity|reflexivity].
Defined.

Lemma scenario_updated_no_version_5 : ~ version_exists scenario_updated 1 5.
Proof.
  intros [o [Hin [Hid Hv]]]. rewrite scenario_updated_table in Hin.
  destruct Hin as [<-|[<-|[]]]; discriminate Hv.
Defined.

Lemma restore_object_version_errors_witness :
  (~ object_exists scenario_updated 9 /\
   restore_object_version 9 0 1 scenario_updated =
   (Raise ObjectDoesNotExistError, scenario_updated)) /\
  (object_exists scenario_updated 1 /\ ~ version_exists scenario_updated 1 5 /\
   restore_object_version 1 5 1 scenario_updated =
   (Raise ObjectVersionDoesNotExistError, scenario_updated)).
Proof.
  split.
  - split; [exact scenario_updated_no_object_9|].
    exact (proj1 (restore_object_version_errors scenario_updated 9 0 1)
             scenario_updated_no_object_9).
  - split; [exact scenario_updated_object_1|].
    split; [exact scenario_updated_no_version_5|].
    exact (proj2 (restore_object_version_errors scenario_updated 1 5 1)
             scenario_updated_object_1 scenario_updated_no_version_5).
Defined.

(** ** The tracker returns or raises *)

Lemma walk_path_fuel (previous_data : json) (path : list json) :
  walk_path previous_data path <> OutOfFuel.
Proof.
  revert previous_data. induction path as [|k rest IH]; intros d; simpl;
    [discriminate|].
  pose proof (getitem_fuel d k) as Hk.
  destruct (Py.getitem d k); cbn [res_bind];
    [apply IH|discriminate|congruence].
Qed.

Lemma previous_reference_in_fuel (previous_data : json) (path : list json) :
  previous_reference_in previous_data path <> OutOfFuel.
Proof.
  unfold previous_reference_in.
  pose proof (walk_path_fuel previous_data path) as Hw.
  destruct (walk_path previous_data path) as [leaf|e|]; try congruence.
  - destruct (negb (Py.is_none leaf)); [|discriminate].
    pose proof (getitem_fuel leaf (JStr "object_id")) as Hg.
    destruct (Py.getitem leaf (JStr "object_id")) as [found| |];
      cbn [res_bind]; try congruence.
    destruct (negb (Py.is_none found)); discriminate.
  - destruct e; discriminate.
Qed.

Lemma is_sample_reference_fuel (schema data : json) :
  is_sample_reference schema data <> OutOfFuel.
Proof.
  unfold is_sample_reference.
  pose proof (getitem_fuel schema (JStr "type")) as Hty.
  destruct (Py.getitem schema (JStr "type")) as [ty| |];
    cbn [res_bind]; try congruence.
  destruct (Py.eq ty (JStr "sample")); [|discriminate].
  destruct (negb (Py.is_none data)); [|discriminate].
  pose proof (getitem_fuel data (JStr "object_id")) as Hd.
  destruct (Py.getitem data (JStr "object_id")); cbn [res_bind];
    congruence.
Qed.

Lemma get_object_fuel (object_id : Z) (version_id : option Z) (s : State) :
  fst (get_object object_id version_id s) <> OutOfFuel.
Proof.
  unfold get_object, bind, Objects.get_current_object,
    Objects.get_object_version, gets, raise, ret.
  destruct version_id as [v|]; simpl.
  - destruct (List.find _ _); [discriminate|]. simpl.
    destruct (Objects.newest _); discriminate.
  - destruct (Objects.newest _); discriminate.
Qed.

Lemma update_reference_fuel (object : Object) (user_id : Z)
    (action_type : ActionType) (p : property) (s : State) :
  fst (update_reference object user_id action_type p s) <> OutOfFuel.
Proof.
  destruct p as [[path schema] data].
  unfold update_reference, bind, lift, ret.
  pose proof (is_sample_reference_fuel schema data) as Hguard.
  destruct (is_sample_reference schema data) as [[|]| |]; simpl;
    try congruence; try discriminate.
  pose proof (getitem_fuel data (JStr "object_id")) as Hd.
  destruct (Py.getitem data (JStr "object_id")) as [referenced| |];
    simpl; try congruence; try discriminate.
  assert (Hemit : forall previous s0,
    fst ((if Py.ne referenced previous
          then if ActionType_eqb action_type MEASUREMENT
               then object_log.use_object_in_measurement referenced user_id
                      (Object.object_id object)
               else fun s1 => (Ok tt, s1)
          else fun s1 => (Ok tt, s1)) s0) <> OutOfFuel).
  { intros previous s0. destruct (Py.ne referenced previous); [|discriminate].
    destruct (ActionType_eqb action_type MEASUREMENT); discriminate. }
  destruct (Object.version_id object >? 0); [|apply Hemit].
  pose proof (get_object_fuel (Object.object_id object)
                (Some (Object.version_id object - 1)) s) as Hget.
  destruct (get_object _ _ s) as [[previous_version| |] s1];
    simpl in Hget |- *; try congruence; try discriminate.
  pose proof (previous_reference_in_fuel (Object.data previous_version) path)
    as Hprev.
  destruct (previous_reference_in _ _) as [previous| |]; simpl;
    try congruence; try discriminate.
  apply Hemit.
Qed.

Lemma update_object_references_fuel (object : Object) (user_id : Z)
    (s : State) :
  fst (_update_object_references object user_id s) <> OutOfFuel.
Proof.
  unfold _update_object_references, bind, actions.get_action, lift.
  destruct (action_table s !! Object.action_id object) as [action|];
    [|discriminate].
  pose proof (walk_total [] (Object.schema object) (Object.data object))
    as Hwalk.
  unfold _get_object_properties.
  destruct (walk [] (Object.schema object) (Object.data object))
    as [properties| |]; simpl; try congruence; try discriminate.
  clear Hwalk. revert s.
  induction properties as [|p rest IH]; intros s; simpl; [discriminate|].
  unfold bind.
  pose proof (update_reference_fuel object user_id (Action.type action) p s)
    as Hp.
  destruct (update_reference object user_id (Action.type action) p s)
    as [[[]| |] s1]; simpl in Hp |- *; [apply IH|discriminate|congruence].
Qed.

(** ** [create_object]: what is written, and when *)

(** X6. When the action and the user exist, [create_object] persists
    version 0 of the new object, appends one create entry to the user log
    and one to the object log, the latter followed only by
    "used in measurement" entries of the tracker, and this whatever the
    tracker does.  The initial permissions are set exactly when
    [create_object] returns, which it does exactly when the tracker, run on
    the new version once it is persisted and logged, returns: if the
    tracker raises, its exception propagates and the object stays persisted
    and logged without initial permissions. *)
Theorem create_object_effects (s : State) (action_id : Z) (data : json)
    (user_id : Z) (action : Action) :
  action_table s !! action_id = Some action ->
  user_id ∈ user_table s ->
  let object := new_object s action_id data (Action.schema action) user_id in
  let result := create_object action_id data user_id s in
  let tracker :=
    _update_object_references object user_id
      (add_user_log (UL_CREATE_OBJECT user_id (Object.object_id object))
         (add_object_log (OL_CREATE_OBJECT (Object.object_id object) user_id)
            (set_objects (objects_table s ++ [object]) (next_object_id s + 1) s))) in
  objects_table (snd result) = objects_table s ++ [object] /\
  next_object_id (snd result) = next_object_id s + 1 /\
  user_log_entries (snd result) =
    user_log_entries s ++ [UL_CREATE_OBJECT user_id (Object.object_id object)] /\
  (exists uses,
      object_log_entries (snd result) =
        object_log_entries s ++
        OL_CREATE_OBJECT (Object.object_id object) user_id :: uses /\
      Forall (is_use_in_measurement user_id (Object.object_id object)) uses) /\
  (fst tracker = Ok tt /\ fst result = Ok object /\
   initial_permissions (snd result) =
     initial_permissions s ++ [Object.object_id object] \/
   (exists e, fst tracker = Raise e /\ fst result = Raise e) /\
   initial_permissions (snd result) = initial_permissions s).
Proof.
  intros Haction Huser object result tracker. subst result tracker.
  rewrite create_object_eq, Haction.
  destruct (decide (user_id ∈ user_table s)); [|contradiction].
  cbv zeta. fold object.
  match goal with
  | |- context [_update_object_references object user_id ?s1] =>
      set (before := s1)
  end.
  destruct (update_object_references_frame object user_id before)
    as [uses [Hstate Huses]].
  pose proof (update_object_references_fuel object user_id before) as Hfuel.
  destruct (_update_object_references object user_id before) as [r after].
  cbn [fst snd] in Hstate, Hfuel. subst after.
  assert (Hlog : object_log_entries (with_object_log uses before) =
                 object_log_entries s ++
                 OL_CREATE_OBJECT (Object.object_id object) user_id :: uses).
  { cbn. rewrite <- app_assoc. reflexivity. }
  destruct r as [[]|raised|]; cbn [fst snd]; [| |congruence].
  - repeat split; try reflexivity.
    + exists uses. split; [exact Hlog|exact Huses].
    + left. repeat split; reflexivity.
  - repeat split; try reflexivity.
    + exists uses. split; [exact Hlog|exact Huses].
    + right. split; [exists raised; split|]; reflexivity.
Qed.

Lemma create_object_effects_witness :
  action_table scenario_initial !! 1 = Some measurement_action /\
  1 ∈ user_table scenario_initial /\
  (let object :=
     new_object scenario_initial 1 (JObj [("a", JObj [])])
       (Action.schema measurement_action) 1 in
   let result := create_object 1 (JObj [("a", JObj [])]) 1 scenario_initial in
   let tracker :=
     _update_object_references object 1
       (add_user_log (UL_CREATE_OBJECT 1 (Object.object_id object))
          (add_object_log (OL_CREATE_OBJECT (Object.object_id object) 1)
             (set_objects (objects_table scenario_initial ++ [object])
                (next_object_id scenario_initial + 1) scenario_initial))) in
   objects_table (snd result) = objects_table scenario_initial ++ [object] /\
   next_object_id (snd result) = next_object_id scenario_initial + 1 /\
   user_log_entries (snd result) =
     user_log_entries scenario_initial ++
     [UL_CREATE_OBJECT 1 (Object.object_id object)] /\
   (exists uses,
       object_log_entries (snd result) =
         object_log_entries scenario_initial ++
         OL_CREATE_OBJECT (Object.object_id object) 1 :: uses /\
       Forall (is_use_in_measurement 1 (Object.object_id object)) uses) /\
   (fst tracker = Ok tt /\ fst result = Ok object /\
    initial_permissions (snd result) =
      initial_permissions scenario_initial ++ [Object.object_id object] \/
    (exists e, fst tracker = Raise e /\ fst result = Raise e) /\
    initial_permissions (snd result) = initial_permissions scenario_initial)) /\
  fst (create_object 1 (JObj [("a", JObj [])]) 1 scenario_initial) =
    Raise KeyError /\
  fst (create_object 1 (example_data (JNum 5)) 1 scenario_initial) =
    Ok scenario_version_0.
Proof.
  assert (Haction : action_table scenario_initial !! 1 = Some measurement_action)
    by reflexivity.
  assert (Huser : 1 ∈ user_table scenario_initial)
    by (unfold scenario_initial; cbn [user_table]; set_solver).
  split; [exact Haction|]. split; [exact Huser|]. split.
  - exact (create_object_effects scenario_initial 1 (JObj [("a", JObj [])]) 1
             measurement_action Haction Huser).
  - split; vm_compute; reflexivity.
Defined.

(** ** [update_object]: what is written *)

Lemma get_object_current_newest (s s1 : State) (object_id : Z)
    (current : Object) :
  get_object object_id None s = (Ok current, s1) ->
  Objects.newest (Objects.rows_of object_id (objects_table s)) = Some current.
Proof.
  unfold get_object, bind, Objects.get_current_object, gets, raise, ret.
  destruct (Objects.newest _) as [top|]; [|discriminate].
  intros H. injection H as -> _. reflexivity.
Qed.

(** X7. For an object whose current version is [current] and whose action
    exists, [update_object] appends one edit entry with the new version id
    to the user log and one to the object log, the latter followed only by
    "used in measurement" entries of the tracker; it never touches the
    permissions, the users or the actions; and its outcome is that of the
    tracker, run on the new version once it is persisted and logged: it
    returns, or raises what the tracker raises, the version and the edit
    entries being written in both cases. *)
Theorem update_object_effects (s : State) (object_id : Z) (data : json)
    (user_id : Z) (current : Object) (action : Action) :
  get_object object_id None s = (Ok current, s) ->
  action_table s !! Object.action_id current = Some action ->
  let version := Object.version_id current + 1 in
  let object :=
    Object.make object_id version (Object.action_id current) data
      (Action.schema action) user_id in
  let result := update_object object_id data user_id s in
  objects_table (snd result) = objects_table s ++ [object] /\
  user_log_entries (snd result) =
    user_log_entries s ++ [UL_EDIT_OBJECT user_id object_id version] /\
  (exists uses,
      object_log_entries (snd result) =
        object_log_entries s ++ OL_EDIT_OBJECT object_id user_id version :: uses /\
      Forall (is_use_in_measurement user_id object_id) uses) /\
  initial_permissions (snd result) = initial_permissions s /\
  user_table (snd result) = user_table s /\
  action_table (snd result) = action_table s /\
  result =
    _update_object_references object user_id
      (add_object_log (OL_EDIT_OBJECT object_id user_id version)
         (add_user_log (UL_EDIT_OBJECT user_id object_id version)
            (persist object s))) /\
  (fst result = Ok tt \/ exists e, fst result = Raise e).
Proof.
  intros Hget Haction version new result. subst result.
  apply get_object_current_newest in Hget as Hnew.
  assert (Hid : Object.object_id current = object_id).
  { apply newest_Some in Hnew as [Hin _]. apply rows_of_In in Hin. tauto. }
  rewrite update_object_eq, Hnew, Haction. cbv zeta.
  assert (Hobject :
    next_version current data (Action.schema action) user_id = new).
  { unfold new, next_version, version. rewrite Hid. reflexivity. }
  rewrite Hobject.
  replace (Object.version_id new) with version by reflexivity.
  set (before :=
    add_object_log (OL_EDIT_OBJECT object_id user_id version)
      (add_user_log (UL_EDIT_OBJECT user_id object_id version)
         (persist new s))).
  destruct (update_object_references_frame new user_id before)
    as [uses [Hstate Huses]].
  pose proof (update_object_references_fuel new user_id before) as Hfuel.
  destruct (_update_object_references new user_id before) as [r after].
  cbn [fst snd] in Hstate, Hfuel |- *. subst after.
  split; [cbn; reflexivity|].
  split; [cbn; reflexivity|].
  split.
  { exists uses. split.
    - cbn. rewrite <- app_assoc. reflexivity.
    - exact Huses. }
  repeat split.
  destruct r as [[]|raised|]; [left; reflexivity|right; eauto|congruence].
Qed.

Lemma update_object_effects_witness :
  get_object 1 None scenario_created = (Ok scenario_version_0, scenario_created) /\
  action_table scenario_created !! Object.action_id scenario_version_0 =
    Some measurement_action /\
  (let version := Object.version_id scenario_version_0 + 1 in
   let object :=
     Object.make 1 version (Object.action_id scenario_version_0)
       (example_data (JNum 7)) (Action.schema measurement_action) 1 in
   let result := update_object 1 (example_data (JNum 7)) 1 scenario_created in
   objects_table (snd result) = objects_table scenario_created ++ [object] /\
   user_log_entries (snd result) =
     user_log_entries scenario_created ++ [UL_EDIT_OBJECT 1 1 version] /\
   (exists uses,
       object_log_entries (snd result) =
         object_log_entries scenario_created ++
         OL_EDIT_OBJECT 1 1 version :: uses /\
       Forall (is_use_in_measurement 1 1) uses) /\
   initial_permissions (snd result) = initial_permissions scenario_created /\
   user_table (snd result) = user_table scenario_created /\
   action_table (snd result) = action_table scenario_created /\
   result =
     _update_object_references object 1
       (add_object_log (OL_EDIT_OBJECT 1 1 version)
          (add_user_log (UL_EDIT_OBJECT 1 1 version)
             (persist object scenario_created))) /\
   (fst result = Ok tt \/ exists e, fst result = Raise e)).
Proof.
  assert (Hget : get_object 1 None scenario_created =
                 (Ok scenario_version_0, scenario_created))
    by (vm_compute; reflexivity).
  assert (Haction :
    action_table scenario_created !! Object.action_id scenario_version_0 =
    Some measurement_action) by (vm_compute; reflexivity).
  split; [exact Hget|]. split; [exact Haction|].
  exact (update_object_effects scenario_created 1 (example_data (JNum 7)) 1
           scenario_version_0 measurement_action Hget Haction).
Defined.

(** ** Reading back what was written *)

Lemma create_object_table_eq (s : State) (action_id : Z) (data : json)
    (user_id : Z) (action : Action) :
  action_table s !! action_id = Some action ->
  user_id ∈ user_table s ->
  objects_table (snd (create_object action_id data user_id s)) =
  objects_table s ++
  [new_object s action_id data (Action.schema action) user_id].
Proof.
  intros Haction Huser. rewrite create_object_eq, Haction.
  destruct (decide (user_id ∈ user_table s)); [|contradiction].
  cbv zeta.
  match goal with
  | |- context [_update_object_references ?o ?u ?s1] =>
      destruct (same_store_tracker o u s1) as [Ht _];
      destruct (_update_object_references o u s1) as [r s2]
  end.
  simpl in Ht. destruct r as [[]| |]; simpl; exact Ht.
Qed.

(** X8. In a reachable store, when the action and the user exist,
    [create_object] gives the new object an id that no object has; reading
    that id back returns version 0 with the data passed and the schema of
    the action, as the current version, as version 0 and as the whole
    version history, and this is the object [create_object] returns when it
    returns. *)
Theorem create_object_then_get_object (s : State) (action_id : Z)
    (data : json) (user_id : Z) (action : Action) :
  reachable s ->
  action_table s !! action_id = Some action ->
  user_id ∈ user_table s ->
  let object := Object.make (next_object_id s) 0 action_id data
                  (Action.schema action) user_id in
  let s' := snd (create_object action_id data user_id s) in
  ~ object_exists s (next_object_id s) /\
  get_object (next_object_id s) None s' = (Ok object, s') /\
  get_object (next_object_id s) (Some 0) s' = (Ok object, s') /\
  get_object_versions (next_object_id s) s' = (Ok [object], s') /\
  (forall created,
      fst (create_object action_id data user_id s) = Ok created ->
      created = object).
Proof.
  intros Hreach Haction Huser object s'.
  apply reachable_store_ok in Hreach as [_ Hfresh _].
  assert (Hnone : Objects.rows_of (next_object_id s) (objects_table s) = []).
  { apply rows_of_nil. intros o Ho. specialize (Hfresh o Ho). lia. }
  assert (Hrows : Objects.rows_of (next_object_id s) (objects_table s') = [object]).
  { unfold s'. rewrite (create_object_table_eq _ _ _ _ _ Haction Huser).
    rewrite rows_of_app, Hnone, rows_of_single. cbn.
    rewrite Z.eqb_refl. reflexivity. }
  split; [|split; [|split; [|split]]].
  - intros [o [Hin Hid]]. specialize (Hfresh o Hin). lia.
  - unfold get_object, bind, Objects.get_current_object, gets, ret.
    rewrite Hrows. reflexivity.
  - unfold get_object, bind, Objects.get_object_version, gets, ret.
    rewrite Hrows. reflexivity.
  - unfold get_object_versions, bind, Objects.get_object_versions, gets, ret.
    rewrite Hrows. reflexivity.
  - intros created. rewrite create_object_eq, Haction.
    destruct (decide (user_id ∈ user_table s)); [|contradiction].
    cbv zeta. destruct (_update_object_references _ _ _) as [[[]| |] s2];
      cbn [fst]; try discriminate.
    intros H. injection H as <-. reflexivity.
Qed.

Lemma scenario_initial_reachable : reachable scenario_initial.
Proof. apply reachable_initial. Defined.

Lemma create_object_then_get_object_witness :
  reachable scenario_initial /\
  action_table scenario_initial !! 1 = Some measurement_action /\
  1 ∈ user_table scenario_initial /\
  (let object := Object.make (next_object_id scenario_initial) 0 1
                   (example_data (JNum 5)) (Action.schema measurement_action) 1 in
   let s' := snd (create_object 1 (example_data (JNum 5)) 1 scenario_initial) in
   ~ object_exists scenario_initial (next_object_id scenario_initial) /\
   get_object (next_object_id scenario_initial) None s' = (Ok object, s') /\
   get_object (next_object_id scenario_initial) (Some 0) s' = (Ok object, s') /\
   get_object_versions (next_object_id scenario_initial) s' = (Ok [object], s') /\
   (forall created,
       fst (create_object 1 (example_data (JNum 5)) 1 scenario_initial) =
         Ok created ->
       created = object)).
Proof.
  assert (Haction : action_table scenario_initial !! 1 = Some measurement_action)
    by reflexivity.
  assert (Huser : 1 ∈ user_table scenario_initial)
    by (unfold scenario_initial; cbn [user_table]; set_solver).
  split; [exact scenario_initial_reachable|].
  split; [exact Haction|]. split; [exact Huser|].
  exact (create_object_then_get_object scenario_initial 1 (example_data (JNum 5))
           1 measurement_action scenario_initial_reachable Haction Huser).
Defined.

(** X9. In a reachable store, [update_object] on an object with the version
    history [versions] makes the history [versions] followed by one new
    version, numbered by the length of [versions] and holding the data
    passed; the version history of every other object is what it was. *)
Theorem update_object_extends_history (s : State) (object_id : Z)
    (data : json) (user_id : Z) (versions : list Object) :
  reachable s ->
  get_object_versions object_id s = (Ok versions, s) ->
  let s' := snd (update_object object_id data user_id s) in
  (exists new,
      get_object_versions object_id s' = (Ok (versions ++ [new]), s') /\
      Object.version_id new = Z.of_nat (length versions) /\
      Object.data new = data /\ Object.user_id new = user_id) /\
  (forall other, other <> object_id ->
      fst (get_object_versions other s') = fst (get_object_versions other s)).
Proof.
  intros Hreach Hversions s'.
  assert (Hok' : store_ok s').
  { apply reachable_store_ok. apply reachable_update. exact Hreach. }
  apply reachable_store_ok in Hreach as Hok.
  destruct Hok as [Hgapless _ Hactions].
  assert (Hsorted : forall oid state, store_ok state ->
    Objects.order_by_version (Objects.rows_of oid (objects_table state)) =
    Objects.rows_of oid (objects_table state)).
  { intros oid state [Hg _ _]. eapply order_by_version_gapless. apply Hg. }
  assert (Hrows : Objects.rows_of object_id (objects_table s) = versions /\
                  versions <> []).
  { revert Hversions.
    unfold get_object_versions, bind, Objects.get_object_versions, gets,
      raise, ret.
    rewrite (Hsorted object_id s (reachable_store_ok s Hreach)).
    destruct (Objects.rows_of object_id (objects_table s)); [discriminate|].
    intros H. injection H as <-. split; [reflexivity|discriminate]. }
  destruct Hrows as [Hrows Hne].
  destruct (Objects.newest (Objects.rows_of object_id (objects_table s)))
    as [current|] eqn:Hnew;
    [|apply newest_None in Hnew; rewrite Hrows in Hnew; contradiction].
  pose proof (gapless_newest _ _ (Hgapless object_id) Hnew) as Hcurrent.
  rewrite Hrows in Hcurrent.
  assert (Hin : In current (objects_table s) /\
                Object.object_id current = object_id).
  { apply newest_Some in Hnew as [Hin _]. apply rows_of_In in Hin. exact Hin. }
  destruct Hin as [Hin Hid].
  destruct (Hactions current Hin) as [action Haction].
  set (new := next_version current data (Action.schema action) user_id).
  assert (Htable : objects_table s' = objects_table s ++ [new]).
  { unfold s'. rewrite update_object_eq, Hnew, Haction. cbv zeta.
    match goal with
    | |- context [_update_object_references ?o ?u ?s1] =>
        destruct (same_store_tracker o u s1) as [Ht _]
    end.
    exact Ht. }
  split.
  - exists new.
    unfold get_object_versions, bind, Objects.get_object_versions, gets,
      raise, ret.
    rewrite (Hsorted object_id s' Hok'), Htable, rows_of_app, Hrows,
      rows_of_single.
    cbn [new next_version Object.object_id]. rewrite Hid, Z.eqb_refl.
    destruct versions as [|v rest]; [contradiction|].
    cbn [app]. repeat split.
    unfold new, next_version. cbn [Object.version_id]. lia.
  - intros other Hother.
    unfold get_object_versions, bind, Objects.get_object_versions, gets,
      raise, ret.
    rewrite Htable, rows_of_app, rows_of_single.
    cbn [new next_version Object.object_id]. rewrite Hid.
    replace (object_id =? other) with false
      by (symmetry; apply Z.eqb_neq; congruence).
    rewrite app_nil_r.
    destruct (Objects.order_by_version _); reflexivity.
Qed.

Lemma update_object_extends_history_witness :
  reachable scenario_updated /\
  get_object_versions 1 scenario_updated =
    (Ok [scenario_version_0; scenario_version_1 (JNum 7)], scenario_updated) /\
  (let s' := snd (update_object 1 (example_data JNull) 1 scenario_updated) in
   (exists new,
       get_object_versions 1 s' =
         (Ok ([scenario_version_0; scenario_version_1 (JNum 7)] ++ [new]), s') /\
       Object.version_id new =
         Z.of_nat (length [scenario_version_0; scenario_version_1 (JNum 7)]) /\
       Object.data new = example_data JNull /\ Object.user_id new = 1) /\
   (forall other, other <> 1 ->
       fst (get_object_versions other s') =
       fst (get_object_versions other scenario_updated))).
Proof.
  assert (Hversions :
    get_object_versions 1 scenario_updated =
    (Ok [scenario_version_0; scenario_version_1 (JNum 7)], scenario_updated))
    by (vm_compute; reflexivity).
  split; [exact scenario_updated_reachable|]. split; [exact Hversions|].
  exact (update_object_extends_history scenario_updated 1 (example_data JNull) 1
           _ scenario_updated_reachable Hversions).
Defined.

(** ** The reference tracker: what it leaves alone *)

(** X10. Whether it returns or raises, [_update_object_references] only
    appends "used in measurement" entries to the object log, each naming the
    acting user and the referencing object: the object table, the actions,
    the users, the user log and the permissions are left as they are. *)
Theorem reference_tracker_frame (object : Object) (user_id : Z) (s : State) :
  exists entries,
    snd (_update_object_references object user_id s) =
      mkState (objects_table s) (next_object_id s) (action_table s)
        (user_table s) (object_log_entries s ++ entries) (user_log_entries s)
        (initial_permissions s) /\
    Forall (fun e =>
      exists referenced,
        e = OL_USE_OBJECT_IN_MEASUREMENT referenced user_id
              (Object.object_id object)) entries /\
    (fst (_update_object_references object user_id s) = Ok tt \/
     exists e, fst (_update_object_references object user_id s) = Raise e).
Proof.
  destruct (update_object_references_frame object user_id s)
    as [entries [Hstate Hentries]].
  exists entries. split; [exact Hstate|]. split; [exact Hentries|].
  pose proof (update_object_references_fuel object user_id s) as Hfuel.
  destruct (fst (_update_object_references object user_id s)) as [[]|e|];
    [left; reflexivity|right; eauto|congruence].
Qed.

Lemma update_reference_not_measurement (object : Object) (user_id : Z)
    (action_type : ActionType) (p : property) (s : State) :
  ActionType_eqb action_type MEASUREMENT = false ->
  snd (update_reference object user_id action_type p s) = s.
Proof.
  intros Hother. destruct p as [[path schema] data].
  unfold update_reference, bind, lift, ret. rewrite Hother.
  destruct (is_sample_reference schema data) as [[|]| |]; simpl; try reflexivity.
  destruct (Py.getitem data (JStr "object_id")) as [referenced| |];
    simpl; try reflexivity.
  destruct (Object.version_id object >? 0).
  - pose proof (get_object_reads (Object.object_id object)
                  (Some (Object.version_id object - 1)) s) as Hreads.
    destruct (get_object _ _ s) as [[previous_version| |] s1];
      simpl in Hreads; subst s1; simpl; try reflexivity.
    destruct (previous_reference_in _ _) as [previous| |]; simpl;
      try reflexivity.
    destruct (Py.ne referenced previous); reflexivity.
  - simpl. destruct (Py.ne referenced JNull); reflexivity.
Qed.

(** X11. For an object whose action is not a measurement,
    [_update_object_references] changes nothing at all, whatever the data
    and whether it returns or raises: no entry is written for any
    referenced sample. *)
Theorem reference_tracker_only_for_measurements (object : Object)
    (user_id : Z) (s : State) (action : Action) :
  action_table s !! Object.action_id object = Some action ->
  Action.type action <> MEASUREMENT ->
  snd (_update_object_references object user_id s) = s.
Proof.
  intros Haction Hother.
  assert (Heqb : ActionType_eqb (Action.type action) MEASUREMENT = false)
    by (destruct (Action.type action); try reflexivity; contradiction).
  unfold _update_object_references, bind, actions.get_action, lift.
  rewrite Haction.
  destruct (_get_object_properties object) as [properties| |]; try reflexivity.
  cbn [fst snd]. clear Haction.
  induction properties as [|p rest IH]; [reflexivity|].
  cbn [for_each]. unfold bind.
  pose proof (update_reference_not_measurement object user_id
                (Action.type action) p s Heqb) as Hp.
  destruct (update_reference object user_id (Action.type action) p s)
    as [[[]| |] s1]; cbn [snd] in Hp |- *; subst s1; try reflexivity.
  exact IH.
Qed.

Lemma reference_tracker_only_for_measurements_witness :
  action_table scenario_with_samples !! 2 = Some sample_creation_action /\
  Action.type sample_creation_action <> MEASUREMENT /\
  snd (_update_object_references
         (Object.make 1 0 2 (example_data (JNum 5)) example_schema 1) 1
         scenario_with_samples) = scenario_with_samples.
Proof.
  assert (Haction :
    action_table scenario_with_samples !! 2 = Some sample_creation_action)
    by reflexivity.
  assert (Hother : Action.type sample_creation_action <> MEASUREMENT)
    by discriminate.
  split; [exact Haction|]. split; [exact Hother|].
  exact (reference_tracker_only_for_measurements
           (Object.make 1 0 2 (example_data (JNum 5)) example_schema 1) 1
           scenario_with_samples sample_creation_action Haction Hother).
Defined.

(** ** The reference tracker: creation, and the lookup in the previous version *)

Lemma ne_JNull (v : json) : Py.is_none v = false -> Py.ne v JNull = true.
Proof. destruct v; simpl; intros H; try reflexivity; discriminate. Qed.

(** X12. On version 0 of a measurement, when [_update_object_references]
    returns, it has appended exactly one "used in measurement" entry for
    each sample-typed leaf that holds a reference, in the walker's order:
    at creation every referenced sample is logged, there being no previous
    reference. *)
Theorem reference_tracker_at_creation (s s' : State) (object : Object)
    (user_id : Z) (action : Action) (properties : list property) :
  Object.version_id object = 0 ->
  action_table s !! Object.action_id object = Some action ->
  Action.type action = MEASUREMENT ->
  _get_object_properties object = Ok properties ->
  _update_object_references object user_id s = (Ok tt, s') ->
  object_log_entries s' =
    object_log_entries s ++
    map (fun p =>
           OL_USE_OBJECT_IN_MEASUREMENT (reference_of (snd p)) user_id
             (Object.object_id object))
      (List.filter (fun p =>
           declared_sample (snd (fst p)) &&
           negb (Py.is_none (reference_of (snd p)))) properties).
Proof.
  intros Hversion Haction Hmeasurement Hproperties.
  unfold _update_object_references, bind, actions.get_action, lift.
  rewrite Haction, Hproperties, Hmeasurement. intros Hloop.
  apply for_each_update_reference_Ok in Hloop; [|lia]. subst s'.
  cbn [with_object_log object_log_entries]. f_equal.
  unfold reference_events.
  rewrite (List.filter_ext (emits_use MEASUREMENT s object)
             (fun p => declared_sample (snd (fst p)) &&
                       negb (Py.is_none (reference_of (snd p))))).
  - apply map_ext. intros [[path schema] data]. reflexivity.
  - intros [[path schema] data]. unfold emits_use, previous_reference.
    cbn [fst snd]. rewrite Hversion. cbn [Z.eqb ActionType_eqb].
    rewrite andb_true_r.
    destruct (declared_sample schema); [|reflexivity]. cbn [andb].
    destruct (Py.is_none (reference_of data)) eqn:Hnone; [reflexivity|].
    cbn [negb andb]. apply ne_JNull. exact Hnone.
Qed.

Lemma reference_tracker_at_creation_witness :
  Object.version_id scenario_version_0 = 0 /\
  action_table scenario_created !! Object.action_id scenario_version_0 =
    Some measurement_action /\
  Action.type measurement_action = MEASUREMENT /\
  _get_object_properties scenario_version_0 = Ok [sample_leaf (JNum 5)] /\
  _update_object_references scenario_version_0 1 scenario_created =
    (Ok tt,
     with_object_log [OL_USE_OBJECT_IN_MEASUREMENT (JNum 5) 1 1] scenario_created) /\
  object_log_entries
    (with_object_log [OL_USE_OBJECT_IN_MEASUREMENT (JNum 5) 1 1] scenario_created) =
    object_log_entries scenario_created ++
    map (fun p =>
           OL_USE_OBJECT_IN_MEASUREMENT (reference_of (snd p)) 1
             (Object.object_id scenario_version_0))
      (List.filter (fun p =>
           declared_sample (snd (fst p)) &&
           negb (Py.is_none (reference_of (snd p)))) [sample_leaf (JNum 5)]).
Proof.
  assert (Haction :
    action_table scenario_created !! Object.action_id scenario_version_0 =
    Some measurement_action) by (vm_compute; reflexivity).
  assert (Hrun :
    _update_object_references scenario_version_0 1 scenario_created =
    (Ok tt,
     with_object_log [OL_USE_OBJECT_IN_MEASUREMENT (JNum 5) 1 1] scenario_created))
    by (vm_compute; reflexivity).
  split; [reflexivity|]. split; [exact Haction|]. split; [reflexivity|].
  split; [reflexivity|]. split; [exact Hrun|].
  exact (reference_tracker_at_creation _ _ scenario_version_0 1
           measurement_action [sample_leaf (JNum 5)] eq_refl Haction eq_refl
           eq_refl Hrun).
Defined.

Lemma is_sample_reference_true (schema data referenced : json) :
  declared_sample schema = true ->
  Py.getitem data (JStr "object_id") = Ok referenced ->
  Py.is_none referenced = false ->
  is_sample_reference schema data = Ok true.
Proof.
  unfold declared_sample, is_sample_reference. intros Hsample Hget Hnone.
  destruct (Py.getitem schema (JStr "type")) as [ty| |]; try discriminate.
  cbn [res_bind]. rewrite Hsample.
  apply getitem_str_Ok in Hget as Hdict. destruct Hdict as [fields [-> _]].
  cbn [Py.is_none negb]. rewrite Hget. cbn [res_bind]. rewrite Hnone.
  reflexivity.
Qed.

(** X13. The lookup of the previous reference, for a sample-typed leaf that
    holds a reference, on a version above 0 whose preceding version is
    [previous].  A missing key or an index out of range on the path counts
    as "no previous reference": the round returns, and emits the entry when
    the action is a measurement.  But when the path leads to a dictionary
    without [object_id], the [KeyError] is not caught, and a [TypeError] on
    the path is not caught either: the round raises and emits nothing. *)
Theorem reference_tracker_previous_lookup (object : Object) (user_id : Z)
    (action_type : ActionType) (path : list json)
    (schema data referenced : json) (previous : Object) (s : State) :
  declared_sample schema = true ->
  Py.getitem data (JStr "object_id") = Ok referenced ->
  Py.is_none referenced = false ->
  Object.version_id object > 0 ->
  get_object (Object.object_id object) (Some (Object.version_id object - 1)) s =
    (Ok previous, s) ->
  let round :=
    update_reference object user_id action_type (path, schema, data) s in
  (walk_path (Object.data previous) path = Raise KeyError \/
   walk_path (Object.data previous) path = Raise IndexError ->
   round =
     (Ok tt,
      if ActionType_eqb action_type MEASUREMENT
      then add_object_log
             (OL_USE_OBJECT_IN_MEASUREMENT referenced user_id
                (Object.object_id object)) s
      else s)) /\
  (forall fields,
      walk_path (Object.data previous) path = Ok (JObj fields) ->
      Py.dict_get "object_id" fields = None ->
      round = (Raise KeyError, s)) /\
  (walk_path (Object.data previous) path = Raise TypeError ->
   round = (Raise TypeError, s)).
Proof.
  intros Hsample Hget Hnone Hversion Hprevious round. subst round.
  unfold update_reference, bind, lift, ret.
  rewrite (is_sample_reference_true _ _ _ Hsample Hget Hnone), Hget.
  replace (Object.version_id object >? 0) with true
    by (symmetry; apply Z.gtb_lt; lia).
  rewrite Hprevious. unfold previous_reference_in.
  split; [|split].
  - intros [Hwalk|Hwalk]; rewrite Hwalk; rewrite (ne_JNull _ Hnone);
      destruct (ActionType_eqb action_type MEASUREMENT); reflexivity.
  - intros fields Hwalk Hmissing. rewrite Hwalk. cbn [Py.is_none negb].
    unfold Py.getitem. rewrite Hmissing. reflexivity.
  - intros Hwalk. rewrite Hwalk. reflexivity.
Qed.

Lemma reference_tracker_previous_lookup_witness :
  declared_sample sample_schema = true /\
  Py.getitem (JObj [("object_id", JNum 7)]) (JStr "object_id") = Ok (JNum 7) /\
  Py.is_none (JNum 7) = false /\
  Object.version_id (scenario_version_1 (JNum 7)) > 0 /\
  get_object (Object.object_id (scenario_version_1 (JNum 7)))
    (Some (Object.version_id (scenario_version_1 (JNum 7)) - 1)) scenario_updated =
    (Ok scenario_version_0, scenario_updated) /\
  walk_path (Object.data scenario_version_0) [JStr "b"] = Raise KeyError /\
  update_reference (scenario_version_1 (JNum 7)) 1 MEASUREMENT
    ([JStr "b"], sample_schema, JObj [("object_id", JNum 7)]) scenario_updated =
    (Ok tt,
     add_object_log (OL_USE_OBJECT_IN_MEASUREMENT (JNum 7) 1 1) scenario_updated) /\
  walk_path (Object.data scenario_version_0) [] =
    Ok (JObj [("a", JObj [("object_id", JNum 5)])]) /\
  Py.dict_get "object_id" [("a", JObj [("object_id", JNum 5)])] = None /\
  update_reference (scenario_version_1 (JNum 7)) 1 MEASUREMENT
    ([], sample_schema, JObj [("object_id", JNum 7)]) scenario_updated =
    (Raise KeyError, scenario_updated) /\
  walk_path (Object.data scenario_version_0)
    [JStr "a"; JStr "object_id"; JStr "x"] = Raise TypeError /\
  update_reference (scenario_version_1 (JNum 7)) 1 MEASUREMENT
    ([JStr "a"; JStr "object_id"; JStr "x"], sample_schema,
     JObj [("object_id", JNum 7)]) scenario_updated =
    (Raise TypeError, scenario_updated).
Proof.
  assert (Hversion : Object.version_id (scenario_version_1 (JNum 7)) > 0)
    by (simpl; lia).
  assert (Hprevious :
    get_object (Object.object_id (scenario_version_1 (JNum 7)))
      (Some (Object.version_id (scenario_version_1 (JNum 7)) - 1))
      scenario_updated = (Ok scenario_version_0, scenario_updated))
    by (vm_compute; reflexivity).
  pose proof (fun path =>
    reference_tracker_previous_lookup (scenario_version_1 (JNum 7)) 1
      MEASUREMENT path sample_schema (JObj [("object_id", JNum 7)]) (JNum 7)
      scenario_version_0 scenario_updated eq_refl eq_refl eq_refl Hversion
      Hprevious) as Hlookup.
  split; [reflexivity|]. split; [reflexivity|]. split; [reflexivity|].
  split; [exact Hversion|]. split; [exact Hprevious|].
  split; [reflexivity|].
  split; [exact (proj1 (Hlookup [JStr "b"]) (or_introl eq_refl))|].
  split; [reflexivity|]. split; [reflexivity|].
  split; [exact (proj1 (proj2 (Hlookup [])) _ eq_refl eq_refl)|].
  split; [reflexivity|].
  exact (proj2 (proj2 (Hlookup [JStr "a"; JStr "object_id"; JStr "x"])) eq_refl).
Defined.

(** ** Python's [==] on values with distinct keys *)

Lemma eq_JArr_cons (x y : json) (xs ys : list json) :
  Py.eq (JArr (x :: xs)) (JArr (y :: ys)) =
  Py.eq x y && Py.eq (JArr xs) (JArr ys).
Proof. reflexivity. Qed.

Lemma eq_JObj (fields others : list (string * json)) :
  Py.eq (JObj fields) (JObj others) =
  Nat.eqb (length fields) (length others) && dict_included fields others.
Proof.
  change (Py.eq (JObj fields) (JObj others)) with
    (Nat.eqb (length fields) (length others) &&
     (fix all_in (fs : list (string * json)) : bool :=
        match fs with
        | [] => true
        | (k, v) :: fs' =>
            match Py.dict_get k others with
            | Some w => Py.eq v w
            | None => false
            end && all_in fs'
        end) fields).
  f_equal. unfold dict_included.
  induction fields as [|[k v] rest IH]; [reflexivity|].
  cbn [forallb fst snd]. rewrite <- IH. reflexivity.
Qed.

Lemma distinct_NoDup (keys : list string) :
  distinct keys = true -> List.NoDup keys.
Proof.
  induction keys as [|k rest IH]; simpl; intros H; [constructor|].
  apply andb_prop in H as [Hk Hrest]. constructor; [|auto].
  intros Hin. apply negb_true_iff in Hk.
  assert (Hex : existsb (String.eqb k) rest = true).
  { apply existsb_exists. exists k. split; [exact Hin|apply String.eqb_refl]. }
  congruence.
Qed.

Lemma In_depth_items (items : list json) (x : json) :
  In x items -> (json_depth x < json_depth (JArr items))%nat.
Proof.
  intros Hin. apply In_nth_error in Hin as [n Hn].
  eapply nth_error_depth. exact Hn.
Qed.

Lemma In_depth_fields (fields : list (string * json)) (k : string) (v : json) :
  In (k, v) fields -> (json_depth v < json_depth (JObj fields))%nat.
Proof.
  induction fields as [|[k' w] rest IH]; simpl; [contradiction|].
  intros [H|H].
  - injection H as -> ->. lia.
  - specialize (IH H). simpl in IH. lia.
Qed.

(** On values whose dictionaries have distinct keys, [==] is reflexive. *)
Lemma eq_reflexive (v : json) : unique_keys v = true -> Py.eq v v = true.
Proof.
  remember (S (json_depth v)) as n eqn:Hn.
  assert (Hdepth : (json_depth v < n)%nat) by lia. clear Hn.
  revert v Hdepth. induction n as [|n IH]; intros v Hdepth Hkeys; [lia|].
  destruct v as [ | b | z | str | items | fields ].
  - reflexivity.
  - destruct b; reflexivity.
  - apply Z.eqb_refl.
  - apply String.eqb_refl.
  - assert (Hall : forall x, In x items -> Py.eq x x = true).
    { intros x Hx. apply IH.
      - apply In_depth_items in Hx. lia.
      - cbn [unique_keys] in Hkeys.
        exact (proj1 (forallb_forall _ _) Hkeys x Hx). }
    clear Hdepth Hkeys. induction items as [|x rest IHr]; [reflexivity|].
    rewrite eq_JArr_cons, (Hall x (or_introl eq_refl)), IHr; [reflexivity|].
    intros y Hy. apply Hall. right. exact Hy.
  - cbn [unique_keys] in Hkeys. apply andb_prop in Hkeys as [Hdistinct Hvalues].
    apply distinct_NoDup in Hdistinct.
    rewrite eq_JObj, Nat.eqb_refl. cbn [andb]. unfold dict_included.
    apply forallb_forall. intros [k x] Hx. cbn [fst snd].
    rewrite (dict_get_In _ _ _ Hdistinct Hx). apply IH.
    + apply In_depth_fields in Hx. lia.
    + exact (proj1 (forallb_forall _ _) Hvalues (k, x) Hx).
Qed.

Lemma dict_get_Some_In (k : string) (fields : list (string * json)) (v : json) :
  Py.dict_get k fields = Some v -> In (k, v) fields.
Proof.
  induction fields as [|[k' w] rest IH]; simpl; [discriminate|].
  destruct (String.eqb k k') eqn:E.
  - apply String.eqb_eq in E. subst k'. intros H; injection H as ->. left.
    reflexivity.
  - intros H. right. apply IH. exact H.
Qed.

Lemma chars_unique_keys (s : string) (n : nat) (v : json) :
  nth_error (Py.chars s) n = Some v -> unique_keys v = true.
Proof.
  revert n. induction s as [|c s IH]; intros [|n]; simpl; try discriminate.
  - intros H; injection H as <-. reflexivity.
  - apply IH.
Qed.

Lemma getitem_unique_keys (container key v : json) :
  unique_keys container = true -> Py.getitem container key = Ok v ->
  unique_keys v = true.
Proof.
  intros Hkeys. unfold Py.getitem.
  destruct container as [ | b | z | str | items | fields ]; try discriminate.
  - destruct key; try discriminate; intros H;
      apply seq_index_Ok in H as [pos H]; eapply chars_unique_keys; exact H.
  - cbn [unique_keys] in Hkeys.
    destruct key; try discriminate; intros H;
      apply seq_index_Ok in H as [pos H]; apply nth_error_In in H;
      exact (proj1 (forallb_forall _ _) Hkeys _ H).
  - cbn [unique_keys] in Hkeys. apply andb_prop in Hkeys as [_ Hvalues].
    destruct key; try discriminate.
    destruct (Py.dict_get s fields) eqn:Hget; [|discriminate].
    intros H; injection H as ->. apply dict_get_Some_In in Hget.
    exact (proj1 (forallb_forall _ _) Hvalues _ Hget).
Qed.

Lemma walk_path_unique_keys (path : list json) (data leaf : json) :
  unique_keys data = true -> walk_path data path = Ok leaf ->
  unique_keys leaf = true.
Proof.
  revert data. induction path as [|k rest IH]; intros data Hkeys; simpl.
  - intros H; injection H as <-. exact Hkeys.
  - destruct (Py.getitem data k) as [next| |] eqn:Hk; cbn [res_bind];
      try discriminate.
    apply IH. eapply getitem_unique_keys; eassumption.
Qed.

(** ** An update that changes no reference *)

Lemma gapless_from_bounds (a : nat) (rows : list Object) (o : Object) :
  gapless_from a rows -> In o rows ->
  Z.of_nat a <= Object.version_id o < Z.of_nat (a + length rows).
Proof.
  intros Hg Hin.
  assert (Hv : In (Object.version_id o) (version_ids rows))
    by (apply in_map; exact Hin).
  rewrite Hg in Hv. apply in_map_iff in Hv as [i [Hi Hseq]].
  apply in_seq in Hseq. lia.
Qed.

Lemma gapless_from_unique (a : nat) (rows : list Object) (o1 o2 : Object) :
  gapless_from a rows -> In o1 rows -> In o2 rows ->
  Object.version_id o1 = Object.version_id o2 -> o1 = o2.
Proof.
  revert a. induction rows as [|r rest IH]; intros a Hg; [contradiction|].
  unfold gapless_from, version_ids in Hg. simpl in Hg.
  injection Hg as Hr Hrest.
  intros [<-|H1] [<-|H2] Hv; try reflexivity.
  - pose proof (gapless_from_bounds (S a) rest o2 Hrest H2). lia.
  - pose proof (gapless_from_bounds (S a) rest o1 Hrest H1). lia.
  - exact (IH (S a) Hrest H1 H2 Hv).
Qed.

Lemma update_reference_unchanged (object : Object) (user_id : Z)
    (action_type : ActionType) (path : list json) (schema leaf : json)
    (previous : Object) (s : State) :
  Object.version_id object > 0 ->
  get_object (Object.object_id object) (Some (Object.version_id object - 1)) s =
    (Ok previous, s) ->
  walk_path (Object.data previous) path = Ok leaf ->
  unique_keys leaf = true ->
  snd (update_reference object user_id action_type (path, schema, leaf) s) = s.
Proof.
  intros Hversion Hprevious Hwalk Hkeys.
  unfold update_reference, bind, lift, ret.
  destruct (is_sample_reference schema leaf) as [[|]| |] eqn:Hguard;
    try reflexivity.
  apply is_sample_reference_Ok in Hguard as [Hguard Hcurrent].
  specialize (Hcurrent eq_refl). rewrite Hcurrent.
  symmetry in Hguard. apply andb_prop in Hguard as [_ Hnone].
  apply negb_true_iff in Hnone.
  replace (Object.version_id object >? 0) with true
    by (symmetry; apply Z.gtb_lt; lia).
  rewrite Hprevious. unfold previous_reference_in. rewrite Hwalk.
  apply getitem_str_Ok in Hcurrent as Hdict.
  destruct Hdict as [fields [Hleaf _]].
  replace (negb (Py.is_none leaf)) with true by (rewrite Hleaf; reflexivity).
  rewrite Hcurrent. cbn [res_bind]. rewrite Hnone. cbn [negb fst snd].
  unfold Py.ne.
  rewrite (eq_reflexive _ (getitem_unique_keys _ _ _ Hkeys Hcurrent)).
  reflexivity.
Qed.

(** X14. In a reachable store, calling [update_object] with the data the
    current version already holds emits no "used in measurement" entry: the
    only entry added to the object log is the edit entry (the data being a
    Python value whose arrays are sequences where the schema of the action
    says [array]).  References that did not change are not logged again. *)
Theorem update_object_same_data_emits_nothing (s : State) (object_id : Z)
    (user_id : Z) (current : Object) :
  reachable s ->
  get_object object_id None s = (Ok current, s) ->
  (forall action,
      action_table s !! Object.action_id current = Some action ->
      arrays_hold_sequences (Action.schema action) (Object.data current)) ->
  unique_keys (Object.data current) = true ->
  object_log_entries
    (snd (update_object object_id (Object.data current) user_id s)) =
  object_log_entries s ++
  [OL_EDIT_OBJECT object_id user_id (Object.version_id current + 1)].
Proof.
  intros Hreach Hget Hfit Hkeys.
  apply reachable_store_ok in Hreach as [Hgapless _ Hactions].
  apply get_object_current_newest in Hget as Hnew.
  assert (Hrow : In current (Objects.rows_of object_id (objects_table s)))
    by (apply newest_Some in Hnew; tauto).
  apply rows_of_In in Hrow as Hin. destruct Hin as [Hin Hid].
  destruct (Hactions current Hin) as [action Haction].
  specialize (Hfit action Haction).
  rewrite update_object_eq, Hnew, Haction. cbv zeta.
  set (object := next_version current (Object.data current)
                   (Action.schema action) user_id).
  match goal with
  | |- context [_update_object_references object user_id ?s1] =>
      set (before := s1)
  end.
  assert (Hversion : Object.version_id object > 0).
  { pose proof (gapless_bounds _ _ (Hgapless object_id) Hrow).
    cbn [object next_version Object.version_id]. lia. }
  assert (Hprevious :
    get_object (Object.object_id object)
      (Some (Object.version_id object - 1)) before = (Ok current, before)).
  { cbn [object next_version Object.object_id Object.version_id].
    replace (Object.version_id current + 1 - 1) with (Object.version_id current)
      by lia.
    rewrite Hid.
    unfold get_object, bind, Objects.get_object_version, gets, ret.
    change (objects_table before) with (objects_table s ++ [object]).
    rewrite rows_of_app.
    destruct (List.find (fun o => Object.version_id o =? Object.version_id current)
                (Objects.rows_of object_id (objects_table s)))
      as [found|] eqn:Hfind.
    - rewrite (find_app_found _ _ _ _ Hfind).
      apply List.find_some in Hfind as [Hfound Hv]. apply Z.eqb_eq in Hv.
      rewrite (gapless_from_unique _ _ _ _ (Hgapless object_id) Hfound Hrow Hv).
      reflexivity.
    - pose proof (List.find_none _ _ Hfind current Hrow) as Habs.
      cbn in Habs. rewrite Z.eqb_refl in Habs. discriminate. }
  assert (Hsame : snd (_update_object_references object user_id before) = before).
  { unfold _update_object_references, bind, actions.get_action, lift.
    change (action_table before) with (action_table s).
    change (Object.action_id object) with (Object.action_id current).
    rewrite Haction.
    destruct (_get_object_properties object) as [properties| |] eqn:Hwalk;
      try reflexivity.
    cbn [fst snd].
    assert (Hresolve : forall p, In p properties ->
      walk_path (Object.data current) (fst (fst p)) = Ok (snd p)).
    { intros p Hp.
      destruct (iter_object_properties_resolve _ [] (Action.schema action)
                  (Object.data current) properties p Hfit Hwalk Hp)
        as [suffix [Hpath Hleaf]].
      rewrite Hpath. exact Hleaf. }
    clear Hwalk.
    induction properties as [|p rest IH]; [reflexivity|].
    cbn [for_each]. unfold bind.
    assert (Hp : snd (update_reference object user_id (Action.type action) p
                        before) = before).
    { destruct p as [[path schema] leaf].
      pose proof (Hresolve _ (or_introl eq_refl)) as Hleaf. cbn [fst snd] in Hleaf.
      eapply update_reference_unchanged; try eassumption.
      eapply walk_path_unique_keys; eassumption. }
    destruct (update_reference object user_id (Action.type action) p before)
      as [[[]| |] s1]; cbn [snd] in Hp |- *; subst s1; try reflexivity.
    apply IH. intros q Hq. apply Hresolve. right. exact Hq. }
  rewrite Hsame. reflexivity.
Qed.

Lemma example_data_fits (referenced : json) :
  arrays_hold_sequences example_schema (example_data referenced).
Proof.
  apply sequences_object; [reflexivity|].
  intros props name sub_schema sub_data Hprops Hsub _.
  vm_compute in Hprops. injection Hprops as <-.
  unfold Py.getitem in Hsub. destruct name; try discriminate Hsub.
  cbn [Py.dict_get] in Hsub. destruct (String.eqb _ _); [|discriminate Hsub].
  injection Hsub as <-.
  apply (sequences_leaf _ _ (JStr "sample")); [reflexivity| |]; discriminate.
Defined.

Lemma update_object_same_data_emits_nothing_witness :
  reachable scenario_updated /\
  get_object 1 None scenario_updated =
    (Ok (scenario_version_1 (JNum 7)), scenario_updated) /\
  (forall action,
      action_table scenario_updated !!
        Object.action_id (scenario_version_1 (JNum 7)) = Some action ->
      arrays_hold_sequences (Action.schema action)
        (Object.data (scenario_version_1 (JNum 7)))) /\
  unique_keys (Object.data (scenario_version_1 (JNum 7))) = true /\
  object_log_entries
    (snd (update_object 1 (Object.data (scenario_version_1 (JNum 7))) 1
            scenario_updated)) =
  object_log_entries scenario_updated ++
  [OL_EDIT_OBJECT 1 1 (Object.version_id (scenario_version_1 (JNum 7)) + 1)].
Proof.
  assert (Hget : get_object 1 None scenario_updated =
                 (Ok (scenario_version_1 (JNum 7)), scenario_updated))
    by (vm_compute; reflexivity).
  assert (Hfit : forall action,
    action_table scenario_updated !!
      Object.action_id (scenario_version_1 (JNum 7)) = Some action ->
    arrays_hold_sequences (Action.schema action)
      (Object.data (scenario_version_1 (JNum 7)))).
  { intros action Haction. vm_compute in Haction. injection Haction as <-.
    exact (example_data_fits (JNum 7)). }
  split; [exact scenario_updated_reachable|]. split; [exact Hget|].
  split; [exact Hfit|]. split; [reflexivity|].
  exact (update_object_same_data_emits_nothing scenario_updated 1 1
           (scenario_version_1 (JNum 7)) scenario_updated_reachable Hget Hfit
           eq_refl).
Defined.

(** ** Mail tasks: posting and handling *)

(** X15. A task posted by [post_send_mail_task] is one that
    [handle_send_mail_task] can handle: it is posted with the type
    [send_mail], and when the configuration has a [MAIL_SENDER], handling
    its data reaches the transport with the message made of the posted
    subject, recipients, text (as body) and html and of the configured
    sender, so that the handler returns [True] or [False] or raises
    exactly as the transport decides. *)
Theorem posted_mail_task_is_handled {Posted : Type}
    (post_background_task : string -> json -> bool -> Posted)
    (mail_send : send_mail.Message -> res unit) (config sender : json)
    (subject : string) (recipients : list string) (text html : string)
    (auto_delete : bool) :
  Py.getitem config (JStr "MAIL_SENDER") = Ok sender ->
  let data := send_mail_task_data subject recipients text html in
  let message :=
    send_mail.mkMessage (JStr subject) sender (JArr (map JStr recipients))
      (JStr text) (JStr html) in
  post_send_mail_task post_background_task subject recipients text html
    auto_delete = post_background_task "send_mail" data auto_delete /\
  send_mail.send_message mail_send config data = mail_send message /\
  (mail_send message = Ok tt ->
   send_mail.handle_send_mail_task mail_send config data = Ok true) /\
  (mail_send message = Raise SMTPRecipientsRefused ->
   send_mail.handle_send_mail_task mail_send config data = Ok false) /\
  (forall e, mail_send message = Raise e -> e <> SMTPRecipientsRefused ->
   send_mail.handle_send_mail_task mail_send config data = Raise e).
Proof.
  intros Hsender data message.
  assert (Hsend : send_mail.send_message mail_send config data =
                  mail_send message).
  { unfold send_mail.send_message, send_mail.message_of, data,
      send_mail_task_data.
    rewrite Hsender. reflexivity. }
  split; [reflexivity|]. split; [exact Hsend|].
  unfold send_mail.handle_send_mail_task. rewrite Hsend.
  split; [|split].
  - intros ->. reflexivity.
  - intros ->. reflexivity.
  - intros e -> Hne. destruct e; try reflexivity. contradiction.
Qed.

Lemma posted_mail_task_is_handled_witness :
  Py.getitem mail_config (JStr "MAIL_SENDER") = Ok (JStr "sampledb@example.org") /\
  send_mail.handle_send_mail_task (fun _ => Raise SMTPRecipientsRefused)
    mail_config
    (send_mail_task_data "Hello" ["nobody@example.org"] "text" "<p>text</p>") =
  Ok false.
Proof.
  assert (Hsender : Py.getitem mail_config (JStr "MAIL_SENDER") =
                    Ok (JStr "sampledb@example.org")) by reflexivity.
  split; [exact Hsender|].
  exact (proj1 (proj2 (proj2 (proj2
    (posted_mail_task_is_handled (fun _ _ _ => tt)
       (fun _ => Raise SMTPRecipientsRefused) mail_config _
       "Hello" ["nobody@example.org"] "text" "<p>text</p>" true Hsender))))
    eq_refl).
Defined.

(** X16. When the task data is a dictionary that lacks [subject],
    [recipients], [text] or [html], or the configuration is a dictionary
    without [MAIL_SENDER], [handle_send_mail_task] raises [KeyError],
    whatever the transport would do: the message is never sent, and the
    failure is not turned into [False]. *)
Theorem handle_send_mail_task_missing_key
    (mail_send : send_mail.Message -> res unit)
    (fields settings : list (string * json)) :
  Py.dict_get "subject" fields = None \/
  Py.dict_get "recipients" fields = None \/
  Py.dict_get "text" fields = None \/
  Py.dict_get "html" fields = None \/
  Py.dict_get "MAIL_SENDER" settings = None ->
  send_mail.handle_send_mail_task mail_send (JObj settings) (JObj fields) =
  Raise KeyError.
Proof.
  intros Hmissing.
  unfold send_mail.handle_send_mail_task, send_mail.send_message,
    send_mail.message_of, Py.getitem.
  destruct (Py.dict_get "subject" fields); [|reflexivity].
  destruct (Py.dict_get "MAIL_SENDER" settings); [|reflexivity].
  destruct (Py.dict_get "recipients" fields); [|reflexivity].
  destruct (Py.dict_get "text" fields); [|reflexivity].
  destruct (Py.dict_get "html" fields); [|reflexivity].
  exfalso. destruct Hmissing as [H|[H|[H|[H|H]]]]; discriminate H.
Qed.

Lemma handle_send_mail_task_missing_key_witness :
  (Py.dict_get "subject" [("subject", JStr "Hello")] = None \/
   Py.dict_get "recipients" [("subject", JStr "Hello")] = None \/
   Py.dict_get "text" [("subject", JStr "Hello")] = None \/
   Py.dict_get "html" [("subject", JStr "Hello")] = None \/
   Py.dict_get "MAIL_SENDER" [("MAIL_SENDER", JStr "sampledb@example.org")] =
     None) /\
  send_mail.handle_send_mail_task (fun _ => Ok tt)
    (JObj [("MAIL_SENDER", JStr "sampledb@example.org")])
    (JObj [("subject", JStr "Hello")]) = Raise KeyError.
Proof.
  assert (Hmissing :
    Py.dict_get "subject" [("subject", JStr "Hello")] = None \/
    Py.dict_get "recipients" [("subject", JStr "Hello")] = None \/
    Py.dict_get "text" [("subject", JStr "Hello")] = None \/
    Py.dict_get "html" [("subject", JStr "Hello")] = None \/
    Py.dict_get "MAIL_SENDER" [("MAIL_SENDER", JStr "sampledb@example.org")] =
      None) by (right; left; reflexivity).
  split; [exact Hmissing|].
  exact (handle_send_mail_task_missing_key (fun _ => Ok tt) _ _ Hmissing).
Defined.

(** ** The migration [drop_default_public_permissions] *)

Section drop_default_public_permissions_properties.

Import drop_default_public_permissions.

Lemma insert_loop (existing : list (Z * string)) (creators : list Z)
    (db : database) :
  fold_left (fun db creator_id =>
    if negb (has_creator creator_id existing) then insert_read creator_id db
    else db) creators db =
  mkDatabase (default_public_permissions db)
    (all_user_default_permissions db ++
     map (fun creator_id => (creator_id, "READ"))
       (List.filter (fun creator_id => negb (has_creator creator_id existing))
          creators)).
Proof.
  revert db. induction creators as [|c rest IH]; intros db; simpl.
  - rewrite app_nil_r. destruct db; reflexivity.
  - rewrite IH. destruct (negb (has_creator c existing)); [|reflexivity].
    simpl. rewrite <- app_assoc. reflexivity.
Qed.

Lemma run_eq (db : database) (rows : list (Z * bool)) :
  default_public_permissions db = Some rows ->
  run db =
  (true,
   mkDatabase None
     (all_user_default_permissions db ++
      map (fun creator_id => (creator_id, "READ"))
        (List.filter
           (fun creator_id =>
              negb (has_creator creator_id (all_user_default_permissions db)))
           (map fst (List.filter snd rows))))).
Proof.
  intros Hrows. unfold run, select_table_name, select_public_creators,
    select_all_user_default_permissions, drop_table.
  rewrite Hrows. cbv zeta. rewrite insert_loop. reflexivity.
Qed.

Lemma has_creator_In (creator_id : Z) (rows : list (Z * string)) :
  has_creator creator_id rows = true <->
  exists permissions, In (creator_id, permissions) rows.
Proof.
  unfold has_creator. rewrite existsb_exists. split.
  - intros [[c p] [Hin Hc]]. apply Z.eqb_eq in Hc. cbn in Hc. subst c. eauto.
  - intros [p Hin]. exists (creator_id, p). split; [exact Hin|].
    apply Z.eqb_refl.
Qed.

(** X17. When the table [default_public_permissions] exists, the migration
    returns [True] and drops the table; it keeps every row of
    [all_user_default_permissions] as it was, in place, and only appends
    rows: one with the permissions [READ] for a creator whose default was
    public and who had no row.  Afterwards every creator whose default was
    public has a row, the one they had or the new one. *)
Theorem migration_grants_read_to_public_creators (db : database)
    (rows : list (Z * bool)) :
  default_public_permissions db = Some rows ->
  fst (run db) = true /\
  default_public_permissions (snd (run db)) = None /\
  (exists inserted,
      all_user_default_permissions (snd (run db)) =
        all_user_default_permissions db ++ inserted /\
      forall creator_id permissions,
        In (creator_id, permissions) inserted ->
        permissions = "READ" /\ In (creator_id, true) rows /\
        forall old, ~ In (creator_id, old) (all_user_default_permissions db)) /\
  (forall creator_id,
      In (creator_id, true) rows ->
      exists permissions,
        In (creator_id, permissions)
          (all_user_default_permissions (snd (run db)))).
Proof.
  intros Hrows. rewrite (run_eq db rows Hrows). cbn [fst snd].
  split; [reflexivity|]. split; [reflexivity|]. split.
  - eexists. split; [reflexivity|].
    intros c p Hin. apply in_map_iff in Hin as [c' [Heq Hc']].
    injection Heq as -> <-. apply List.filter_In in Hc' as [Hpublic Hfresh].
    split; [reflexivity|]. split.
    + apply in_map_iff in Hpublic as [[c0 b] [Hc0 Hrow]]. cbn in Hc0. subst c0.
      apply List.filter_In in Hrow as [Hrow Hb]. cbn in Hb. subst b. exact Hrow.
    + intros old Hold. apply negb_true_iff in Hfresh.
      assert (Hhas : has_creator c (all_user_default_permissions db) = true)
        by (apply has_creator_In; eauto).
      congruence.
  - intros c Hc. cbn [all_user_default_permissions].
    destruct (has_creator c (all_user_default_permissions db)) eqn:Hhas.
    + apply has_creator_In in Hhas as [p Hp]. exists p.
      apply in_or_app. left. exact Hp.
    + exists "READ". apply in_or_app. right.
      apply in_map_iff. exists c. split; [reflexivity|].
      apply List.filter_In. split.
      * apply in_map_iff. exists (c, true). split; [reflexivity|].
        apply List.filter_In. split; [exact Hc|reflexivity].
      * rewrite Hhas. reflexivity.
Qed.

Lemma migration_grants_read_to_public_creators_witness :
  default_public_permissions
    (mkDatabase (Some [(1, true); (2, false); (3, true)]) [(3, "WRITE")]) =
    Some [(1, true); (2, false); (3, true)] /\
  run (mkDatabase (Some [(1, true); (2, false); (3, true)]) [(3, "WRITE")]) =
    (true, mkDatabase None [(3, "WRITE"); (1, "READ")]) /\
  fst (run (mkDatabase (Some [(1, true); (2, false); (3, true)])
              [(3, "WRITE")])) = true.
Proof.
  split; [reflexivity|]. split; [reflexivity|].
  exact (proj1 (migration_grants_read_to_public_creators
                  (mkDatabase (Some [(1, true); (2, false); (3, true)])
                     [(3, "WRITE")]) _ eq_refl)).
Defined.

(** X18. The migration runs once: when the table
    [default_public_permissions] does not exist it returns [False] and
    leaves the database as it is, and after any run the table does not
    exist, so that a second run returns [False] and changes nothing. *)
Theorem migration_runs_once (db : database) :
  (default_public_permissions db = None -> run db = (false, db)) /\
  run (snd (run db)) = (false, snd (run db)).
Proof.
  assert (Habsent : forall d, default_public_permissions d = None ->
                              run d = (false, d)).
  { intros d Hnone. unfold run, select_table_name. rewrite Hnone. reflexivity. }
  split; [apply Habsent|]. apply Habsent.
  destruct (default_public_permissions db) as [rows|] eqn:Hrows.
  - rewrite (run_eq db rows Hrows). reflexivity.
  - rewrite (Habsent db Hrows). exact Hrows.
Qed.

Lemma migration_runs_once_witness :
  default_public_permissions (mkDatabase None [(3, "WRITE")]) = None /\
  run (mkDatabase None [(3, "WRITE")]) =
    (false, mkDatabase None [(3, "WRITE")]).
Proof.
  split; [reflexivity|].
  exact (proj1 (migration_runs_once (mkDatabase None [(3, "WRITE")])) eq_refl).
Defined.

Lemma NoDup_app_disjoint {A : Type} (l m : list A) :
  List.NoDup l -> List.NoDup m -> (forall x, In x l -> ~ In x m) ->
  List.NoDup (l ++ m).
Proof.
  intros Hl Hm Hdisjoint. induction Hl as [|x l Hx Hl IH]; [exact Hm|].
  simpl. constructor.
  - intros Hin. apply in_app_or in Hin as [Hin|Hin]; [contradiction|].
    exact (Hdisjoint x (or_introl eq_refl) Hin).
  - apply IH. intros y Hy. apply Hdisjoint. right. exact Hy.
Qed.

Lemma NoDup_filter {A : Type} (f : A -> bool) (l : list A) :
  List.NoDup l -> List.NoDup (List.filter f l).
Proof.
  induction 1 as [|x l Hx Hl IH]; simpl; [constructor|].
  destruct (f x); [|exact IH]. constructor; [|exact IH].
  intros Hin. apply List.filter_In in Hin. tauto.
Qed.

(** X19. The inserts of the migration never collide with a key: when each
    creator has at most one row in [all_user_default_permissions] and at
    most one public row in [default_public_permissions], each creator
    still has at most one row in [all_user_default_permissions] after the
    run. *)
Theorem migration_keeps_creators_distinct (db : database) :
  List.NoDup (map fst (all_user_default_permissions db)) ->
  List.NoDup (select_public_creators db) ->
  List.NoDup (map fst (all_user_default_permissions (snd (run db)))).
Proof.
  intros Hexisting Hpublic.
  destruct (default_public_permissions db) as [rows|] eqn:Hrows.
  - unfold select_public_creators in Hpublic. rewrite Hrows in Hpublic.
    rewrite (run_eq db rows Hrows). cbn [snd all_user_default_permissions].
    rewrite map_app, map_map. cbn [fst]. rewrite map_id.
    apply NoDup_app_disjoint; [exact Hexisting|apply NoDup_filter; exact Hpublic|].
    intros c Hc Hin. apply List.filter_In in Hin as [_ Hfresh].
    apply negb_true_iff in Hfresh. apply in_map_iff in Hc as [[c' p] [Heq Hrow]].
    cbn in Heq. subst c'.
    assert (Hhas : has_creator c (all_user_default_permissions db) = true)
      by (apply has_creator_In; eauto).
    congruence.
  - unfold run, select_table_name. rewrite Hrows. exact Hexisting.
Qed.

Lemma migration_keeps_creators_distinct_witness :
  List.NoDup (map fst (all_user_default_permissions
    (mkDatabase (Some [(1, true); (2, false); (3, true)]) [(3, "WRITE")]))) /\
  List.NoDup (select_public_creators
    (mkDatabase (Some [(1, true); (2, false); (3, true)]) [(3, "WRITE")])) /\
  List.NoDup (map fst (all_user_default_permissions (snd (run
    (mkDatabase (Some [(1, true); (2, false); (3, true)]) [(3, "WRITE")]))))).
Proof.
  assert (Hexisting : List.NoDup (map fst (all_user_default_permissions
    (mkDatabase (Some [(1, true); (2, false); (3, true)]) [(3, "WRITE")]))))
    by (cbn; constructor; [intros []|constructor]).
  assert (Hpublic : List.NoDup (select_public_creators
    (mkDatabase (Some [(1, true); (2, false); (3, true)]) [(3, "WRITE")]))).
  { cbn. constructor; [intros [H|[]]; discriminate H|].
    constructor; [intros []|constructor]. }
  split; [exact Hexisting|]. split; [exact Hpublic|].
  exact (migration_keeps_creators_distinct _ Hexisting Hpublic).
Defined.

End drop_default_public_permissions_properties.

(** ** The three ways of reading an object agree *)

Lemma gapless_nth (rows : list Object) (n : nat) (o : Object) :
  gapless rows -> nth_error rows n = Some o ->
  Object.version_id o = Z.of_nat n.
Proof.
  unfold gapless, gapless_from, version_ids. intros Hg Hn.
  assert (Hv : nth_error (map Object.version_id rows) n =
               Some (Object.version_id o))
    by (rewrite nth_error_map, Hn; reflexivity).
  rewrite Hg, nth_error_map in Hv.
  assert (Hlen : (n < length rows)%nat) by (apply nth_error_Some; congruence).
  rewrite (nth_error_nth' _ O) in Hv by (rewrite length_seq; exact Hlen).
  rewrite seq_nth in Hv by exact Hlen. cbn in Hv. injection Hv as ->.
  reflexivity.
Qed.

(** X20. In a reachable store the three ways of reading an object agree:
    when [get_object_versions] returns [versions], the version at position
    [n] of [versions] is the one [get_object] returns for the version id
    [n], and the current version that [get_object] returns without a
    version id is the last of [versions]. *)
Theorem get_object_agrees_with_get_object_versions (s : State)
    (object_id : Z) (versions : list Object) :
  reachable s ->
  get_object_versions object_id s = (Ok versions, s) ->
  (forall n o, nth_error versions n = Some o ->
               get_object object_id (Some (Z.of_nat n)) s = (Ok o, s)) /\
  (exists current,
      get_object object_id None s = (Ok current, s) /\
      nth_error versions (length versions - 1) = Some current).
Proof.
  intros Hreach Hversions.
  apply reachable_store_ok in Hreach as [Hgapless _ _].
  specialize (Hgapless object_id).
  assert (Hrows : Objects.rows_of object_id (objects_table s) = versions /\
                  versions <> []).
  { revert Hversions.
    unfold get_object_versions, bind, Objects.get_object_versions, gets,
      raise, ret.
    rewrite (order_by_version_gapless _ _ Hgapless).
    destruct (Objects.rows_of object_id (objects_table s)); [discriminate|].
    intros H. injection H as <-. split; [reflexivity|discriminate]. }
  destruct Hrows as [Hrows Hne]. rewrite Hrows in Hgapless.
  split.
  - intros n o Hn.
    pose proof (gapless_nth _ _ _ Hgapless Hn) as Hv.
    pose proof (nth_error_In _ _ Hn) as Hin.
    unfold get_object, bind, Objects.get_object_version, gets, ret.
    rewrite Hrows.
    destruct (List.find _ versions) as [found|] eqn:Hfind.
    + apply List.find_some in Hfind as [Hfound Hf]. apply Z.eqb_eq in Hf.
      rewrite (gapless_from_unique _ _ _ _ Hgapless Hfound Hin); [reflexivity|].
      lia.
    + pose proof (List.find_none _ _ Hfind o Hin) as Habs. cbn in Habs.
      apply Z.eqb_neq in Habs. contradiction.
  - destruct (Objects.newest versions) as [current|] eqn:Hnew;
      [|apply newest_None in Hnew; contradiction].
    exists current. split.
    + unfold get_object, bind, Objects.get_current_object, gets, ret.
      rewrite Hrows, Hnew. reflexivity.
    + pose proof (gapless_newest _ _ Hgapless Hnew) as Hcurrent.
      apply newest_Some in Hnew as [Hin _].
      assert (Hlen : (length versions - 1 < length versions)%nat)
        by (destruct versions; [contradiction|simpl; lia]).
      destruct (nth_error versions (length versions - 1)) as [last|] eqn:Hlast;
        [|apply nth_error_None in Hlast; lia].
      pose proof (gapless_nth _ _ _ Hgapless Hlast) as Hv.
      pose proof (nth_error_In _ _ Hlast) as Hin'.
      rewrite (gapless_from_unique _ _ _ _ Hgapless Hin' Hin); [reflexivity|].
      lia.
Qed.

Lemma get_object_agrees_with_get_object_versions_witness :
  reachable scenario_updated /\
  get_object_versions 1 scenario_updated =
    (Ok [scenario_version_0; scenario_version_1 (JNum 7)], scenario_updated) /\
  get_object 1 (Some (Z.of_nat 1)) scenario_updated =
    (Ok (scenario_version_1 (JNum 7)), scenario_updated).
Proof.
  assert (Hversions :
    get_object_versions 1 scenario_updated =
    (Ok [scenario_version_0; scenario_version_1 (JNum 7)], scenario_updated))
    by (vm_compute; reflexivity).
  split; [exact scenario_updated_reachable|]. split; [exact Hversions|].
  exact (proj1 (get_object_agrees_with_get_object_versions scenario_updated 1 _
                  scenario_updated_reachable Hversions) 1%nat _ eq_refl).
Defined.
